(** * Kommentify safety core: warm-up policy, cooldown, detection, timing

    A shallow embedding of the decision code of the extension
    (warmup-protocol.ts, detection-system.ts, humanization-engine.ts and
    the enums of types/index.ts) together with the properties its
    specification states about it.

    Conventions.
    - JavaScript numbers that hold counts, day numbers and millisecond
      timestamps are integers in the program and are modelled by [Z];
      [Infinity] is kept as a separate constructor of [JsNum].
    - Numbers that the program multiplies by decimal fractions (delays,
      averages, variances) are modelled by exact rationals [Q]; rounding of
      IEEE doubles is not modelled.
    - [Date.now()], [new Date().getHours()] and the random bytes of
      [crypto.getRandomValues] are inputs of the functions that read them.
    - [chrome.storage.local] and the [Map] of baselines are finite maps
      ([gmap]) from string keys. *)

From Stdlib Require Import ZArith QArith Qround Qminmax Lia Lqa.
From stdpp Require Import gmap strings list pretty.

Local Open Scope string_scope.
Local Open Scope list_scope.
Local Open Scope Z_scope.

(* ===================================================================== *)
(** * Part I: the program *)
(* ===================================================================== *)

(** ** types/index.ts *)

Inductive AlertLevel := DEFCON1 | DEFCON2 | DEFCON3 | DEFCON4 | DEFCON5.

Inductive SpeedMode := ULTRA_SLOW | SLOW | MEDIUM | NORMAL.

#[global] Instance AlertLevel_eq_dec : EqDecision AlertLevel.
Proof. solve_decision. Defined.

#[global] Instance SpeedMode_eq_dec : EqDecision SpeedMode.
Proof. solve_decision. Defined.

(** A string enum: the name of a member is its run-time value. *)
Definition SpeedMode_value (s : SpeedMode) : string :=
  match s with
  | ULTRA_SLOW => "ULTRA_SLOW"
  | SLOW => "SLOW"
  | MEDIUM => "MEDIUM"
  | NORMAL => "NORMAL"
  end.

(** [AccountAge] is a string enum too.  The tier arrives from storage and
    the code compares it with [===] and ends its chains with a default
    branch, so the run-time value is kept as the string it is. *)
Definition AccountAge := string.

Definition UNDER_3_MONTHS : AccountAge := "UNDER_3_MONTHS".
Definition THREE_TO_SIX_MONTHS : AccountAge := "THREE_TO_SIX_MONTHS".
Definition SIX_TO_TWELVE_MONTHS : AccountAge := "SIX_TO_TWELVE_MONTHS".
Definition ONE_TO_TWO_YEARS : AccountAge := "ONE_TO_TWO_YEARS".
Definition OVER_TWO_YEARS : AccountAge := "OVER_TWO_YEARS".

Definition known_tiers : list AccountAge :=
  [UNDER_3_MONTHS; THREE_TO_SIX_MONTHS; SIX_TO_TWELVE_MONTHS;
   ONE_TO_TWO_YEARS; OVER_TWO_YEARS].

Record WarmupConfig := {
  maxActionsPerDay : Z;
  maxCommentsPerDay : Z;
  minActionSpread : Z;
  allowedSpeed : list SpeedMode;
  restrictedToConnections : Z;
  requiresManualApproval : bool
}.

Record SessionState := {
  actionsToday : Z;
  actionsThisSession : Z;
  sessionStartTime : Z;
  lastActionTime : Z;
  alertLevel : AlertLevel;
  isWarmupPhase : bool;
  warmupDay : Z;
  sessionAccountAge : AccountAge;
  speedMode : SpeedMode
}.

(** ** JavaScript numbers that may be infinite *)

Inductive JsNum := NegInfinity | Num (z : Z) | Infinity.

(** [a - b] for an integer [a]. *)
Definition JsNum_rsub (a : Z) (b : JsNum) : JsNum :=
  match b with
  | NegInfinity => Infinity
  | Num z => Num (a - z)
  | Infinity => NegInfinity
  end.

(** [a <= b] for an integer [b]. *)
Definition JsNum_leb (a : JsNum) (b : Z) : bool :=
  match a with
  | NegInfinity => true
  | Num z => z <=? b
  | Infinity => false
  end.

Definition JsNum_toString (a : JsNum) : string :=
  match a with
  | NegInfinity => "-Infinity"
  | Num z => pretty z
  | Infinity => "Infinity"
  end.

(** [a < b] on rationals, as a boolean. *)
Definition Qlt_bool (a b : Q) : bool := negb (Qle_bool b a).

(** [Array.prototype.join] on strings. *)
Fixpoint join (sep : string) (l : list string) : string :=
  match l with
  | [] => ""
  | [x] => x
  | x :: rest => x +:+ sep +:+ join sep rest
  end.

(** ** Strings of the page *)

(** The double-quote character, for selectors and messages that contain it. *)
Definition dquote : string := String (Ascii.ascii_of_nat 34) EmptyString.

(** [String.prototype.toLowerCase] on the ASCII letters; other characters
    are left as they are. *)
Definition lower_ascii (c : Ascii.ascii) : Ascii.ascii :=
  let n := Ascii.nat_of_ascii c in
  if ((65 <=? n)%nat && (n <=? 90)%nat)%bool then Ascii.ascii_of_nat (n + 32) else c.

Fixpoint toLowerCase (s : string) : string :=
  match s with
  | EmptyString => EmptyString
  | String c rest => String (lower_ascii c) (toLowerCase rest)
  end.

(** [s.includes(pat)]. *)
Fixpoint str_includes (s pat : string) : bool :=
  String.prefix pat s
  || match s with
     | EmptyString => false
     | String _ rest => str_includes rest pat
     end.

(** ** warmup-protocol.ts: class WarmupProtocol *)

Module WarmupProtocol.

Record t := {
  accountAge : AccountAge;
  warmupStartDate : Z;
  currentDay : Z
}.

Definition MS_PER_DAY : Z := 1000 * 60 * 60 * 24.

(** [Math.floor((Date.now() - warmupStartDate) / MS_PER_DAY) + 1];
    [Z.div] rounds towards minus infinity, as [Math.floor] does. *)
Definition calculateCurrentDay (now warmupStartDate : Z) : Z :=
  let daysSinceStart := (now - warmupStartDate) / MS_PER_DAY in
  daysSinceStart + 1.

(** The constructor; [now] is the value of [Date.now()] it reads. *)
Definition new (now : Z) (age : AccountAge) (start : Z) : t :=
  {| accountAge := age;
     warmupStartDate := start;
     currentDay := calculateCurrentDay now start |}.

Definition getTotalWarmupDays (this : t) : JsNum :=
  if String.eqb (accountAge this) UNDER_3_MONTHS then Infinity
  else if String.eqb (accountAge this) THREE_TO_SIX_MONTHS then Num 28
  else if String.eqb (accountAge this) SIX_TO_TWELVE_MONTHS then Num 14
  else if String.eqb (accountAge this) ONE_TO_TWO_YEARS then Num 7
  else if String.eqb (accountAge this) OVER_TWO_YEARS then Num 3
  else Num 14.

Definition getWarmupConfig (this : t) : WarmupConfig :=
  if String.eqb (accountAge this) UNDER_3_MONTHS then
    {| maxActionsPerDay := 0; maxCommentsPerDay := 0; minActionSpread := 24;
       allowedSpeed := []; restrictedToConnections := 1;
       requiresManualApproval := true |}
  else if String.eqb (accountAge this) THREE_TO_SIX_MONTHS then
    if currentDay this <=? 7 then
      {| maxActionsPerDay := 5; maxCommentsPerDay := 0; minActionSpread := 6;
         allowedSpeed := [ULTRA_SLOW]; restrictedToConnections := 1;
         requiresManualApproval := true |}
    else if currentDay this <=? 14 then
      {| maxActionsPerDay := 10; maxCommentsPerDay := 1; minActionSpread := 5;
         allowedSpeed := [ULTRA_SLOW; SLOW]; restrictedToConnections := 2;
         requiresManualApproval := false |}
    else if currentDay this <=? 21 then
      {| maxActionsPerDay := 15; maxCommentsPerDay := 2; minActionSpread := 4;
         allowedSpeed := [SLOW]; restrictedToConnections := 2;
         requiresManualApproval := false |}
    else
      {| maxActionsPerDay := 25; maxCommentsPerDay := 3; minActionSpread := 4;
         allowedSpeed := [SLOW; MEDIUM]; restrictedToConnections := 3;
         requiresManualApproval := false |}
  else if String.eqb (accountAge this) SIX_TO_TWELVE_MONTHS then
    if currentDay this <=? 7 then
      {| maxActionsPerDay := 15; maxCommentsPerDay := 3; minActionSpread := 4;
         allowedSpeed := [SLOW]; restrictedToConnections := 3;
         requiresManualApproval := false |}
    else
      {| maxActionsPerDay := 30; maxCommentsPerDay := 7; minActionSpread := 3;
         allowedSpeed := [SLOW; MEDIUM]; restrictedToConnections := 3;
         requiresManualApproval := false |}
  else if String.eqb (accountAge this) ONE_TO_TWO_YEARS then
    {| maxActionsPerDay := 40; maxCommentsPerDay := 10; minActionSpread := 3;
       allowedSpeed := [SLOW; MEDIUM; NORMAL]; restrictedToConnections := 3;
       requiresManualApproval := false |}
  else if String.eqb (accountAge this) OVER_TWO_YEARS then
    {| maxActionsPerDay := 60; maxCommentsPerDay := 15; minActionSpread := 3;
       allowedSpeed := [SLOW; MEDIUM; NORMAL]; restrictedToConnections := 3;
       requiresManualApproval := false |}
  else
    {| maxActionsPerDay := 20; maxCommentsPerDay := 5; minActionSpread := 4;
       allowedSpeed := [SLOW]; restrictedToConnections := 2;
       requiresManualApproval := false |}.

Definition getConnectionDegreeText (degree : Z) : string :=
  if degree =? 1 then "1st-degree connections only"
  else if degree =? 2 then "1st & 2nd-degree connections"
  else "all connections".

Inductive ActionKind := like | comment | view.

Definition is_comment (k : ActionKind) : bool :=
  match k with comment => true | _ => false end.

Record ActionCheck := { allowed : bool; reason : option string }.

(** [Array.prototype.includes] on the allowed speed tiers. *)
Definition includes (l : list SpeedMode) (s : SpeedMode) : bool :=
  existsb (fun x => bool_decide (x = s)) l.

Definition canPerformAction (this : t) (actionType : ActionKind)
    (actionsToday commentsToday connectionDegree : Z)
    (currentSpeed : SpeedMode) : ActionCheck :=
  let config := getWarmupConfig this in
  if maxActionsPerDay config <=? actionsToday then
    {| allowed := false;
       reason := Some ("Daily action limit reached ("
                       +:+ pretty (maxActionsPerDay config)
                       +:+ "). Warm-up Day " +:+ pretty (currentDay this)
                       +:+ "/" +:+ JsNum_toString (getTotalWarmupDays this)
                       +:+ ".") |}
  else if is_comment actionType && (maxCommentsPerDay config <=? commentsToday) then
    {| allowed := false;
       reason := Some ("Daily comment limit reached ("
                       +:+ pretty (maxCommentsPerDay config) +:+ ").") |}
  else if is_comment actionType && (maxCommentsPerDay config =? 0) then
    {| allowed := false;
       reason := Some "Comments disabled during early warm-up phase (too risky for new accounts)." |}
  else if restrictedToConnections config <? connectionDegree then
    {| allowed := false;
       reason := Some ("Can only engage with "
                       +:+ getConnectionDegreeText (restrictedToConnections config)
                       +:+ " during warm-up.") |}
  else if negb (includes (allowedSpeed config) currentSpeed) then
    {| allowed := false;
       reason := Some ("Speed mode '" +:+ SpeedMode_value currentSpeed
                       +:+ "' not allowed. Use: "
                       +:+ join ", " (map SpeedMode_value (allowedSpeed config))
                       +:+ ".") |}
  else {| allowed := true; reason := None |}.

Record PostWarmupLimits := { dailyActions : Z; percentage : Z }.

Definition getPostWarmupLimits (this : t) : PostWarmupLimits :=
  let daysSinceWarmupEnd := JsNum_rsub (currentDay this) (getTotalWarmupDays this) in
  if String.eqb (accountAge this) THREE_TO_SIX_MONTHS then
    if JsNum_leb daysSinceWarmupEnd 30 then
      {| dailyActions := 60; percentage := 60 |}
    else if JsNum_leb daysSinceWarmupEnd 60 then
      {| dailyActions := 80; percentage := 80 |}
    else {| dailyActions := 100; percentage := 100 |}
  else if String.eqb (accountAge this) SIX_TO_TWELVE_MONTHS then
    if JsNum_leb daysSinceWarmupEnd 30 then
      {| dailyActions := 75; percentage := 75 |}
    else {| dailyActions := 100; percentage := 100 |}
  else {| dailyActions := 100; percentage := 100 |}.


(** [a <= b] for an integer [a] and a possibly infinite [b]. *)
Definition Z_leb_JsNum (a : Z) (b : JsNum) : bool :=
  match b with
  | NegInfinity => false
  | Num z => a <=? z
  | Infinity => true
  end.

Record WarmupStatus := {
  isInWarmup : bool;
  status_currentDay : Z;
  totalDays : JsNum;
  config : WarmupConfig;
  canProceed : bool;
  status_message : string;
  restrictions : list string
}.

Definition BLOCKED_MESSAGE : string :=
  "Your LinkedIn account is too new for automation. Accounts under 3 months old have high ban risk.".

Definition BLOCKED_RESTRICTIONS : list string :=
  [ "Automation is BLOCKED for accounts under 3 months";
    "Build your profile manually";
    "Connect with 100+ people organically";
    "Post and engage manually for 3 months";
    "Return when your account is more established";
    "";
    "You can still use:";
    "• Manual AI comment suggestions (no auto-posting)";
    "• Post writing assistance";
    "• Profile analysis" ].

Definition COMPLETE_MESSAGE : string :=
  "Warm-up complete! You can now use full automation features.".

Definition getWarmupStatus (this : t) : WarmupStatus :=
  let totalDays := getTotalWarmupDays this in
  let config := getWarmupConfig this in
  let isInWarmup := Z_leb_JsNum (currentDay this) totalDays in
  if String.eqb (accountAge this) UNDER_3_MONTHS then
    {| isInWarmup := true; status_currentDay := 0; totalDays := Infinity;
       config := config; canProceed := false;
       status_message := BLOCKED_MESSAGE;
       restrictions := BLOCKED_RESTRICTIONS |}
  else if negb isInWarmup then
    {| isInWarmup := false; status_currentDay := currentDay this;
       totalDays := totalDays; config := config; canProceed := true;
       status_message := COMPLETE_MESSAGE;
       restrictions := [] |}
  else
    let restrictions :=
      [ "Day " +:+ pretty (currentDay this) +:+ " of " +:+ JsNum_toString totalDays;
        "Max actions today: " +:+ pretty (maxActionsPerDay config) ]
      ++ [ if maxCommentsPerDay config =? 0
           then "❌ Comments DISABLED (too risky for new accounts)"
           else "Max comments today: " +:+ pretty (maxCommentsPerDay config) ]
      ++ [ "Actions must be spread over " +:+ pretty (minActionSpread config) +:+ "+ hours";
           "Speed: " +:+ join ", " (map SpeedMode_value (allowedSpeed config)) +:+ " only" ]
      ++ (if restrictedToConnections config =? 1
          then [ "🔒 Only engage with 1st-degree connections" ]
          else if restrictedToConnections config =? 2
          then [ "🔒 Only engage with 1st & 2nd-degree connections" ]
          else [])
      ++ (if requiresManualApproval config
          then [ "⚠️ Manual approval required for each action" ]
          else []) in
    let message :=
      "Warm-up phase: Day " +:+ pretty (currentDay this) +:+ "/"
      +:+ JsNum_toString totalDays
      +:+ (if String.eqb (accountAge this) THREE_TO_SIX_MONTHS
           then " (STRICT protocol for 3-6 month accounts)" else "") in
    {| isInWarmup := true; status_currentDay := currentDay this;
       totalDays := totalDays; config := config; canProceed := true;
       status_message := message;
       restrictions := restrictions |}.

Record ProfileCompleteness := {
  hasProfilePhoto : bool;
  connectionCount : Z;
  workExperienceCount : Z;
  isComplete : bool;
  missingElements : list string;
  additionalWarmupDays : Z
}.

Definition checkProfileCompleteness (hasProfilePhoto : bool)
    (connectionCount workExperienceCount : Z) : ProfileCompleteness :=
  let missing0 : list string := [] in
  let days0 := 0 in
  let '(missing1, days1) :=
    if negb hasProfilePhoto
    then (missing0 ++ ["Profile photo"], days0 + 7)
    else (missing0, days0) in
  let '(missing2, days2) :=
    if connectionCount <? 100
    then (missing1 ++ ["Only " +:+ pretty connectionCount +:+ " connections (need 100+)"],
          days1 + 14)
    else (missing1, days1) in
  let '(missing3, days3) :=
    if workExperienceCount <? 3
    then (missing2 ++ ["Only " +:+ pretty workExperienceCount
                       +:+ " work experiences (need 3+)"],
          days2 + 7)
    else (missing2, days2) in
  {| hasProfilePhoto := hasProfilePhoto;
     connectionCount := connectionCount;
     workExperienceCount := workExperienceCount;
     isComplete := (length missing3 =? 0)%nat;
     missingElements := missing3;
     additionalWarmupDays := days3 |}.

Definition parseAccountAge (input : string) : AccountAge :=
  let lower := toLowerCase input in
  if str_includes lower "<3" || str_includes lower "under 3"
     || str_includes lower "less than 3" then UNDER_3_MONTHS
  else if str_includes lower "3-6" || str_includes lower "3 to 6"
  then THREE_TO_SIX_MONTHS
  else if str_includes lower "6-12" || str_includes lower "6 to 12"
  then SIX_TO_TWELVE_MONTHS
  else if str_includes lower "1-2" || str_includes lower "1 to 2"
  then ONE_TO_TWO_YEARS
  else if str_includes lower "2+" || str_includes lower "over 2"
          || str_includes lower "more than 2" then OVER_TWO_YEARS
  else THREE_TO_SIX_MONTHS.

End WarmupProtocol.

(** ** chrome.storage.local

    The store maps string keys to JSON values.  The keys of this module
    hold numbers, strings and booleans; a key that is absent reads as
    [undefined], which is [None] here. *)

Inductive JsVal := JNumber (n : Z) | JString (s : string) | JBoolean (b : bool).

#[global] Instance JsVal_eq_dec : EqDecision JsVal.
Proof. solve_decision. Defined.

(** [ToBoolean]. *)
Definition truthy (v : option JsVal) : bool :=
  match v with
  | None => false
  | Some (JNumber n) => negb (n =? 0)
  | Some (JString s) => negb (String.eqb s "")
  | Some (JBoolean b) => b
  end.

(** [v || d]. *)
Definition js_or (v : option JsVal) (d : JsVal) : JsVal :=
  match v with
  | Some x => if truthy v then x else d
  | None => d
  end.

Definition ToString (v : JsVal) : string :=
  match v with
  | JNumber n => pretty n
  | JString s => s
  | JBoolean true => "true"
  | JBoolean false => "false"
  end.

(** [ToNumber] of a number or a boolean.  The conversion of a string to a
    number is not modelled: [None] stands for "outside the model", not for
    an exception. *)
Definition ToNumber (v : JsVal) : option Z :=
  match v with
  | JNumber n => Some n
  | JBoolean true => Some 1
  | JBoolean false => Some 0
  | JString _ => None
  end.

(** [a + b]: concatenation as soon as one operand is a string. *)
Definition js_add (a b : JsVal) : JsVal :=
  match a, b with
  | JString _, _ | _, JString _ => JString (ToString a +:+ ToString b)
  | _, _ =>
      match ToNumber a, ToNumber b with
      | Some x, Some y => JNumber (x + y)
      | _, _ => JString (ToString a +:+ ToString b)
      end
  end.

(** ** warmup-protocol.ts: class CooldownManager *)

Module CooldownManager.

Definition FORTY_EIGHT_HOURS : Z := 48 * 60 * 60 * 1000.

Definition getWarningCount (store : gmap string JsVal) : JsVal :=
  js_or (store !! "warningCount") (JNumber 0).

(** [chrome.storage.local.set] writes the given keys and keeps the others. *)
Definition enable48HourCooldown (now : Z) (reason : string)
    (store : gmap string JsVal) : gmap string JsVal :=
  let cooldownEnd := now + FORTY_EIGHT_HOURS in
  let warningCount := js_add (getWarningCount store) (JNumber 1) in
  <["cooldownEnd" := JNumber cooldownEnd]>
    (<["cooldownReason" := JString reason]>
       (<["automationEnabled" := JBoolean false]>
          (<["warningCount" := warningCount]> store))).

(** [count >= 2]; [None] only for a count that is a string (see [ToNumber]). *)
Definition hasPermanentRestrictions (store : gmap string JsVal) : option bool :=
  count ← ToNumber (getWarningCount store);
  Some (2 <=? count).

Definition getRestrictionMultiplier (store : gmap string JsVal) : Q :=
  let count := getWarningCount store in
  if bool_decide (count = JNumber 0) then 1%Q
  else if bool_decide (count = JNumber 1) then (75 # 100)%Q
  else (5 # 10)%Q.

Record CooldownStatus := {
  inCooldown : bool;
  remainingTime : option Z;
  cooldownReason : option JsVal
}.

(** Returns the status and the store it leaves behind (an expired record is
    removed). *)
Definition isInCooldown (now : Z) (store : gmap string JsVal)
    : option (CooldownStatus * gmap string JsVal) :=
  if negb (truthy (store !! "cooldownEnd")) then
    Some ({| inCooldown := false; remainingTime := None;
             cooldownReason := None |}, store)
  else
    v ← store !! "cooldownEnd";
    cooldownEnd ← ToNumber v;
    if now <? cooldownEnd then
      Some ({| inCooldown := true;
               remainingTime := Some (cooldownEnd - now);
               cooldownReason :=
                 Some (js_or (store !! "cooldownReason")
                             (JString "Safety cooldown active")) |}, store)
    else
      Some ({| inCooldown := false; remainingTime := None;
               cooldownReason := None |},
            delete "cooldownEnd" (delete "cooldownReason" store)).

End CooldownManager.

(** ** The page as the detector sees it *)

Record Element := {
  textContent : option string;
  outerHTML : string;
  hasAttribute_disabled : bool;
  classList_contains_disabled : bool
}.

Record Page := {
  querySelectorAll : string -> list Element;
  location_href : string
}.

(** [document.querySelector(sel) !== null]. *)
Definition querySelector_found (page : Page) (sel : string) : bool :=
  match querySelectorAll page sel with
  | [] => false
  | _ :: _ => true
  end.

(** ** Detection signals *)

Inductive SignalType := warning | error | performance | pattern.

#[global] Instance SignalType_eq_dec : EqDecision SignalType.
Proof. solve_decision. Defined.

Inductive Detail := DString (s : string) | DInt (z : Z) | DRat (q : Q).

Record DetectionSignal := {
  type : SignalType;
  severity : AlertLevel;
  message : string;
  timestamp : Z;
  details : list (string * Detail)
}.

(** ** detection-system.ts: class DetectionSystem *)

Module DetectionSystem.

Record t := {
  sessionState : SessionState;
  baselinePerformance : gmap string Z;
  consecutiveFailures : Z;
  lastActionTimes : list Z
}.

Definition WARNING_PATTERNS : list string :=
  [ "You're doing this too often";
    "Slow down";
    "Unusual activity";
    "We noticed some unusual activity";
    "Something went wrong";
    "Security check required";
    "Verify you're human";
    "Too many requests";
    "Rate limit";
    "Temporarily restricted" ].

Definition WARNING_SELECTORS : list string :=
  [ ".artdeco-modal__content";
    ".artdeco-toasts__toast";
    ".security-challenge-container";
    "[data-test=" +:+ dquote +:+ "rate-limit-message" +:+ dquote +:+ "]";
    ".artdeco-inline-feedback";
    ".artdeco-modal--layer-default";
    ".error-modal";
    ".msg-overlay-bubble-header" ].

Definition initializeBaselines (m : gmap string Z) : gmap string Z :=
  <["networkRequest" := 1500]>
    (<["actionComplete" := 2000]> (<["pageLoad" := 3000]> m)).

(** The constructor: a fresh detector. *)
Definition new (st : SessionState) : t :=
  {| sessionState := st;
     baselinePerformance := initializeBaselines ∅;
     consecutiveFailures := 0;
     lastActionTimes := [] |}.

Definition captureElementScreenshot (element : Element) : string :=
  String.substring 0 500 (outerHTML element).

Definition detectCaptcha (page : Page) : bool :=
  let captchaSelectors :=
    [ "iframe[src*=" +:+ dquote +:+ "recaptcha" +:+ dquote +:+ "]";
      "iframe[src*=" +:+ dquote +:+ "captcha" +:+ dquote +:+ "]";
      ".g-recaptcha";
      "#px-captcha";
      ".security-challenge-container" ] in
  existsb (querySelector_found page) captchaSelectors.

Definition ACTION_BUTTONS : string :=
  "[data-control-name*=" +:+ dquote +:+ "like" +:+ dquote
  +:+ "], [data-control-name*=" +:+ dquote +:+ "comment" +:+ dquote +:+ "]".

(** [disabledCount > actionButtons.length * 0.5], with both sides doubled. *)
Definition detectDisabledActions (page : Page) : bool :=
  let actionButtons := querySelectorAll page ACTION_BUTTONS in
  let disabledCount :=
    length (filter (fun b => hasAttribute_disabled b || classList_contains_disabled b = true)
                   actionButtons) in
  Z.of_nat (length actionButtons) <? 2 * Z.of_nat disabledCount.

(** The signals of one element found under [selector]. *)
Definition element_warnings (now : Z) (selector : string) (element : Element)
    : list DetectionSignal :=
  let text := default "" (textContent element) in
  flat_map (fun pat =>
    if str_includes (toLowerCase text) (toLowerCase pat) then
      [ {| type := warning;
           severity := DEFCON5;
           message := "LinkedIn warning detected: " +:+ dquote +:+ pat +:+ dquote;
           timestamp := now;
           details := [ ("selector", DString selector);
                        ("fullText", DString text);
                        ("pattern", DString pat);
                        ("screenshot", DString (captureElementScreenshot element)) ] |} ]
    else []) WARNING_PATTERNS.

(** LEVEL 1: DOM-based detection.  [now] is the clock value that the calls
    of [Date.now()] of one scan read. *)
Definition detectDOMWarnings (page : Page) (now : Z) : list DetectionSignal :=
  (flat_map (fun selector =>
              flat_map (element_warnings now selector) (querySelectorAll page selector))
           WARNING_SELECTORS
  ++ (if detectCaptcha page then
        [ {| type := warning; severity := DEFCON5;
             message := "CAPTCHA challenge detected";
             timestamp := now;
             details := [ ("type", DString "captcha") ] |} ]
      else [])
  ++ (if detectDisabledActions page then
        [ {| type := warning; severity := DEFCON4;
             message := "Action buttons appear disabled";
             timestamp := now;
             details := [ ("type", DString "disabled-ui") ] |} ]
      else [])
  ++ (if str_includes (location_href page) "checkpoint"
         || str_includes (location_href page) "security" then
        [ {| type := warning; severity := DEFCON5;
             message := "Redirected to security checkpoint";
             timestamp := now;
             details := [ ("url", DString (location_href page)) ] |} ]
      else []))%list.

(** [this.baselinePerformance.get('actionComplete') || 2000]. *)
Definition actionComplete_baseline (this : t) : Z :=
  match baselinePerformance this !! "actionComplete" with
  | Some b => if b =? 0 then 2000 else b
  | None => 2000
  end.

(** The message of the consecutive-failure signal ends with this text. *)
Definition FAILURES_SUFFIX : string := " consecutive action failures detected".

(** LEVEL 2: behavioural detection.  Returns the signals and the detector
    with its failure counter updated. *)
Definition detectBehavioralAnomalies (this : t) (actionDuration : Z)
    (actionSuccess : bool) (now : Z) : list DetectionSignal * t :=
  let baseline := actionComplete_baseline this in
  let failures :=
    if negb actionSuccess then consecutiveFailures this + 1 else 0 in
  let this' :=
    {| sessionState := sessionState this;
       baselinePerformance := baselinePerformance this;
       consecutiveFailures := failures;
       lastActionTimes := lastActionTimes this |} in
  ( ((if 3 <=? failures then
       [ {| type := error; severity := DEFCON4;
            message := pretty failures +:+ FAILURES_SUFFIX;
            timestamp := now;
            details := [ ("consecutiveFailures", DInt failures) ] |} ]
     else [])
    ++ (if baseline * 3 <? actionDuration then
          [ {| type := performance; severity := DEFCON4;
               message := "Action took " +:+ pretty actionDuration +:+ "ms (3x normal)";
               timestamp := now;
               details := [ ("duration", DInt actionDuration);
                            ("baseline", DInt baseline);
                            ("ratio", DRat (inject_Z actionDuration / inject_Z baseline)) ] |} ]
        else [])
    ++ (if actionSuccess && (actionDuration <? 500) then
          [ {| type := pattern; severity := DEFCON3;
               message := "Suspiciously fast action completion (possible shadow ban)";
               timestamp := now;
               details := [ ("duration", DInt actionDuration) ] |} ]
        else []))%list,
    this' ).

Definition getDailyLimit (this : t) : Z :=
  if isWarmupPhase (sessionState this) then 25 else 100.

(** The loop [for (i = 1; i < times.length; i++) push(times[i] - times[i-1])]. *)
Fixpoint intervals_of (times : list Z) : list Z :=
  match times with
  | a :: (b :: _) as rest => (b - a) :: intervals_of rest
  | _ => []
  end.

Definition Qsum (l : list Q) : Q := fold_left Qplus l 0%Q.

Record TimingStats := {
  intervals : list Z;
  avgInterval : Q;
  variance : Q
}.

(** The statistic of the timing check; [None] when the guard
    [lastActionTimes.length >= 5] fails and nothing is computed. *)
Definition timingStats (this : t) : option TimingStats :=
  if (5 <=? length (lastActionTimes this))%nat then
    let ivs := intervals_of (lastActionTimes this) in
    let n := inject_Z (Z.of_nat (length ivs)) in
    let avg := (Qsum (map inject_Z ivs) / n)%Q in
    let var :=
      (Qsum (map (fun iv => (inject_Z iv - avg) * (inject_Z iv - avg)) ivs) / n)%Q in
    Some {| intervals := ivs; avgInterval := avg; variance := var |}
  else None.

(** [stdDev < avgInterval * 0.15] where [stdDev = Math.sqrt(variance)]:
    since a square root is never negative this is the comparison of the
    squares, with a positive right-hand side. *)
Definition tooConsistent (s : TimingStats) : bool :=
  let bound := (avgInterval s * (15 # 100))%Q in
  Qlt_bool 0 bound && Qlt_bool (variance s) (bound * bound).

(** LEVEL 3: pattern detection.  The keys [stdDev] and [variationPercent]
    of the last signal's details need the square root and are left out. *)
Definition detectPatternRisks (this : t) (now : Z) : list DetectionSignal :=
  let dailyLimit := getDailyLimit this in
  let sessionDuration := now - sessionStartTime (sessionState this) in
  let sessionHours := (inject_Z sessionDuration / inject_Z (1000 * 60 * 60))%Q in
  ((if Qle_bool (inject_Z dailyLimit * (9 # 10)) (inject_Z (actionsToday (sessionState this))) then
     [ {| type := pattern; severity := DEFCON2;
          message := "Approaching daily action limit (90%)";
          timestamp := now;
          details := [ ("actionsToday", DInt (actionsToday (sessionState this)));
                       ("limit", DInt dailyLimit) ] |} ]
   else [])
  ++ (if Qlt_bool (75 # 100) sessionHours then
        [ {| type := pattern; severity := DEFCON2;
             message := "Session duration exceeding safe limits";
             timestamp := now;
             details := [ ("sessionHours", DRat sessionHours) ] |} ]
      else [])
  ++ match timingStats this with
     | Some s =>
         if tooConsistent s then
           [ {| type := pattern; severity := DEFCON3;
                message := "Action timing too consistent (bot-like pattern)";
                timestamp := now;
                details := [ ("avgInterval", DRat (avgInterval s)) ] |} ]
         else []
     | None => []
     end)%list.

(** [push] then, when more than 20 are held, [shift]. *)
Definition recordActionTime (this : t) (timestamp : Z) : t :=
  let pushed := (lastActionTimes this ++ [timestamp])%list in
  {| sessionState := sessionState this;
     baselinePerformance := baselinePerformance this;
     consecutiveFailures := consecutiveFailures this;
     lastActionTimes :=
       if (20 <? length pushed)%nat then tail pushed else pushed |}.


(** Monitor network requests for error codes. *)
Definition detectNetworkAnomalies (statusCode : Z) (endpoint : string) (now : Z)
    : list DetectionSignal :=
  (if statusCode =? 429 then
     [ {| type := warning; severity := DEFCON5;
          message := "429 Rate Limit response from LinkedIn";
          timestamp := now;
          details := [ ("statusCode", DInt statusCode);
                       ("endpoint", DString endpoint) ] |} ]
   else [])
  ++ (if statusCode =? 403 then
        [ {| type := warning; severity := DEFCON5;
             message := "403 Forbidden response (possible block)";
             timestamp := now;
             details := [ ("statusCode", DInt statusCode);
                          ("endpoint", DString endpoint) ] |} ]
      else [])
  ++ (if 500 <=? statusCode then
        [ {| type := error; severity := DEFCON3;
             message := "Server error: " +:+ pretty statusCode;
             timestamp := now;
             details := [ ("statusCode", DInt statusCode);
                          ("endpoint", DString endpoint) ] |} ]
      else []).

Definition getAlertLevelPriority (level : AlertLevel) : Z :=
  match level with
  | DEFCON1 => 1
  | DEFCON2 => 2
  | DEFCON3 => 3
  | DEFCON4 => 4
  | DEFCON5 => 5
  end.

Inductive RecommendedAction := STOP | PAUSE | SLOW_DOWN | CONTINUE.

(** [resultAlertLevel] is the field [alertLevel] of the result. *)
Record DetectionResult := {
  detected : bool;
  signals : list DetectionSignal;
  recommendedAction : RecommendedAction;
  resultAlertLevel : AlertLevel
}.

(** The loop that keeps the most severe level met so far. *)
Definition highest_level (allSignals : list DetectionSignal) : AlertLevel :=
  fold_left (fun level signal =>
               if getAlertLevelPriority level <? getAlertLevelPriority (severity signal)
               then severity signal else level)
            allSignals DEFCON1.

(** Comprehensive scan.  The behavioural tier runs only when both optional
    arguments are given; it is the one tier that changes the detector. *)
Definition performFullScan (this : t) (page : Page)
    (lastActionDuration : option Z) (lastActionSuccess : option bool) (now : Z)
    : DetectionResult * t :=
  let level1 := detectDOMWarnings page now in
  let '(level2, this') :=
    match lastActionDuration, lastActionSuccess with
    | Some d, Some ok => detectBehavioralAnomalies this d ok now
    | _, _ => ([], this)
    end in
  let level3 := detectPatternRisks this' now in
  let allSignals := level1 ++ level2 ++ level3 in
  let alertLevel := highest_level allSignals in
  let recommendedAction :=
    match alertLevel with
    | DEFCON5 => STOP
    | DEFCON4 => PAUSE
    | DEFCON3 | DEFCON2 => SLOW_DOWN
    | DEFCON1 => CONTINUE
    end in
  ({| detected := (0 <? length allSignals)%nat;
      signals := allSignals;
      recommendedAction := recommendedAction;
      resultAlertLevel := alertLevel |}, this').

End DetectionSystem.

(** ** humanization-engine.ts: class HumanizationEngine *)

Module HumanizationEngine.

Record ReadingTime := { short : Z * Z; medium : Z * Z; long : Z * Z }.
Record MicroPauses := { beforeClick : Z * Z; afterReading : Z * Z }.
Record Breaks := { mini : Z * Z; mediumBreak : Z * Z; sessionEnd : Z }.

Record TimingConfig := {
  baseDelay : Z * Z;
  readingTime : ReadingTime;
  microPauses : MicroPauses;
  breaks : Breaks
}.

Definition getTimingConfig (mode : SpeedMode) : TimingConfig :=
  match mode with
  | ULTRA_SLOW =>
      {| baseDelay := (45000, 75000);
         readingTime := {| short := (20000, 35000); medium := (40000, 60000);
                           long := (70000, 100000) |};
         microPauses := {| beforeClick := (1500, 3000); afterReading := (2000, 5000) |};
         breaks := {| mini := (5, 8); mediumBreak := (15, 25); sessionEnd := 20 |} |}
  | SLOW =>
      {| baseDelay := (35000, 55000);
         readingTime := {| short := (15000, 25000); medium := (30000, 50000);
                           long := (55000, 85000) |};
         microPauses := {| beforeClick := (1000, 2000); afterReading := (1500, 3500) |};
         breaks := {| mini := (3, 5); mediumBreak := (10, 18); sessionEnd := 30 |} |}
  | MEDIUM =>
      {| baseDelay := (25000, 45000);
         readingTime := {| short := (12000, 20000); medium := (25000, 40000);
                           long := (45000, 75000) |};
         microPauses := {| beforeClick := (800, 2000); afterReading := (1000, 3000) |};
         breaks := {| mini := (2, 4); mediumBreak := (8, 15); sessionEnd := 40 |} |}
  | NORMAL =>
      {| baseDelay := (20000, 40000);
         readingTime := {| short := (10000, 18000); medium := (20000, 35000);
                           long := (40000, 65000) |};
         microPauses := {| beforeClick := (800, 1500); afterReading := (1000, 2500) |};
         breaks := {| mini := (2, 4); mediumBreak := (8, 15); sessionEnd := 50 |} |}
  end.

(** [ToInt32]: the value of a bitwise operator's operand and result. *)
Definition to_int32 (z : Z) : Z := (z + 2 ^ 31) mod 2 ^ 32 - 2 ^ 31.

(** The bytes that [crypto.getRandomValues] hands out, one after the other. *)
Definition RandomSource := nat -> Byte.byte.

Fixpoint getRandomValues (src : RandomSource) (pos n : nat) : list Z :=
  match n with
  | O => []
  | S n' => Z.of_N (Byte.to_N (src pos)) :: getRandomValues src (S pos) n'
  end.

(** [randomValue = (randomValue << 8) + randomBytes[i]] over the bytes. *)
Definition randomValue_of (bytes : list Z) : Z :=
  fold_left (fun randomValue b => to_int32 (Z.shiftl (to_int32 randomValue) 8) + b)
            bytes 0.

(** [Math.ceil(Math.log2(range) / 8)] as the length of a [Uint8Array].
    A negative range gives [NaN] and an empty array; a range of zero, or
    one that is at most 1/256, gives a negative length and the constructor
    throws ([None]). *)
Definition bytesNeeded (range : Q) : option nat :=
  if Qlt_bool range 0 then Some O
  else if Qle_bool range (1 # 256) then None
  else if Qle_bool range 1 then Some O
  else Some (Z.to_nat ((Z.log2_up (Qceiling range) + 7) / 8)).

(** Rounding towards zero. *)
Definition Qtrunc (q : Q) : Z :=
  if Qle_bool 0 q then Qfloor q else Qceiling q.

(** [a % b]: the remainder has the sign of [a]. *)
Definition js_rem (a b : Q) : Q := (a - b * inject_Z (Qtrunc (a / b)))%Q.

(** Returns the number drawn and the position reached in the source. *)
Definition cryptoRandomRange (src : RandomSource) (pos : nat) (min max : Q)
    : option (Q * nat) :=
  let range := (max - min)%Q in
  n ← bytesNeeded range;
  let randomValue := randomValue_of (getRandomValues src pos n) in
  Some ((min + js_rem (inject_Z randomValue) range)%Q, (pos + n)%nat).

Definition calculateFatigueMultiplier (st : SessionState) : Q :=
  let n := actionsThisSession st in
  if n <=? 10 then 1%Q
  else if n <=? 20 then (11 # 10)%Q
  else if n <=? 30 then (125 # 100)%Q
  else if n <=? 40 then (14 # 10)%Q
  else (15 # 10)%Q.

(** [hour] is [new Date().getHours()]. *)
Definition calculateDailyRhythmMultiplier (hour : Z) : Q :=
  if (9 <=? hour) && (hour <? 11) then 1%Q
  else if (11 <=? hour) && (hour <? 13) then (13 # 10)%Q
  else if (13 <=? hour) && (hour <? 15) then 1%Q
  else if (15 <=? hour) && (hour <? 17) then (12 # 10)%Q
  else if (17 <=? hour) && (hour <? 21) then (14 # 10)%Q
  else 2%Q.

(** [Math.max(delay, 15000)] closes the computation.  [None] is the
    [RangeError] of a draw whose range is too small. *)
Definition calculateActionDelay (st : SessionState) (src : RandomSource)
    (pos : nat) (hour : Z) : option (Q * nat) :=
  let config := getTimingConfig (speedMode st) in
  let '(min, max) := baseDelay config in
  '(delay0, pos1) ← cryptoRandomRange src pos (inject_Z min) (inject_Z max);
  let variation := (delay0 * (3 # 10))%Q in
  '(jitter, pos2) ← cryptoRandomRange src pos1 (- variation)%Q variation;
  let delay1 := (delay0 + jitter)%Q in
  let fatigueMultiplier := calculateFatigueMultiplier st in
  let delay2 := (delay1 * fatigueMultiplier)%Q in
  let rhythmMultiplier := calculateDailyRhythmMultiplier hour in
  let delay3 := (delay2 * rhythmMultiplier)%Q in
  '(entropy, pos3) ← cryptoRandomRange src pos2 (inject_Z (-2000)) (inject_Z 2000);
  let delay4 := (delay3 + entropy)%Q in
  Some (Qmax delay4 (inject_Z 15000), pos3).


(** [Math.floor(Math.random() * (max - min + 1)) + min], where [r] is the
    value that [Math.random()] returns. *)
Definition randomRange (r : Q) (min max : Q) : Q :=
  (inject_Z (Qfloor (r * (max - min + 1))) + min)%Q.

Record HumanizationMetrics := {
  typingSpeed : Q;
  typoRate : Q;
  cursorSpeed : Q;
  scrollSpeed : Q;
  reactionTime : Q
}.

(** The five draws of [Math.random()] are taken in the order of the fields. *)
Definition generatePersonalizedMetrics (r1 r2 r3 r4 r5 : Q) : HumanizationMetrics :=
  {| typingSpeed := randomRange r1 40 80;
     typoRate := (randomRange r2 2 5 / 100)%Q;
     cursorSpeed := randomRange r3 800 1500;
     scrollSpeed := randomRange r4 600 1200;
     reactionTime := randomRange r5 200 400 |}.

(** [baseTime += this.cryptoRandomRange(min, max)] when [cond] holds. *)
Definition add_draw (cond : bool) (src : RandomSource) (min max : Q)
    (acc : Q * nat) : option (Q * nat) :=
  if cond then
    '(extra, pos') ← cryptoRandomRange src acc.2 min max;
    Some ((acc.1 + extra)%Q, pos')
  else Some acc.

(** [r] is the value of the one call of [Math.random()], made last. *)
Definition calculateReadingTime (st : SessionState) (src : RandomSource)
    (pos : nat) (r : Q) (wordCount : Z) (hasImage hasVideo : bool)
    (commentCount : Z) : option (Q * nat) :=
  let config := getTimingConfig (speedMode st) in
  let band :=
    if wordCount <? 100 then short (readingTime config)
    else if wordCount <? 300 then medium (readingTime config)
    else long (readingTime config) in
  base ← cryptoRandomRange src pos (inject_Z band.1) (inject_Z band.2);
  withImage ← add_draw hasImage src (inject_Z 3000) (inject_Z 8000) base;
  withVideo ← add_draw hasVideo src (inject_Z 5000) (inject_Z 15000) withImage;
  withComments ← add_draw (10 <? commentCount) src
                          (inject_Z 5000) (inject_Z 15000) withVideo;
  add_draw (Qlt_bool r (15 # 100)) src (inject_Z 3000) (inject_Z 8000) withComments.

Definition getBeforeClickPause (st : SessionState) (src : RandomSource)
    (pos : nat) : option (Q * nat) :=
  let config := getTimingConfig (speedMode st) in
  cryptoRandomRange src pos (inject_Z (beforeClick (microPauses config)).1)
                            (inject_Z (beforeClick (microPauses config)).2).

Definition getAfterReadingPause (st : SessionState) (src : RandomSource)
    (pos : nat) : option (Q * nat) :=
  let config := getTimingConfig (speedMode st) in
  cryptoRandomRange src pos (inject_Z (afterReading (microPauses config)).1)
                            (inject_Z (afterReading (microPauses config)).2).

Inductive BreakType := mini_break | medium_break | session_end.

Record BreakDirective := {
  needed : bool;
  break_type : BreakType;
  break_duration : Q
}.

(** [now] is [Date.now()]; [r1] and [r2] are the first and the second value
    of [Math.random()], read only when the session has a positive number of
    actions.  The result is the directive, or [None] for [null], and the
    position reached in the random bytes. *)
Definition shouldTakeBreak (st : SessionState) (src : RandomSource) (pos : nat)
    (now : Z) (r1 r2 : Q) : option (option BreakDirective * nat) :=
  let actions := actionsThisSession st in
  let config := getTimingConfig (speedMode st) in
  let sessionDuration := now - sessionStartTime st in
  let sessionHours := (inject_Z sessionDuration / inject_Z (1000 * 60 * 60))%Q in
  if (sessionEnd (breaks config) <=? actions) || Qle_bool 1 sessionHours then
    '(d, pos') ← cryptoRandomRange src pos (inject_Z (2 * 60 * 60 * 1000))
                                          (inject_Z (4 * 60 * 60 * 1000));
    Some (Some {| needed := true; break_type := session_end; break_duration := d |},
          pos')
  else if (0 <? actions)
          && Qeq_bool (js_rem (inject_Z actions) (randomRange r1 25 30)) 0 then
    let '(min, max) := mediumBreak (breaks config) in
    '(d, pos') ← cryptoRandomRange src pos (inject_Z (min * 60 * 1000))
                                          (inject_Z (max * 60 * 1000));
    Some (Some {| needed := true; break_type := medium_break; break_duration := d |},
          pos')
  else if (0 <? actions)
          && Qeq_bool (js_rem (inject_Z actions) (randomRange r2 8 12)) 0 then
    let '(min, max) := mini (breaks config) in
    '(d, pos') ← cryptoRandomRange src pos (inject_Z (min * 60 * 1000))
                                          (inject_Z (max * 60 * 1000));
    Some (Some {| needed := true; break_type := mini_break; break_duration := d |},
          pos')
  else Some (None, pos).

End HumanizationEngine.

(** ** Runs of the detector and notions of the specification *)

(** One action-outcome report: duration, success flag, and the clock value
    at which the detector reads it. *)
Record Report := { duration : Z; success : bool; at_time : Z }.

(** Feeds the reports to [detectBehavioralAnomalies] one after the other;
    returns the signals of each call and the detector left behind. *)
Fixpoint feed (this : DetectionSystem.t) (reports : list Report)
    : list (list DetectionSignal) * DetectionSystem.t :=
  match reports with
  | [] => ([], this)
  | r :: rest =>
      let '(signals, this') :=
        DetectionSystem.detectBehavioralAnomalies
          this (duration r) (success r) (at_time r) in
      let '(more, final) := feed this' rest in
      (signals :: more, final)
  end.

(** The consecutive-failure signal is the only one of kind [error] that
    [detectBehavioralAnomalies] makes. *)
Definition is_failure_signal (s : DetectionSignal) : bool :=
  bool_decide (type s = error).

Definition failure_signal_emitted (signals : list DetectionSignal) : bool :=
  existsb is_failure_signal signals.

(** Failures since the last success, the newest outcome being the head. *)
Fixpoint failures_at_head (newest_first : list bool) : nat :=
  match newest_first with
  | false :: older => S (failures_at_head older)
  | _ => O
  end.

(** Failures since the last success in a history given oldest first. *)
Definition failures_since_last_success (outcomes : list bool) : nat :=
  failures_at_head (rev outcomes).

(** Calls [recordActionTime] with each timestamp in turn. *)
Definition record_all (this : DetectionSystem.t) (timestamps : list Z)
    : DetectionSystem.t :=
  fold_left DetectionSystem.recordActionTime timestamps this.

(** The [n] most recent entries of a history given oldest first. *)
Definition most_recent {A} (n : nat) (l : list A) : list A :=
  drop (length l - n) l.


Definition known_tier (age : AccountAge) : Prop := In age known_tiers.



(** The ramp as the specification words it: the 3-6 and the 6-12 month
    tiers go 60, 80, 100 at the 30 and 60 day marks, all others are at 100. *)
Definition spec_ramp_percentage (age : AccountAge) (daysSinceWarmupEnd : Z) : Z :=
  if String.eqb age THREE_TO_SIX_MONTHS || String.eqb age SIX_TO_TWELVE_MONTHS then
    if daysSinceWarmupEnd <=? 30 then 60
    else if daysSinceWarmupEnd <=? 60 then 80
    else 100
  else 100.

(** The text of the comments-are-blocked rule. *)
Definition COMMENTS_DISABLED_REASON : string :=
  "Comments disabled during early warm-up phase (too risky for new accounts).".

(** ** types/index.ts: actions *)

Inductive ActionType := LIKE | COMMENT | VIEW | SCROLL | PROFILE_VISIT | SKIP.

#[global] Instance ActionType_eq_dec : EqDecision ActionType.
Proof. solve_decision. Defined.

(** The fields [type], [timestamp], [duration] and [success] of the
    interface carry the prefix [action_]. *)
Record ActionPattern := {
  action_type : ActionType;
  action_timestamp : Z;
  action_duration : Z;
  postId : option string;
  action_success : bool;
  errorMessage : option string
}.

(** ** content-script.ts: decideAction

    The three values read from storage ([actionsToday.total],
    [actionsToday.comments], [config.speedMode]) and the draw [rand] of
    [Math.random()] are inputs. *)

Record ActionDecision := {
  shouldAct : bool;
  actionType : ActionType;
  decision_reason : option string
}.

Definition decideAction (warmup : WarmupProtocol.t) (total comments : Z)
    (connectionDegree : Z) (speed : SpeedMode) (rand : Q) : ActionDecision :=
  let warmupCheck :=
    WarmupProtocol.canPerformAction warmup WarmupProtocol.like total comments
                                    connectionDegree speed in
  if negb (WarmupProtocol.allowed warmupCheck) then
    {| shouldAct := false; actionType := SKIP;
       decision_reason := WarmupProtocol.reason warmupCheck |}
  else if Qlt_bool rand (1 # 10) then
    {| shouldAct := false; actionType := SCROLL;
       decision_reason := Some "Just reading (no engagement)" |}
  else if Qlt_bool rand (6 # 10) then
    {| shouldAct := true; actionType := LIKE;
       decision_reason := Some "Like only" |}
  else if Qlt_bool rand (85 # 100) then
    let commentCheck :=
      WarmupProtocol.canPerformAction warmup WarmupProtocol.comment total comments
                                      connectionDegree speed in
    if WarmupProtocol.allowed commentCheck then
      {| shouldAct := true; actionType := COMMENT;
         decision_reason := Some "Like + Comment" |}
    else
      {| shouldAct := true; actionType := LIKE;
         decision_reason := Some "Comment blocked by warmup, like only" |}
  else
    {| shouldAct := true; actionType := COMMENT;
       decision_reason := Some "Comment only" |}.

(** ** storage-manager.ts: class StorageManager

    The store is the scalar keys of [chrome.storage.local], as before, and
    the two keys that hold structured values, [sessionState] and
    [actionHistory]; a key that is absent is [None]. *)

Module StorageManager.

Record Storage := {
  scalars : gmap string JsVal;
  stored_sessionState : option SessionState;
  stored_actionHistory : option (list ActionPattern)
}.

(** [Partial<SessionState>]: the fields that are given. *)
Record PartialSessionState := {
  p_actionsToday : option Z;
  p_actionsThisSession : option Z;
  p_sessionStartTime : option Z;
  p_lastActionTime : option Z;
  p_alertLevel : option AlertLevel;
  p_isWarmupPhase : option bool;
  p_warmupDay : option Z;
  p_accountAge : option AccountAge;
  p_speedMode : option SpeedMode
}.

(** A complete session state passed where a partial one is expected. *)
Definition whole (s : SessionState) : PartialSessionState :=
  {| p_actionsToday := Some (actionsToday s);
     p_actionsThisSession := Some (actionsThisSession s);
     p_sessionStartTime := Some (sessionStartTime s);
     p_lastActionTime := Some (lastActionTime s);
     p_alertLevel := Some (alertLevel s);
     p_isWarmupPhase := Some (isWarmupPhase s);
     p_warmupDay := Some (warmupDay s);
     p_accountAge := Some (sessionAccountAge s);
     p_speedMode := Some (speedMode s) |}.

(** [{ ...current, ...updates }]. *)
Definition spread (current : SessionState) (updates : PartialSessionState)
    : SessionState :=
  {| actionsToday := default (actionsToday current) (p_actionsToday updates);
     actionsThisSession :=
       default (actionsThisSession current) (p_actionsThisSession updates);
     sessionStartTime := default (sessionStartTime current) (p_sessionStartTime updates);
     lastActionTime := default (lastActionTime current) (p_lastActionTime updates);
     alertLevel := default (alertLevel current) (p_alertLevel updates);
     isWarmupPhase := default (isWarmupPhase current) (p_isWarmupPhase updates);
     warmupDay := default (warmupDay current) (p_warmupDay updates);
     sessionAccountAge := default (sessionAccountAge current) (p_accountAge updates);
     speedMode := default (speedMode current) (p_speedMode updates) |}.

Definition getDefaultSessionState (now : Z) : SessionState :=
  {| actionsToday := 0; actionsThisSession := 0; sessionStartTime := now;
     lastActionTime := 0; alertLevel := DEFCON1; isWarmupPhase := true;
     warmupDay := 1; sessionAccountAge := SIX_TO_TWELVE_MONTHS;
     speedMode := SLOW |}.

(** Writes the defaults when the store has no session state; [now] is the
    clock value of the two [Date.now()] in the defaults. *)
Definition initialize (now : Z) (store : Storage) : Storage :=
  match stored_sessionState store with
  | Some _ => store
  | None =>
      {| scalars :=
           <["licenseValid" := JBoolean false]>
             (<["emergencyStop" := JBoolean false]>
                (<["automationPaused" := JBoolean false]>
                   (<["automationEnabled" := JBoolean false]>
                      (<["speedMode" := JString "SLOW"]>
                         (<["dailyCommentLimit" := JNumber 10]>
                            (<["dailyActionLimit" := JNumber 50]>
                               (<["warningCount" := JNumber 0]>
                                  (<["warmupStartDate" := JNumber now]>
                                     (<["accountAge" := JString SIX_TO_TWELVE_MONTHS]>
                                        (scalars store))))))))));
         stored_sessionState := Some (getDefaultSessionState now);
         stored_actionHistory := Some [] |}
  end.

Definition getSessionState (now : Z) (store : Storage) : SessionState :=
  default (getDefaultSessionState now) (stored_sessionState store).

Definition updateSessionState (now : Z) (updates : PartialSessionState)
    (store : Storage) : Storage :=
  let current := getSessionState now store in
  let updated := spread current updates in
  {| scalars := scalars store;
     stored_sessionState := Some updated;
     stored_actionHistory := stored_actionHistory store |}.

Definition THIRTY_DAYS : Z := 30 * 24 * 60 * 60 * 1000.

(** [today] is [new Date().setHours(0, 0, 0, 0)], the local midnight. *)
Definition countActionsToday (today : Z) (history : list ActionPattern) : Z :=
  Z.of_nat (length (filter (fun a => today <= action_timestamp a) history)).

(** [None] is the [TypeError] of incrementing a field of a session state
    that is not in the store. *)
Definition recordAction (now today : Z) (action : ActionPattern)
    (store : Storage) : option Storage :=
  let history := default [] (stored_actionHistory store) ++ [action] in
  let thirtyDaysAgo := now - THIRTY_DAYS in
  let filtered := filter (fun a => thirtyDaysAgo < action_timestamp a) history in
  sessionState ← stored_sessionState store;
  let sessionState' :=
    {| actionsToday := countActionsToday today filtered;
       actionsThisSession := actionsThisSession sessionState + 1;
       sessionStartTime := sessionStartTime sessionState;
       lastActionTime := action_timestamp action;
       alertLevel := alertLevel sessionState;
       isWarmupPhase := isWarmupPhase sessionState;
       warmupDay := warmupDay sessionState;
       sessionAccountAge := sessionAccountAge sessionState;
       speedMode := speedMode sessionState |} in
  Some {| scalars := scalars store;
          stored_sessionState := Some sessionState';
          stored_actionHistory := Some filtered |}.

Definition getActionHistory (now days : Z) (store : Storage) : list ActionPattern :=
  let history := default [] (stored_actionHistory store) in
  let cutoffDate := now - days * 24 * 60 * 60 * 1000 in
  filter (fun a => cutoffDate < action_timestamp a) history.

Record ActionsToday := { total : Z; comments : Z; likes : Z }.

Definition getActionsToday (now today : Z) (store : Storage) : ActionsToday :=
  let history := getActionHistory now 1 store in
  let todayActions := filter (fun a => today <= action_timestamp a) history in
  {| total := Z.of_nat (length todayActions);
     comments := Z.of_nat (length (filter (fun a => action_type a = COMMENT) todayActions));
     likes := Z.of_nat (length (filter (fun a => action_type a = LIKE) todayActions)) |}.

Definition with_actionsToday (s : SessionState) (n : Z) : SessionState :=
  {| actionsToday := n;
     actionsThisSession := actionsThisSession s;
     sessionStartTime := sessionStartTime s;
     lastActionTime := lastActionTime s;
     alertLevel := alertLevel s;
     isWarmupPhase := isWarmupPhase s;
     warmupDay := warmupDay s;
     sessionAccountAge := sessionAccountAge s;
     speedMode := speedMode s |}.

Definition resetDailyCounters (now : Z) (store : Storage) : Storage :=
  let sessionState := with_actionsToday (getSessionState now store) 0 in
  updateSessionState now (whole sessionState) store.

Definition startNewSession (now : Z) (store : Storage) : Storage :=
  let s := getSessionState now store in
  let sessionState :=
    {| actionsToday := actionsToday s;
       actionsThisSession := 0;
       sessionStartTime := now;
       lastActionTime := lastActionTime s;
       alertLevel := DEFCON1;
       isWarmupPhase := isWarmupPhase s;
       warmupDay := warmupDay s;
       sessionAccountAge := sessionAccountAge s;
       speedMode := speedMode s |} in
  updateSessionState now (whole sessionState) store.

Definition set_scalar (key : string) (v : JsVal) (store : Storage) : Storage :=
  {| scalars := <[key := v]> (scalars store);
     stored_sessionState := stored_sessionState store;
     stored_actionHistory := stored_actionHistory store |}.

Definition endSession (store : Storage) : Storage :=
  set_scalar "automationPaused" (JBoolean true) store.

(** [data.automationEnabled && !data.automationPaused && !data.emergencyStop]:
    the first operand when it is falsy (possibly [undefined], [None]). *)
Definition isAutomationEnabled (store : Storage) : option JsVal :=
  let data := scalars store in
  if truthy (data !! "automationEnabled") then
    if negb (truthy (data !! "automationPaused")) then
      Some (JBoolean (negb (truthy (data !! "emergencyStop"))))
    else Some (JBoolean false)
  else data !! "automationEnabled".

Definition setAutomationEnabled (enabled : bool) (now : Z) (store : Storage)
    : Storage :=
  let store' := set_scalar "automationEnabled" (JBoolean enabled) store in
  if enabled then startNewSession now store' else store'.

End StorageManager.

(** The operations on the cooldown keys, on a store with all its keys. *)
Definition on_scalars (f : gmap string JsVal -> gmap string JsVal)
    (store : StorageManager.Storage) : StorageManager.Storage :=
  {| StorageManager.scalars := f (StorageManager.scalars store);
     StorageManager.stored_sessionState := StorageManager.stored_sessionState store;
     StorageManager.stored_actionHistory := StorageManager.stored_actionHistory store |}.

(** The operations that run between a stop and a later check of
    [isAutomationEnabled]: the user's toggle, session bookkeeping, a recorded
    action, a further cooldown, and the lazy expiry of a cooldown. *)
Inductive StoreOp :=
  | OpSetAutomationEnabled (enabled : bool) (now : Z)
  | OpStartNewSession (now : Z)
  | OpEndSession
  | OpResetDailyCounters (now : Z)
  | OpInitialize (now : Z)
  | OpRecordAction (now today : Z) (action : ActionPattern)
  | OpEnableCooldown (now : Z) (reason : string)
  | OpIsInCooldown (now : Z).

(** One operation; an operation that throws leaves the store as it was. *)
Definition run_op (store : StorageManager.Storage) (op : StoreOp)
    : StorageManager.Storage :=
  match op with
  | OpSetAutomationEnabled enabled now =>
      StorageManager.setAutomationEnabled enabled now store
  | OpStartNewSession now => StorageManager.startNewSession now store
  | OpEndSession => StorageManager.endSession store
  | OpResetDailyCounters now => StorageManager.resetDailyCounters now store
  | OpInitialize now => StorageManager.initialize now store
  | OpRecordAction now today action =>
      default store (StorageManager.recordAction now today action store)
  | OpEnableCooldown now reason =>
      on_scalars (CooldownManager.enable48HourCooldown now reason) store
  | OpIsInCooldown now =>
      match CooldownManager.isInCooldown now (StorageManager.scalars store) with
      | Some (_, scalars') => on_scalars (fun _ => scalars') store
      | None => store
      end
  end.

Definition run_ops (store : StorageManager.Storage) (ops : list StoreOp)
    : StorageManager.Storage :=
  fold_left run_op ops store.

(** A store with nothing in it, and a like at time 7. *)
Definition empty_store : StorageManager.Storage :=
  {| StorageManager.scalars := ∅;
     StorageManager.stored_sessionState := None;
     StorageManager.stored_actionHistory := None |}.

Definition sample_like : ActionPattern :=
  {| action_type := LIKE; action_timestamp := 7; action_duration := 1;
     postId := None; action_success := true; errorMessage := None |}.

(** The configuration of the blocked tier and the one of the default
    branch, as [getWarmupConfig] writes them. *)
Definition blocked_config : WarmupConfig :=
  {| maxActionsPerDay := 0; maxCommentsPerDay := 0; minActionSpread := 24;
     allowedSpeed := []; restrictedToConnections := 1;
     requiresManualApproval := true |}.

Definition fallback_config : WarmupConfig :=
  {| maxActionsPerDay := 20; maxCommentsPerDay := 5; minActionSpread := 4;
     allowedSpeed := [SLOW]; restrictedToConnections := 2;
     requiresManualApproval := false |}.

(** A protocol object with the given fields. *)
Definition protocol (age : AccountAge) (start day : Z) : WarmupProtocol.t :=
  {| WarmupProtocol.accountAge := age;
     WarmupProtocol.warmupStartDate := start;
     WarmupProtocol.currentDay := day |}.

(** The message of the disabled-controls signal. *)
Definition DISABLED_MESSAGE : string := "Action buttons appear disabled".

(** The severity of an appearance-tier signal: DEFCON4 for the
    disabled-controls signal, DEFCON5 for every other. *)
Definition appearance_severity_ok (s : DetectionSignal) : Prop :=
  type s = warning
  /\ if String.eqb (message s) DISABLED_MESSAGE
     then severity s = DEFCON4
     else severity s = DEFCON5.

(** A page with a single action button, which is disabled. *)
Definition disabled_button : Element :=
  {| textContent := Some "Like"; outerHTML := "<button disabled>Like</button>";
     hasAttribute_disabled := true; classList_contains_disabled := false |}.

Definition page_with_disabled_button : Page :=
  {| querySelectorAll := fun sel =>
       if String.eqb sel DetectionSystem.ACTION_BUTTONS then [disabled_button] else [];
     location_href := "https://www.linkedin.com/feed/" |}.

(** A session as the storage manager creates it. *)
Definition default_session : SessionState :=
  {| actionsToday := 0; actionsThisSession := 0; sessionStartTime := 0;
     lastActionTime := 0; alertLevel := DEFCON1; isWarmupPhase := true;
     warmupDay := 1; sessionAccountAge := SIX_TO_TWELVE_MONTHS;
     speedMode := SLOW |}.

(** The ten configurations that [getWarmupConfig] can return. *)
Definition all_configs : list WarmupConfig :=
  [ WarmupProtocol.getWarmupConfig (protocol UNDER_3_MONTHS 0 1);
    WarmupProtocol.getWarmupConfig (protocol THREE_TO_SIX_MONTHS 0 1);
    WarmupProtocol.getWarmupConfig (protocol THREE_TO_SIX_MONTHS 0 8);
    WarmupProtocol.getWarmupConfig (protocol THREE_TO_SIX_MONTHS 0 15);
    WarmupProtocol.getWarmupConfig (protocol THREE_TO_SIX_MONTHS 0 22);
    WarmupProtocol.getWarmupConfig (protocol SIX_TO_TWELVE_MONTHS 0 1);
    WarmupProtocol.getWarmupConfig (protocol SIX_TO_TWELVE_MONTHS 0 8);
    WarmupProtocol.getWarmupConfig (protocol ONE_TO_TWO_YEARS 0 1);
    WarmupProtocol.getWarmupConfig (protocol OVER_TWO_YEARS 0 1);
    fallback_config ].

(** The answer of [isInCooldown] when there is no cooldown. *)
Definition not_in_cooldown : CooldownManager.CooldownStatus :=
  {| CooldownManager.inCooldown := false;
     CooldownManager.remainingTime := None;
     CooldownManager.cooldownReason := None |}.

(** Calls [enable48HourCooldown] once for each clock value and reason. *)
Definition enable_all (calls : list (Z * string)) (store : gmap string JsVal)
    : gmap string JsVal :=
  fold_left (fun s call => CooldownManager.enable48HourCooldown call.1 call.2 s)
            calls store.

(** ** detection-system.ts: class ResponseProtocol

    The class reads nothing: it writes to [chrome.storage.local], sends
    runtime messages and logs to the console.  A response is modelled by
    the list of these effects in the order the code performs them. *)

Module ResponseProtocol.

(** A value written to the store: one the store model holds, or a number
    with a fractional part. *)
Inductive StoredValue := Plain (v : JsVal) | Fraction (q : Q).

Inductive Message :=
  | STOP_AUTOMATION
  | PAUSE_AUTOMATION
  | SHOW_EMERGENCY_MODAL (signals : list DetectionSignal)
  | SHOW_WARNING (signals : list DetectionSignal)
  | SHOW_INFO (text : string).

Inductive ConsoleLevel := console_log | console_info | console_warn | console_error.

Inductive Effect :=
  | StorageSet (items : list (string * StoredValue))
  | SendMessage (m : Message)
  | Console (level : ConsoleLevel) (text : string) (payload : list DetectionSignal).

Definition stopAllAutomation : list Effect :=
  [ StorageSet [ ("automationEnabled", Plain (JBoolean false));
                 ("emergencyStop", Plain (JBoolean true)) ];
    SendMessage STOP_AUTOMATION ].

Definition pauseAutomation : list Effect :=
  [ StorageSet [ ("automationPaused", Plain (JBoolean true)) ];
    SendMessage PAUSE_AUTOMATION ].

Definition enableCooldown (duration now : Z) : list Effect :=
  let cooldownEnd := now + duration in
  [ StorageSet [ ("cooldownEnd", Plain (JNumber cooldownEnd));
                 ("automationEnabled", Plain (JBoolean false)) ] ].

Definition adjustDelays (multiplier : StoredValue) : list Effect :=
  [ StorageSet [ ("delayMultiplier", multiplier) ] ].

Definition adjustBatchSize (multiplier : StoredValue) : list Effect :=
  [ StorageSet [ ("batchSizeMultiplier", multiplier) ] ].

Definition skipNextActions (count : Z) : list Effect :=
  [ StorageSet [ ("skipNextActions", Plain (JNumber count)) ] ].

Definition scheduleBreak (duration now : Z) : list Effect :=
  [ StorageSet [ ("breakUntil", Plain (JNumber (now + duration))) ] ].

Definition increaseRandomization : list Effect :=
  [ StorageSet [ ("randomizationMultiplier", Plain (JNumber 2)) ] ].

Definition showEmergencyModal (signals : list DetectionSignal) : list Effect :=
  [ SendMessage (SHOW_EMERGENCY_MODAL signals) ].

Definition showWarningBanner (signals : list DetectionSignal) : list Effect :=
  [ SendMessage (SHOW_WARNING signals) ].

Definition showInfoBanner (text : string) : list Effect :=
  [ SendMessage (SHOW_INFO text) ].

Definition reportToBackend (level : string) (signals : list DetectionSignal)
    : list Effect :=
  [ Console console_log ("Reporting " +:+ level +:+ " to backend:") signals ].

Definition sendEmailAlert (signals : list DetectionSignal) : list Effect :=
  [ Console console_log "Email alert triggered:" signals ].

Definition handleDEFCON5 (signals : list DetectionSignal) (now : Z) : list Effect :=
  stopAllAutomation
  ++ enableCooldown (48 * 60 * 60 * 1000) now
  ++ showEmergencyModal signals
  ++ reportToBackend "DEFCON5" signals
  ++ sendEmailAlert signals
  ++ [ Console console_error
         "⚠️ DEFCON 5: LinkedIn warning detected. All automation stopped." [] ].

Definition handleDEFCON4 (signals : list DetectionSignal) : list Effect :=
  pauseAutomation
  ++ adjustDelays (Plain (JNumber 3))
  ++ adjustBatchSize (Fraction (1 # 2))
  ++ showWarningBanner signals
  ++ reportToBackend "DEFCON4" signals
  ++ [ Console console_warn
         "⚠️ DEFCON 4: Possible rate limiting. Automation paused." [] ].

Definition handleDEFCON3 (signals : list DetectionSignal) : list Effect :=
  adjustDelays (Fraction (3 # 2))
  ++ skipNextActions 2
  ++ showInfoBanner "Performance issues detected. Slowing down for safety."
  ++ [ Console console_info "ℹ️ DEFCON 3: Performance degradation detected." [] ].

Definition handleDEFCON2 (signals : list DetectionSignal) (now : Z) : list Effect :=
  scheduleBreak (10 * 60 * 1000) now
  ++ increaseRandomization
  ++ showInfoBanner "Taking a safety break to maintain natural patterns."
  ++ [ Console console_info "ℹ️ DEFCON 2: Pattern risk detected. Break scheduled." [] ].

Definition executeResponse (alertLevel : AlertLevel)
    (signals : list DetectionSignal) (now : Z) : list Effect :=
  match alertLevel with
  | DEFCON5 => handleDEFCON5 signals now
  | DEFCON4 => handleDEFCON4 signals
  | DEFCON3 => handleDEFCON3 signals
  | DEFCON2 => handleDEFCON2 signals now
  | DEFCON1 => []
  end.

End ResponseProtocol.

(** One turn of the loop of [highest_level]. *)
Definition level_step (level : AlertLevel) (signal : DetectionSignal) : AlertLevel :=
  if DetectionSystem.getAlertLevelPriority level
     <? DetectionSystem.getAlertLevelPriority (severity signal)
  then severity signal else level.

(** The reading-time band that [calculateReadingTime] picks. *)
Definition reading_band (st : SessionState) (wordCount : Z) : Z * Z :=
  let config := HumanizationEngine.getTimingConfig (speedMode st) in
  if wordCount <? 100 then HumanizationEngine.short (HumanizationEngine.readingTime config)
  else if wordCount <? 300
  then HumanizationEngine.medium (HumanizationEngine.readingTime config)
  else HumanizationEngine.long (HumanizationEngine.readingTime config).

(** The default session after [n] actions, at the given speed tier. *)
Definition session_with (n : Z) (mode : SpeedMode) : SessionState :=
  {| actionsToday := n; actionsThisSession := n; sessionStartTime := 0;
     lastActionTime := 0; alertLevel := DEFCON1; isWarmupPhase := true;
     warmupDay := 1; sessionAccountAge := SIX_TO_TWELVE_MONTHS;
     speedMode := mode |}.

(** What [shouldTakeBreak] answers, case by case. *)
Definition break_answer_ok (st : SessionState) (now : Z)
    (answer : option HumanizationEngine.BreakDirective) : Prop :=
  let actions := actionsThisSession st in
  let table := HumanizationEngine.breaks (HumanizationEngine.getTimingConfig (speedMode st)) in
  let elapsed := now - sessionStartTime st in
  match answer with
  | None => actions < HumanizationEngine.sessionEnd table /\ elapsed < 3600000
  | Some b =>
      HumanizationEngine.needed b = true
      /\ match HumanizationEngine.break_type b with
         | HumanizationEngine.session_end =>
             (HumanizationEngine.sessionEnd table <= actions \/ 3600000 <= elapsed)
             /\ (inject_Z 7200000 <= HumanizationEngine.break_duration b)%Q
             /\ (HumanizationEngine.break_duration b < inject_Z 14400000)%Q
         | HumanizationEngine.medium_break =>
             actions < HumanizationEngine.sessionEnd table /\ elapsed < 3600000
             /\ 25 <= actions <= 30
             /\ (inject_Z ((HumanizationEngine.mediumBreak table).1 * 60 * 1000) <= HumanizationEngine.break_duration b)%Q
             /\ (HumanizationEngine.break_duration b < inject_Z ((HumanizationEngine.mediumBreak table).2 * 60 * 1000))%Q
         | HumanizationEngine.mini_break =>
             actions < HumanizationEngine.sessionEnd table /\ elapsed < 3600000
             /\ 8 <= actions
             /\ (inject_Z ((HumanizationEngine.mini table).1 * 60 * 1000) <= HumanizationEngine.break_duration b)%Q
             /\ (HumanizationEngine.break_duration b < inject_Z ((HumanizationEngine.mini table).2 * 60 * 1000))%Q
         end
  end.

(** The keys that the effects of a response write, in order. *)
Definition written_keys (effects : list ResponseProtocol.Effect) : list string :=
  flat_map (fun e => match e with
                     | ResponseProtocol.StorageSet items => map fst items
                     | _ => []
                     end) effects.

(** The messages that the effects of a response send, in order. *)
Definition sent_messages (effects : list ResponseProtocol.Effect)
    : list ResponseProtocol.Message :=
  flat_map (fun e => match e with
                     | ResponseProtocol.SendMessage m => [m]
                     | _ => []
                     end) effects.

(** [chrome.storage.local.set] of one item; [None] when the value has a
    fractional part, which the store model does not hold. *)
Definition store_item (store : option (gmap string JsVal))
    (item : string * ResponseProtocol.StoredValue) : option (gmap string JsVal) :=
  match store, item.2 with
  | Some m, ResponseProtocol.Plain v => Some (<[item.1 := v]> m)
  | _, _ => None
  end.

(** The store after the writes of a response. *)
Definition store_after (store : gmap string JsVal)
    (effects : list ResponseProtocol.Effect) : option (gmap string JsVal) :=
  fold_left (fun acc e => match e with
                          | ResponseProtocol.StorageSet items =>
                              fold_left store_item items acc
                          | _ => acc
                          end) effects (Some store).

(** ** content-script.ts: the passive monitor

    The callback that [startPassiveMonitoring] runs every 10 seconds, as
    the effects it performs on the given page. *)
Definition passiveMonitoringTick (page : Page) (now : Z)
    : list ResponseProtocol.Effect :=
  let signals := DetectionSystem.detectDOMWarnings page now in
  match signals with
  | first :: _ =>
      ResponseProtocol.Console ResponseProtocol.console_error "WARNING DETECTED:" signals
      :: ResponseProtocol.executeResponse (severity first) signals now
  | [] => []
  end.

(** Timestamps [t0], [t0 + d], ... : [n] actions at a constant interval. *)
Definition progression (t0 d : Z) (n : nat) : list Z :=
  map (fun i => t0 + Z.of_nat i * d) (seq 0 n).

(** A page at a security checkpoint whose only action button is disabled. *)
Definition checkpoint_page_with_disabled_button : Page :=
  {| querySelectorAll := fun sel =>
       if String.eqb sel DetectionSystem.ACTION_BUTTONS then [disabled_button] else [];
     location_href := "https://www.linkedin.com/checkpoint/challenge" |}.

(* ===================================================================== *)
(** * Part II: properties *)
(* ===================================================================== *)

Example canPerformAction_week2 :
  WarmupProtocol.canPerformAction (protocol THREE_TO_SIX_MONTHS 0 9)
                                  WarmupProtocol.like 10 0 1 SLOW
  = {| WarmupProtocol.allowed := false;
       WarmupProtocol.reason :=
         Some "Daily action limit reached (10). Warm-up Day 9/28." |}.
Proof. vm_compute. reflexivity. Qed.

Example six_to_twelve_months_day_3 :
  maxActionsPerDay (WarmupProtocol.getWarmupConfig (protocol SIX_TO_TWELVE_MONTHS 0 3)) = 15
  /\ maxCommentsPerDay (WarmupProtocol.getWarmupConfig (protocol SIX_TO_TWELVE_MONTHS 0 3)) = 3.
Proof. split; reflexivity. Qed.

Example six_to_twelve_months_day_10 :
  maxActionsPerDay (WarmupProtocol.getWarmupConfig (protocol SIX_TO_TWELVE_MONTHS 0 10)) = 30
  /\ maxCommentsPerDay (WarmupProtocol.getWarmupConfig (protocol SIX_TO_TWELVE_MONTHS 0 10)) = 7.
Proof. split; reflexivity. Qed.

(** ** Warm-up policy *)

Section WarmupPolicy.

Import WarmupProtocol.

Lemma getWarmupConfig_under_3_months start day :
  getWarmupConfig (protocol UNDER_3_MONTHS start day) = blocked_config.
Proof. reflexivity. Qed.

Lemma MS_PER_DAY_value : MS_PER_DAY = 86400000.
Proof. reflexivity. Qed.


(** The blocked configuration denies every request: a like or a view that
    gets past the caps and the degree test still fails the speed test, the
    list of allowed speeds being empty. *)
Lemma blocked_config_denies this kind a c d speed :
  getWarmupConfig this = blocked_config ->
  allowed (canPerformAction this kind a c d speed) = false.
Proof.
  intros Hcfg. unfold canPerformAction. rewrite Hcfg.
  cbn [maxActionsPerDay maxCommentsPerDay allowedSpeed restrictedToConnections
       blocked_config includes existsb negb].
  destruct (0 <=? a); [reflexivity|].
  destruct (is_comment kind && (0 <=? c)); [reflexivity|].
  destruct (is_comment kind && (0 =? 0)); [reflexivity|].
  destruct (1 <? d); reflexivity.
Qed.

(** C1: for the tier "under 3 months", whatever the start date and the day
    number (zero and negative included), [getWarmupConfig] has zero actions
    and zero comments per day and asks for manual approval, and
    [canPerformAction] denies every kind of action for every value of the
    counters, the connection degree and the speed tier. *)
Theorem under_3_months_always_blocked (start day : Z) :
  let this := protocol UNDER_3_MONTHS start day in
  maxActionsPerDay (getWarmupConfig this) = 0
  /\ maxCommentsPerDay (getWarmupConfig this) = 0
  /\ requiresManualApproval (getWarmupConfig this) = true
  /\ forall kind actionsToday commentsToday connectionDegree speed,
       allowed (canPerformAction this kind actionsToday commentsToday
                                 connectionDegree speed) = false.
Proof.
  intros this. repeat split.
  intros kind a c d speed.
  apply blocked_config_denies, getWarmupConfig_under_3_months.
Qed.

(** The same through the constructor, at any clock value. *)
Lemma new_under_3_months_blocked now start kind a c d speed :
  allowed (canPerformAction (new now UNDER_3_MONTHS start) kind a c d speed) = false.
Proof. apply blocked_config_denies. reflexivity. Qed.

(** C4, counterexample: with a start one day and one millisecond in the
    future the day number is -1, not 1. *)
Lemma calculateCurrentDay_not_clamped :
  calculateCurrentDay 0 86400001 <> Z.max 1 ((0 - 86400001) / 86400000 + 1).
Proof. vm_compute. discriminate. Qed.

(** C4, amended: the day number is [floor((now - start) / 86400000) + 1];
    it agrees with [max(1, _)], and is at least 1, exactly when the start is
    not in the future. *)
Theorem calculateCurrentDay_spec (now start : Z) (age : AccountAge) :
  currentDay (new now age start) = (now - start) / 86400000 + 1
  /\ (currentDay (new now age start)
        = Z.max 1 ((now - start) / 86400000 + 1) <-> start <= now)
  /\ (1 <= currentDay (new now age start) <-> start <= now).
Proof.
  cbn [new currentDay]. unfold calculateCurrentDay. rewrite MS_PER_DAY_value.
  pose proof (Z.div_mod (now - start) 86400000 ltac:(lia)) as Hdm.
  pose proof (Z.mod_pos_bound (now - start) 86400000 ltac:(lia)) as Hmod.
  set (q := (now - start) / 86400000) in *.
  set (r := (now - start) mod 86400000) in *.
  repeat split; lia.
Qed.

(** C5, the code at the failing input: a 3-6 month account on day 1 has
    comments switched off; a comment request with both counters at zero is
    denied by the comment-limit rule, whose reason is not the
    comments-disabled one. *)
Theorem comment_on_disabled_day_reports_limit :
  canPerformAction (protocol THREE_TO_SIX_MONTHS 0 1) comment 0 0 1 ULTRA_SLOW
    = {| allowed := false; reason := Some "Daily comment limit reached (0)." |}
  /\ maxCommentsPerDay (getWarmupConfig (protocol THREE_TO_SIX_MONTHS 0 1)) = 0
  /\ reason (canPerformAction (protocol THREE_TO_SIX_MONTHS 0 1)
                              comment 0 0 1 ULTRA_SLOW)
     <> Some COMMENTS_DISABLED_REASON.
Proof. vm_compute. repeat split; discriminate. Qed.

(** With comments switched off a comment is denied whatever the counters. *)
Lemma comment_denied_when_disabled this a c d speed :
  maxCommentsPerDay (getWarmupConfig this) = 0 ->
  allowed (canPerformAction this comment a c d speed) = false.
Proof.
  intros H0. unfold canPerformAction. rewrite H0. cbn [is_comment andb].
  destruct (_ <=? a); [reflexivity|].
  destruct (0 <=? c); reflexivity.
Qed.

(** The comments-disabled reason is only ever given for a negative count of
    comments: the comment-limit rule comes first and catches the others. *)
Lemma comments_disabled_reason_needs_negative_count this kind a c d speed :
  reason (canPerformAction this kind a c d speed) = Some COMMENTS_DISABLED_REASON ->
  kind = comment
  /\ maxCommentsPerDay (getWarmupConfig this) = 0
  /\ c < 0.
Proof.
  unfold canPerformAction, COMMENTS_DISABLED_REASON.
  destruct (_ <=? a); [cbn; discriminate|].
  destruct (is_comment kind && (_ <=? c)) eqn:Hlim; [cbn; discriminate|].
  destruct (is_comment kind && (_ =? 0)) eqn:Hoff.
  - intros _. apply andb_prop in Hoff as [Hk Hz].
    rewrite Hk in Hlim. cbn [andb] in Hlim.
    apply Z.eqb_eq in Hz. apply Z.leb_gt in Hlim.
    destruct kind; try discriminate Hk. repeat split; lia.
  - destruct (_ <? d); [cbn; discriminate|].
    destruct (negb _); cbn; discriminate.
Qed.

(** C6, counterexample: ten days after the end of its warm-up a 6-12 month
    account is at 75 percent, where the ramp 60/80/100 says 60. *)
Lemma six_to_twelve_months_ramp_differs :
  percentage (getPostWarmupLimits (protocol SIX_TO_TWELVE_MONTHS 0 24))
    <> spec_ramp_percentage SIX_TO_TWELVE_MONTHS (24 - 14).
Proof. vm_compute. discriminate. Qed.

(** C6, amended: with [d] the day number minus the tier's warm-up length,
    the 3-6 month tier is at 60 up to [d = 30], 80 up to [d = 60], then
    100; the 6-12 month tier is at 75 up to [d = 30], then 100; every other
    tier is at 100 for every day.  The daily-action figure equals the
    percentage. *)
Theorem getPostWarmupLimits_ramp (start day : Z) :
  (let l := getPostWarmupLimits (protocol THREE_TO_SIX_MONTHS start day) in
   dailyActions l = percentage l
   /\ (day - 28 <= 30 -> percentage l = 60)
   /\ (30 < day - 28 <= 60 -> percentage l = 80)
   /\ (60 < day - 28 -> percentage l = 100))
  /\ (let l := getPostWarmupLimits (protocol SIX_TO_TWELVE_MONTHS start day) in
      dailyActions l = percentage l
      /\ (day - 14 <= 30 -> percentage l = 75)
      /\ (30 < day - 14 -> percentage l = 100))
  /\ (forall age, age <> THREE_TO_SIX_MONTHS -> age <> SIX_TO_TWELVE_MONTHS ->
        getPostWarmupLimits (protocol age start day)
          = {| dailyActions := 100; percentage := 100 |}).
Proof.
  split; [|split].
  - unfold getPostWarmupLimits, protocol; cbn.
    destruct (Z.leb_spec (day - 28) 30); cbn;
      [|destruct (Z.leb_spec (day - 28) 60); cbn]; repeat split; lia.
  - unfold getPostWarmupLimits, protocol; cbn.
    destruct (Z.leb_spec (day - 14) 30); cbn; repeat split; lia.
  - intros age H1 H2. unfold getPostWarmupLimits, protocol; cbn [accountAge].
    apply String.eqb_neq in H1, H2. rewrite H1, H2. reflexivity.
Qed.

Lemma getPostWarmupLimits_ramp_witness :
  percentage (getPostWarmupLimits (protocol THREE_TO_SIX_MONTHS 0 40)) = 60
  /\ percentage (getPostWarmupLimits (protocol THREE_TO_SIX_MONTHS 0 70)) = 80
  /\ percentage (getPostWarmupLimits (protocol THREE_TO_SIX_MONTHS 0 100)) = 100
  /\ percentage (getPostWarmupLimits (protocol SIX_TO_TWELVE_MONTHS 0 24)) = 75
  /\ percentage (getPostWarmupLimits (protocol SIX_TO_TWELVE_MONTHS 0 50)) = 100
  /\ getPostWarmupLimits (protocol OVER_TWO_YEARS 0 4)
       = {| dailyActions := 100; percentage := 100 |}.
Proof.
  split; [apply (getPostWarmupLimits_ramp 0 40); lia|].
  split; [apply (getPostWarmupLimits_ramp 0 70); lia|].
  split; [apply (getPostWarmupLimits_ramp 0 100); lia|].
  split; [apply (getPostWarmupLimits_ramp 0 24); lia|].
  split; [apply (getPostWarmupLimits_ramp 0 50); lia|].
  apply (getPostWarmupLimits_ramp 0 4); discriminate.
Defined.





End WarmupPolicy.

(** ** Cooldown *)

Section Cooldown.

Import CooldownManager.

Implicit Types (store : gmap string JsVal) (reason : string).

Lemma FORTY_EIGHT_HOURS_value : FORTY_EIGHT_HOURS = 172800000.
Proof. reflexivity. Qed.

Lemma enable_lookup_cooldownEnd now reason store :
  enable48HourCooldown now reason store !! "cooldownEnd"
    = Some (JNumber (now + 172800000)).
Proof. unfold enable48HourCooldown. by rewrite lookup_insert_eq. Qed.

Lemma enable_lookup_cooldownReason now reason store :
  enable48HourCooldown now reason store !! "cooldownReason" = Some (JString reason).
Proof.
  unfold enable48HourCooldown.
  rewrite lookup_insert_ne by done. by rewrite lookup_insert_eq.
Qed.

Lemma enable_lookup_automationEnabled now reason store :
  enable48HourCooldown now reason store !! "automationEnabled"
    = Some (JBoolean false).
Proof.
  unfold enable48HourCooldown.
  do 2 (rewrite lookup_insert_ne by done). by rewrite lookup_insert_eq.
Qed.

Lemma enable_lookup_warningCount now reason store :
  enable48HourCooldown now reason store !! "warningCount"
    = Some (js_add (getWarningCount store) (JNumber 1)).
Proof.
  unfold enable48HourCooldown.
  do 3 (rewrite lookup_insert_ne by done). by rewrite lookup_insert_eq.
Qed.

(** The keys that [enable48HourCooldown] does not write are kept. *)
Lemma enable_lookup_other now reason store key :
  key <> "cooldownEnd" -> key <> "cooldownReason" ->
  key <> "automationEnabled" -> key <> "warningCount" ->
  enable48HourCooldown now reason store !! key = store !! key.
Proof.
  intros. unfold enable48HourCooldown.
  by do 4 (rewrite lookup_insert_ne by done).
Qed.

(** A count that is a number goes up by one. *)
Lemma getWarningCount_enable now reason store n :
  getWarningCount store = JNumber n ->
  getWarningCount (enable48HourCooldown now reason store) = JNumber (n + 1).
Proof.
  intros Hn. unfold getWarningCount at 1.
  rewrite enable_lookup_warningCount, Hn. cbn.
  destruct (Z.eqb_spec (n + 1) 0) as [->|]; reflexivity.
Qed.

(** C9: each call of [enable48HourCooldown] sets the expiry to 48 hours
    (172,800,000 ms) after the clock value it reads, records the reason,
    switches automation off, and raises the warning count by exactly one;
    from a count of zero, one call does not yet give permanent restrictions
    and two calls in a row give a count of 2 and permanent restrictions. *)
Theorem enable48HourCooldown_spec store (now1 now2 : Z) (r1 r2 : string) (n : Z) :
  getWarningCount store = JNumber n ->
  let s1 := enable48HourCooldown now1 r1 store in
  let s2 := enable48HourCooldown now2 r2 s1 in
  s1 !! "cooldownEnd" = Some (JNumber (now1 + 48 * 60 * 60 * 1000))
  /\ s1 !! "cooldownReason" = Some (JString r1)
  /\ s1 !! "automationEnabled" = Some (JBoolean false)
  /\ getWarningCount s1 = JNumber (n + 1)
  /\ s2 !! "cooldownEnd" = Some (JNumber (now2 + 48 * 60 * 60 * 1000))
  /\ s2 !! "automationEnabled" = Some (JBoolean false)
  /\ getWarningCount s2 = JNumber (n + 2)
  /\ (n = 0 ->
      hasPermanentRestrictions s1 = Some false
      /\ getWarningCount s2 = JNumber 2
      /\ hasPermanentRestrictions s2 = Some true).
Proof.
  intros Hn s1 s2.
  assert (H1 : getWarningCount s1 = JNumber (n + 1))
    by (apply getWarningCount_enable, Hn).
  assert (H2 : getWarningCount s2 = JNumber (n + 2)).
  { replace (n + 2) with (n + 1 + 1) by lia. apply getWarningCount_enable, H1. }
  subst s1 s2.
  split; [apply enable_lookup_cooldownEnd|].
  split; [apply enable_lookup_cooldownReason|].
  split; [apply enable_lookup_automationEnabled|].
  split; [exact H1|].
  split; [apply enable_lookup_cooldownEnd|].
  split; [apply enable_lookup_automationEnabled|].
  split; [exact H2|].
  intros ->. unfold hasPermanentRestrictions. rewrite H1, H2. by cbn.
Qed.

Lemma enable48HourCooldown_spec_witness :
  getWarningCount ∅ = JNumber 0
  /\ getWarningCount
       (enable48HourCooldown 2000 "429" (enable48HourCooldown 1000 "403" ∅))
     = JNumber 2
  /\ hasPermanentRestrictions
       (enable48HourCooldown 2000 "429" (enable48HourCooldown 1000 "403" ∅))
     = Some true.
Proof.
  split; [reflexivity|].
  split; apply (enable48HourCooldown_spec ∅ 1000 2000 "403" "429" 0);
    reflexivity.
Defined.

(** Right after a call the account is in cooldown, and what remains is the
    48 hours less the time gone by since the call. *)
Lemma isInCooldown_after_enable store now reason later :
  0 <= now -> now <= later < now + 172800000 ->
  exists status,
    isInCooldown later (enable48HourCooldown now reason store)
      = Some (status, enable48HourCooldown now reason store)
    /\ inCooldown status = true
    /\ remainingTime status = Some (now + 172800000 - later).
Proof.
  intros Hnow Hlater. unfold isInCooldown.
  rewrite enable_lookup_cooldownEnd. cbn.
  destruct (Z.eqb_spec (now + 172800000) 0); [lia|]. cbn.
  destruct (Z.ltb_spec later (now + 172800000)); [|lia].
  eexists. split; [reflexivity|]. by cbn.
Qed.

End Cooldown.

(** ** Detection: the appearance tier *)

Section AppearanceTier.

Import DetectionSystem.

Lemma element_warnings_ok now selector element :
  Forall appearance_severity_ok (element_warnings now selector element).
Proof.
  unfold element_warnings. apply Forall_forall. intros s Hs.
  apply list_elem_of_In, in_flat_map in Hs as (pat & _ & Hs).
  destruct (str_includes _ _); [|destruct Hs].
  destruct Hs as [<-|[]]. split; reflexivity.
Qed.

Lemma phrase_signals_ok now page selectors :
  Forall appearance_severity_ok
    (flat_map (fun selector =>
                 flat_map (element_warnings now selector)
                          (querySelectorAll page selector)) selectors).
Proof.
  apply Forall_forall. intros s Hs.
  apply list_elem_of_In, in_flat_map in Hs as (selector & _ & Hs).
  apply in_flat_map in Hs as (element & _ & Hs).
  apply list_elem_of_In in Hs.
  exact (proj1 (Forall_forall _ _) (element_warnings_ok _ _ _) s Hs).
Qed.

(** C3, counterexample: on a page whose only action button is disabled the
    appearance tier emits one signal, of severity DEFCON4. *)
Lemma disabled_controls_signal_is_DEFCON4 :
  ~ (forall page now,
       Forall (fun s => severity s = DEFCON5) (detectDOMWarnings page now)).
Proof.
  intros H. specialize (H page_with_disabled_button 0).
  vm_compute in H. inversion H as [|s l Hsev _]. discriminate Hsev.
Qed.

(** C3, amended: every signal of [detectDOMWarnings] is a warning; the
    signals of warning-phrase matches, of the CAPTCHA and challenge markers
    and of the security-checkpoint location carry DEFCON5; the signal of the
    disabled-controls check carries DEFCON4, and it is present exactly
    when more than half of the action buttons are disabled. *)
Theorem detectDOMWarnings_severity (page : Page) (now : Z) :
  Forall appearance_severity_ok (detectDOMWarnings page now)
  /\ (detectDisabledActions page = true <->
      Exists (fun s => severity s = DEFCON4) (detectDOMWarnings page now)).
Proof.
  unfold detectDOMWarnings.
  pose proof (phrase_signals_ok now page WARNING_SELECTORS) as Hph.
  set (phrases := flat_map _ WARNING_SELECTORS) in *.
  split.
  - apply Forall_app_2; [exact Hph|].
    apply Forall_app_2; [destruct (detectCaptcha page); repeat constructor|].
    apply Forall_app_2; [destruct (detectDisabledActions page); repeat constructor|].
    destruct (_ || _); repeat constructor.
  - split.
    + intros ->. apply Exists_app. right. apply Exists_app. right.
      apply Exists_app. left. constructor. reflexivity.
    + intros Hex. apply Exists_app in Hex as [Hex|Hex].
      { apply Exists_exists in Hex as (s & Hin & Hsev).
        pose proof (proj1 (Forall_forall _ _) Hph s Hin) as [_ Hs].
        destruct (String.eqb (message s) DISABLED_MESSAGE) eqn:Hm.
        - exfalso. subst phrases. apply list_elem_of_In in Hin.
          apply in_flat_map in Hin as (selector & _ & Hin).
          apply in_flat_map in Hin as (element & _ & Hin).
          apply in_flat_map in Hin as (pat & _ & Hin).
          destruct (str_includes _ _); [|destruct Hin].
          destruct Hin as [<-|[]]. cbn in Hm. discriminate Hm.
        - congruence. }
      apply Exists_app in Hex as [Hex|Hex].
      { destruct (detectCaptcha page); inversion Hex as [? ? Hs|? ? Hs];
          [discriminate Hs|inversion Hs]. }
      apply Exists_app in Hex as [Hex|Hex].
      { destruct (detectDisabledActions page); [reflexivity|inversion Hex]. }
      destruct (_ || _); inversion Hex as [? ? Hs|? ? Hs];
        [discriminate Hs|inversion Hs].
Qed.

End AppearanceTier.

(** ** Detection: the consecutive-failure counter *)

Section BehavioralTier.

Import DetectionSystem.

Implicit Types (this : DetectionSystem.t) (r : Report).

(** One report moves the counter up by one on a failure, down to zero on
    a success. *)
Lemma detectBehavioralAnomalies_counter this d ok now :
  consecutiveFailures (snd (detectBehavioralAnomalies this d ok now))
    = if ok then 0 else consecutiveFailures this + 1.
Proof. unfold detectBehavioralAnomalies. by destruct ok. Qed.

(** The signal is emitted exactly when the counter, once updated, is 3 or
    more. *)
Lemma detectBehavioralAnomalies_signal this d ok now :
  failure_signal_emitted (fst (detectBehavioralAnomalies this d ok now))
    = (3 <=? consecutiveFailures (snd (detectBehavioralAnomalies this d ok now))).
Proof.
  unfold detectBehavioralAnomalies, failure_signal_emitted. cbn [fst snd consecutiveFailures].
  destruct (3 <=? _); [reflexivity|].
  destruct (_ <? d); destruct (ok && _); reflexivity.
Qed.

Lemma feed_app this l1 l2 :
  feed this (l1 ++ l2)
    = (fst (feed this l1) ++ fst (feed (snd (feed this l1)) l2),
       snd (feed (snd (feed this l1)) l2)).
Proof.
  revert this. induction l1 as [|r l1 IH]; intros this; cbn [feed app fst snd].
  - by destruct (feed this l2).
  - destruct (detectBehavioralAnomalies _ _ _ _) as [signals this'].
    rewrite IH. destruct (feed this' l1) as [o1 s1]. by cbn.
Qed.

Lemma feed_last this rs r :
  snd (feed this (rs ++ [r]))
    = snd (detectBehavioralAnomalies (snd (feed this rs))
             (duration r) (success r) (at_time r)).
Proof.
  rewrite feed_app. cbn [snd feed].
  destruct (detectBehavioralAnomalies _ _ _ _). reflexivity.
Qed.

Lemma failures_since_last_success_snoc outcomes ok :
  failures_since_last_success (outcomes ++ [ok])
    = if ok then O else S (failures_since_last_success outcomes).
Proof.
  unfold failures_since_last_success. rewrite rev_unit. by destruct ok.
Qed.

(** The counter of a detector that started fresh is the number of failures
    since the last success. *)
Lemma feed_counter ss rs :
  consecutiveFailures (snd (feed (DetectionSystem.new ss) rs))
    = Z.of_nat (failures_since_last_success (map success rs)).
Proof.
  induction rs as [|r rs IH] using rev_ind; [reflexivity|].
  rewrite feed_last, detectBehavioralAnomalies_counter, IH.
  rewrite map_app. cbn [map]. rewrite failures_since_last_success_snoc.
  destruct (success r); lia.
Qed.

(** C8: after any sequence [earlier] of reports fed to a fresh detector, the
    report [r] leaves the counter at the number of failures since the last
    success, [r] included; the consecutive-failure signal is among the
    signals of [r] exactly when that number is at least 3; a successful
    report leaves the counter at zero; and of five failed reports in a row
    the first two give no such signal and the 3rd, 4th and 5th give it. *)
Theorem consecutive_failure_signal_spec (ss : SessionState)
    (earlier : list Report) (r : Report) :
  let before := snd (feed (DetectionSystem.new ss) earlier) in
  let result :=
    detectBehavioralAnomalies before (duration r) (success r) (at_time r) in
  let k := failures_since_last_success (map success (earlier ++ [r])) in
  consecutiveFailures (snd result) = Z.of_nat k
  /\ (failure_signal_emitted (fst result) = true <-> (3 <= k)%nat)
  /\ (success r = true -> consecutiveFailures (snd result) = 0)
  /\ (forall d1 d2 d3 d4 d5 t1 t2 t3 t4 t5,
        map failure_signal_emitted
            (fst (feed (DetectionSystem.new ss)
                       [ {| duration := d1; success := false; at_time := t1 |};
                         {| duration := d2; success := false; at_time := t2 |};
                         {| duration := d3; success := false; at_time := t3 |};
                         {| duration := d4; success := false; at_time := t4 |};
                         {| duration := d5; success := false; at_time := t5 |} ]))
        = [false; false; true; true; true]).
Proof.
  intros before result k.
  assert (Hk : consecutiveFailures (snd result) = Z.of_nat k).
  { subst result before k. rewrite <- feed_last. apply feed_counter. }
  split; [exact Hk|]. split; [|split].
  - subst result. rewrite detectBehavioralAnomalies_signal.
    fold before. rewrite Hk. rewrite Z.leb_le. lia.
  - intros Hok. subst result.
    rewrite detectBehavioralAnomalies_counter, Hok. reflexivity.
  - intros. cbn [feed duration success at_time].
    repeat match goal with
           | |- context [detectBehavioralAnomalies ?t ?d ?o ?n] =>
               let H := fresh in
               pose proof (detectBehavioralAnomalies_signal t d o n) as H;
               pose proof (detectBehavioralAnomalies_counter t d o n);
               destruct (detectBehavioralAnomalies t d o n) as [? []];
               cbn [fst snd consecutiveFailures] in *; subst
           end.
    cbn [fst map]. repeat f_equal; assumption.
Qed.

Lemma consecutive_failure_signal_spec_witness :
  consecutiveFailures
    (snd (detectBehavioralAnomalies
            (snd (feed (DetectionSystem.new default_session)
                       [ {| duration := 900; success := false; at_time := 1 |};
                         {| duration := 900; success := false; at_time := 2 |} ]))
            900 true 3))
  = 0.
Proof.
  apply (consecutive_failure_signal_spec default_session
           [ {| duration := 900; success := false; at_time := 1 |};
             {| duration := 900; success := false; at_time := 2 |} ]
           {| duration := 900; success := true; at_time := 3 |}).
  reflexivity.
Defined.

End BehavioralTier.

(** ** Detection: the window of action times *)

Section ActionTimeWindow.

Import DetectionSystem.

Implicit Types (this : DetectionSystem.t) (ts : list Z).

Lemma most_recent_length {A} n (l : list A) :
  length (most_recent n l) = Nat.min n (length l).
Proof. unfold most_recent. rewrite length_drop. lia. Qed.

Lemma tail_drop {A} (l : list A) : tail l = drop 1 l.
Proof. by destruct l. Qed.

(** Adding one entry to a history moves the window of the 20 most recent
    the way [push] and [shift] do. *)
Lemma most_recent_snoc ts t :
  most_recent 20 (ts ++ [t])
    = if (20 <? length (most_recent 20 ts ++ [t]))%nat
      then tail (most_recent 20 ts ++ [t])
      else most_recent 20 ts ++ [t].
Proof.
  rewrite length_app, most_recent_length. cbn [length].
  unfold most_recent. rewrite length_app. cbn [length].
  destruct (Nat.ltb_spec 20 (Nat.min 20 (length ts) + 1)) as [Hfull|Hroom].
  - assert (Hlen : (20 <= length ts)%nat) by lia.
    rewrite <- (drop_app_le ts [t] (length ts - 20)) by lia.
    rewrite tail_drop, drop_drop. f_equal. lia.
  - replace (length ts + 1 - 20)%nat with O by lia.
    replace (length ts - 20)%nat with O by lia. reflexivity.
Qed.

Lemma recordActionTime_times this t :
  lastActionTimes (recordActionTime this t)
    = if (20 <? length (lastActionTimes this ++ [t]))%nat
      then tail (lastActionTimes this ++ [t])
      else lastActionTimes this ++ [t].
Proof. reflexivity. Qed.

(** The buffer of a detector that started fresh holds the 20 most recent
    timestamps. *)
Lemma record_all_times ss ts :
  lastActionTimes (record_all (DetectionSystem.new ss) ts) = most_recent 20 ts.
Proof.
  induction ts as [|t ts IH] using rev_ind; [reflexivity|].
  unfold record_all in *. rewrite fold_left_app. cbn [fold_left].
  rewrite recordActionTime_times, IH. symmetry. apply most_recent_snoc.
Qed.

(** When the buffer is full the oldest entry goes and the new one is last. *)
Lemma recordActionTime_full this t :
  length (lastActionTimes this) = 20%nat ->
  lastActionTimes (recordActionTime this t) = tail (lastActionTimes this) ++ [t].
Proof.
  intros Hlen. rewrite recordActionTime_times, length_app, Hlen. cbn [length].
  destruct (lastActionTimes this); [discriminate Hlen|reflexivity].
Qed.


(** The timing signal is the only one of [detectPatternRisks] at DEFCON3:
    it is there exactly when the statistic was computed and came out too
    regular. *)
Lemma detectPatternRisks_timing_signal this now :
  Exists (fun s => severity s = DEFCON3) (detectPatternRisks this now)
  <-> exists stats, timingStats this = Some stats /\ tooConsistent stats = true.
Proof.
  unfold detectPatternRisks. rewrite !Exists_app. split.
  - intros [H|[H|H]].
    + destruct (Qle_bool _ _); inversion H as [? ? Hs|? ? Hs];
        [discriminate Hs|inversion Hs].
    + destruct (Qlt_bool _ _); inversion H as [? ? Hs|? ? Hs];
        [discriminate Hs|inversion Hs].
    + destruct (timingStats this) as [stats|]; [|inversion H].
      destruct (tooConsistent stats) eqn:Htc; [eauto|inversion H].
  - intros (stats & -> & ->). right. right. constructor. reflexivity.
Qed.


(** Five actions exactly 30 seconds apart are flagged; four are not looked
    at; five with uneven gaps are looked at and pass. *)
Example regular_timing_flagged :
  map message
      (detectPatternRisks
         (record_all (DetectionSystem.new default_session)
                     [1000; 31000; 61000; 91000; 121000]) 121000)
  = ["Action timing too consistent (bot-like pattern)"].
Proof. vm_compute. reflexivity. Qed.

Example four_timestamps_not_examined :
  timingStats (record_all (DetectionSystem.new default_session)
                          [1000; 31000; 61000; 91000]) = None.
Proof. reflexivity. Qed.

Example uneven_timing_passes :
  detectPatternRisks
    (record_all (DetectionSystem.new default_session)
                [1000; 21000; 81000; 91000; 171000]) 171000
  = [].
Proof. vm_compute. reflexivity. Qed.

End ActionTimeWindow.

(** ** Timing: the floor of the action delay *)

Section ActionDelay.

Import HumanizationEngine.

Lemma Qlt_bool_spec (a b : Q) : Qlt_bool a b = true <-> (a < b)%Q.
Proof.
  unfold Qlt_bool. rewrite negb_true_iff.
  destruct (Qle_bool b a) eqn:Hle.
  - apply Qle_bool_iff in Hle. split; [discriminate|]. intros Hlt.
    exfalso. apply (Qlt_not_le _ _ Hlt), Hle.
  - split; [intros _|reflexivity]. apply Qnot_le_lt. intros Hba.
    apply Qle_bool_iff in Hba. congruence.
Qed.

Lemma Qle_bool_false (a b : Q) : (b < a)%Q -> Qle_bool a b = false.
Proof.
  intros Hlt. destruct (Qle_bool a b) eqn:Hle; [|reflexivity].
  apply Qle_bool_iff in Hle. exfalso. apply (Qlt_not_le _ _ Hlt), Hle.
Qed.

Lemma Qlt_bool_false (a b : Q) : (b <= a)%Q -> Qlt_bool a b = false.
Proof.
  intros Hle. unfold Qlt_bool. apply Qle_bool_iff in Hle. by rewrite Hle.
Qed.

(** A range above 1 always gets a byte count: the draw does not throw. *)
Lemma bytesNeeded_large (range : Q) :
  (1 < range)%Q -> exists n, bytesNeeded range = Some n.
Proof.
  intros H1. unfold bytesNeeded.
  rewrite Qlt_bool_false by lra.
  rewrite Qle_bool_false by lra.
  rewrite Qle_bool_false by lra.
  eauto.
Qed.

Lemma to_int32_small (z : Z) : - 2 ^ 31 <= z < 2 ^ 31 -> to_int32 z = z.
Proof. intros Hz. unfold to_int32. rewrite Z.mod_small; lia. Qed.

Lemma byte_range (b : Byte.byte) : 0 <= Z.of_N (Byte.to_N b) <= 255.
Proof. pose proof (Byte.to_N_bounded b). lia. Qed.

(** Two bytes give a value from 0 to 65535. *)
Lemma randomValue_of_two_bytes src pos :
  0 <= randomValue_of (getRandomValues src pos 2) < 65536.
Proof.
  cbn [getRandomValues]. unfold randomValue_of. cbn [fold_left].
  pose proof (byte_range (src pos)) as H0.
  pose proof (byte_range (src (S pos))) as H1.
  set (b0 := Z.of_N (Byte.to_N (src pos))) in *.
  set (b1 := Z.of_N (Byte.to_N (src (S pos)))) in *.
  rewrite (to_int32_small 0) by lia.
  rewrite Z.shiftl_0_l, (to_int32_small 0) by lia.
  rewrite (to_int32_small (0 + b0)) by lia.
  rewrite Z.shiftl_mul_pow2 by lia.
  rewrite to_int32_small by lia. lia.
Qed.

(** The remainder of a non-negative number by a positive one is not
    negative. *)
Lemma js_rem_nonneg (a b : Q) : (0 <= a)%Q -> (0 < b)%Q -> (0 <= js_rem a b)%Q.
Proof.
  intros Ha Hb. unfold js_rem, Qtrunc.
  assert (Hq : (0 <= a / b)%Q).
  { apply Qle_shift_div_l; [exact Hb|]. lra. }
  apply Qle_bool_iff in Hq as Hq'. rewrite Hq'.
  pose proof (Qfloor_le (a / b)) as Hfl.
  assert (Hmul : (b * inject_Z (Qfloor (a / b)) <= b * (a / b))%Q).
  { apply Qmult_le_l; assumption. }
  rewrite Qmult_div_r in Hmul by lra. lra.
Qed.

(** A draw over a range that gets two bytes returns a number that is at
    least the lower end of the range. *)
Lemma cryptoRandomRange_two_bytes src pos (min max : Q) :
  bytesNeeded (max - min) = Some 2%nat -> (min < max)%Q ->
  exists v,
    cryptoRandomRange src pos min max = Some (v, (pos + 2)%nat)
    /\ (min <= v)%Q.
Proof.
  intros Hn Hlt. unfold cryptoRandomRange. rewrite Hn. cbn [mbind option_bind].
  eexists. split; [reflexivity|].
  pose proof (randomValue_of_two_bytes src pos) as [Hrv _].
  assert (Hr : (0 <= js_rem (inject_Z (randomValue_of (getRandomValues src pos 2)))
                            (max - min))%Q).
  { apply js_rem_nonneg; [|lra].
    change 0%Q with (inject_Z 0). rewrite <- Zle_Qle. exact Hrv. }
  lra.
Qed.

Lemma cryptoRandomRange_large src pos (min max : Q) :
  (1 < max - min)%Q ->
  exists v pos', cryptoRandomRange src pos min max = Some (v, pos').
Proof.
  intros H1. unfold cryptoRandomRange.
  destruct (bytesNeeded_large _ H1) as [n ->]. cbn [mbind option_bind]. eauto.
Qed.

(** C2: for every speed tier and session state, every stream of random
    bytes and position in it, and every hour, [calculateActionDelay]
    returns a value, and that value is at least 15,000 ms. *)
Theorem calculateActionDelay_floor (st : SessionState) (src : RandomSource)
    (pos : nat) (hour : Z) :
  exists delay pos',
    calculateActionDelay st src pos hour = Some (delay, pos')
    /\ (inject_Z 15000 <= delay)%Q.
Proof.
  unfold calculateActionDelay.
  assert (Hbase : exists min max,
             baseDelay (getTimingConfig (speedMode st)) = (min, max)
             /\ bytesNeeded (inject_Z max - inject_Z min) = Some 2%nat
             /\ 20000 <= min < max).
  { destruct (speedMode st); cbn; do 2 eexists;
      (split; [reflexivity|split; [reflexivity|lia]]). }
  destruct Hbase as (min & max & -> & Hn & Hmin).
  destruct (cryptoRandomRange_two_bytes src pos (inject_Z min) (inject_Z max) Hn)
    as (delay0 & -> & Hd0).
  { rewrite <- Zlt_Qlt. lia. }
  assert (H20 : (inject_Z 20000 <= delay0)%Q).
  { apply Qle_trans with (inject_Z min); [|exact Hd0]. rewrite <- Zle_Qle. lia. }
  cbn [mbind option_bind].
  destruct (cryptoRandomRange_large src (pos + 2)
              (- (delay0 * (3 # 10)))%Q (delay0 * (3 # 10))%Q)
    as (jitter & pos2 & ->).
  { assert (H : (inject_Z 20000 == 20000)%Q) by reflexivity. lra. }
  cbn [mbind option_bind].
  destruct (cryptoRandomRange_two_bytes src pos2 (inject_Z (-2000)) (inject_Z 2000))
    as (entropy & -> & _); [reflexivity|reflexivity|].
  cbn [mbind option_bind].
  do 2 eexists. split; [reflexivity|]. apply Q.le_max_r.
Qed.

End ActionDelay.

(* ===================================================================== *)
(** * Part III: further properties of the code *)
(* ===================================================================== *)

(** ** Warm-up: the decision and the configurations *)

Section WarmupDecision.

Import WarmupProtocol.

Implicit Types (this : WarmupProtocol.t) (kind : ActionKind) (speed : SpeedMode).

Lemma includes_In (l : list SpeedMode) speed :
  includes l speed = true <-> In speed l.
Proof.
  unfold includes. rewrite existsb_exists. split.
  - intros (x & Hin & Hx). apply bool_decide_eq_true in Hx. by subst.
  - intros Hin. exists speed. split; [exact Hin|]. by apply bool_decide_eq_true.
Qed.

Lemma is_comment_true kind : is_comment kind = true <-> kind = comment.
Proof. destruct kind; cbn; split; congruence. Qed.

(** Closes the case of a rule that denies: the result says so, and one of
    the conditions of an allowed request fails. *)
Ltac deny_request :=
  cbn [negb allowed reason];
  split; (split; [discriminate|]);
  [ intros (? & [?|[? ?]] & ? & ?); first [lia | congruence | discriminate]
  | discriminate ].

(** The tests of [canPerformAction], one by one. *)
Lemma canPerformAction_allowed_cases this kind (a c d : Z) speed :
  (allowed (canPerformAction this kind a c d speed) = true <->
     a < maxActionsPerDay (getWarmupConfig this)
     /\ (kind <> comment
         \/ (c < maxCommentsPerDay (getWarmupConfig this)
             /\ maxCommentsPerDay (getWarmupConfig this) <> 0))
     /\ d <= restrictedToConnections (getWarmupConfig this)
     /\ In speed (allowedSpeed (getWarmupConfig this)))
  /\ (allowed (canPerformAction this kind a c d speed) = true <->
      reason (canPerformAction this kind a c d speed) = None).
Proof.
  unfold canPerformAction.
  set (cfg := getWarmupConfig this).
  rewrite <- includes_In.
  destruct (Z.leb_spec (maxActionsPerDay cfg) a) as [Ha|Ha]; [deny_request|].
  destruct (is_comment kind) eqn:Hk; cbn [andb].
  - apply is_comment_true in Hk as ->.
    destruct (Z.leb_spec (maxCommentsPerDay cfg) c) as [Hc|Hc]; [deny_request|].
    destruct (Z.eqb_spec (maxCommentsPerDay cfg) 0) as [H0|H0]; [deny_request|].
    destruct (Z.ltb_spec (restrictedToConnections cfg) d) as [Hd|Hd]; [deny_request|].
    destruct (includes (allowedSpeed cfg) speed); [|deny_request].
    cbn [negb allowed reason]. repeat split; lia.
  - assert (Hne : kind <> comment) by (intros ->; discriminate Hk).
    destruct (Z.ltb_spec (restrictedToConnections cfg) d) as [Hd|Hd]; [deny_request|].
    destruct (includes (allowedSpeed cfg) speed); [|deny_request].
    cbn [negb allowed reason]. repeat split; try lia; by left.
Qed.

(** X1: a request is allowed exactly when the day's actions are below the
    cap, a comment has the day's comments below a comment cap that is not
    zero, the connection degree is within the permitted scope and the speed
    tier is in the allowed list; and exactly then no reason is given. *)
Theorem canPerformAction_allowed_iff this kind (a c d : Z) speed :
  (allowed (canPerformAction this kind a c d speed) = true <->
     a < maxActionsPerDay (getWarmupConfig this)
     /\ (kind <> comment
         \/ (c < maxCommentsPerDay (getWarmupConfig this)
             /\ maxCommentsPerDay (getWarmupConfig this) <> 0))
     /\ d <= restrictedToConnections (getWarmupConfig this)
     /\ In speed (allowedSpeed (getWarmupConfig this)))
  /\ (allowed (canPerformAction this kind a c d speed) = true <->
      reason (canPerformAction this kind a c d speed) = None).
Proof. apply canPerformAction_allowed_cases. Qed.

Lemma getWarmupConfig_in_all_configs this :
  In (getWarmupConfig this) all_configs.
Proof.
  unfold getWarmupConfig.
  repeat match goal with
         | |- context [String.eqb ?a ?b] => destruct (String.eqb a b)
         | |- context [?a <=? ?b] => destruct (a <=? b)
         end; cbn; tauto.
Qed.

Lemma all_configs_bounds :
  Forall (fun cfg =>
            0 <= maxActionsPerDay cfg <= 60
            /\ 0 <= maxCommentsPerDay cfg <= 15
            /\ 1 <= restrictedToConnections cfg <= 3
            /\ 3 <= minActionSpread cfg <= 24
            /\ maxCommentsPerDay cfg <= maxActionsPerDay cfg) all_configs.
Proof. repeat constructor; cbn; lia. Qed.

(** X2: whatever the tier (known or not) and the day, an allowed request has
    fewer than 60 actions behind it that day, a connection degree of at most
    3 and, for a comment, fewer than 15 comments that day: the caps of the
    last warm-up stage stay in force however old the warm-up is. *)
Theorem canPerformAction_never_beyond_caps this kind (a c d : Z) speed :
  allowed (canPerformAction this kind a c d speed) = true ->
  a < 60 /\ d <= 3 /\ (kind <> comment \/ c < 15).
Proof.
  intros Hok. apply canPerformAction_allowed_cases in Hok as (Ha & Hc & Hd & _).
  pose proof (proj1 (List.Forall_forall _ _) all_configs_bounds _
                (getWarmupConfig_in_all_configs this)) as (Ha' & Hc' & Hd' & _).
  repeat split; try lia. destruct Hc as [Hc|[Hc _]]; [by left|right; lia].
Qed.

Lemma canPerformAction_never_beyond_caps_witness :
  59 < 60 /\ 3 <= 3 /\ (like <> comment \/ 0 < 15).
Proof.
  apply (canPerformAction_never_beyond_caps
           (protocol OVER_TWO_YEARS 0 400) like 59 0 3 NORMAL).
  reflexivity.
Defined.

(** X3: for every tier, known or not, a later day never lowers the action
    cap, the comment cap or the connection scope, and never raises the
    required spread of hours. *)
Theorem getWarmupConfig_monotone_in_day (age : AccountAge) (start d1 d2 : Z) :
  d1 <= d2 ->
  maxActionsPerDay (getWarmupConfig (protocol age start d1))
    <= maxActionsPerDay (getWarmupConfig (protocol age start d2))
  /\ maxCommentsPerDay (getWarmupConfig (protocol age start d1))
       <= maxCommentsPerDay (getWarmupConfig (protocol age start d2))
  /\ restrictedToConnections (getWarmupConfig (protocol age start d1))
       <= restrictedToConnections (getWarmupConfig (protocol age start d2))
  /\ minActionSpread (getWarmupConfig (protocol age start d2))
       <= minActionSpread (getWarmupConfig (protocol age start d1)).
Proof.
  intros Hle. unfold getWarmupConfig, protocol. cbn [accountAge currentDay].
  repeat match goal with
         | |- context [String.eqb ?a ?b] => destruct (String.eqb a b)
         end;
    repeat match goal with
           | |- context [?a <=? ?b] => destruct (Z.leb_spec a b)
           end; cbn; lia.
Qed.

Lemma getWarmupConfig_monotone_in_day_witness :
  maxActionsPerDay (getWarmupConfig (protocol THREE_TO_SIX_MONTHS 0 3))
    <= maxActionsPerDay (getWarmupConfig (protocol THREE_TO_SIX_MONTHS 0 16)).
Proof.
  apply (getWarmupConfig_monotone_in_day THREE_TO_SIX_MONTHS 0 3 16). lia.
Defined.

(** Settles whether a speed tier is in a concrete list of allowed tiers
    against a disjunction of tier names. *)
Ltac speed_membership :=
  cbn; split;
  [ let Hin := fresh "Hin" in
    intros Hin;
    repeat (destruct Hin as [Hin|Hin]; try discriminate Hin);
    first [contradiction | by left | by right]
  | let E := fresh "E" in
    intros [E|E];
    first [ discriminate E | congruence
          | repeat (first [left; reflexivity | right]) ] ].

(** X4: ULTRA_SLOW is in the allowed speed tiers only for a 3-6 month
    account on a day up to the 14th, and NORMAL only for the 1-2 year and
    the over-2-year tiers; a request at ULTRA_SLOW from any other tier or
    day is denied whatever the counters. *)
Theorem allowedSpeed_by_tier (age : AccountAge) (start day : Z) :
  (In ULTRA_SLOW (allowedSpeed (getWarmupConfig (protocol age start day)))
     <-> age = THREE_TO_SIX_MONTHS /\ day <= 14)
  /\ (In NORMAL (allowedSpeed (getWarmupConfig (protocol age start day)))
        <-> age = ONE_TO_TWO_YEARS \/ age = OVER_TWO_YEARS)
  /\ (forall kind a c d,
        ~ (age = THREE_TO_SIX_MONTHS /\ day <= 14) ->
        allowed (canPerformAction (protocol age start day) kind a c d ULTRA_SLOW)
          = false).
Proof.
  assert (Hu : In ULTRA_SLOW (allowedSpeed (getWarmupConfig (protocol age start day)))
               <-> age = THREE_TO_SIX_MONTHS /\ day <= 14).
  { unfold getWarmupConfig, protocol. cbn [accountAge currentDay].
    destruct (String.eqb_spec age UNDER_3_MONTHS) as [->|H1];
      [cbn; split; [tauto|intros [? _]; discriminate]|].
    destruct (String.eqb_spec age THREE_TO_SIX_MONTHS) as [->|H2].
    - repeat match goal with
             | |- context [?a <=? ?b] => destruct (Z.leb_spec a b)
             end; cbn; (split; [intros Hin; split; [reflexivity|]|intros [_ Hd]]);
        first [lia | by left
              | repeat (destruct Hin as [Hin|Hin]; try discriminate Hin);
                contradiction ].
    - repeat match goal with
             | |- context [String.eqb ?a ?b] => destruct (String.eqb a b)
             | |- context [?a <=? ?b] => destruct (a <=? b)
             end; cbn; split; try tauto;
        intros Hin; repeat (destruct Hin as [Hin|Hin]; try discriminate Hin);
        contradiction. }
  split; [exact Hu|]. split.
  - unfold getWarmupConfig, protocol. cbn [accountAge currentDay].
    destruct (String.eqb_spec age UNDER_3_MONTHS) as [->|H1];
      [speed_membership|].
    destruct (String.eqb_spec age THREE_TO_SIX_MONTHS) as [->|H2];
      [repeat match goal with
              | |- context [?a <=? ?b] => destruct (a <=? b)
              end; speed_membership|].
    destruct (String.eqb_spec age SIX_TO_TWELVE_MONTHS) as [->|H3];
      [repeat match goal with
              | |- context [?a <=? ?b] => destruct (a <=? b)
              end; speed_membership|].
    destruct (String.eqb_spec age ONE_TO_TWO_YEARS) as [->|H4];
      [speed_membership|].
    destruct (String.eqb_spec age OVER_TWO_YEARS) as [->|H5];
      [speed_membership|].
    speed_membership.
  - intros kind a c d Hnot.
    destruct (allowed _) eqn:Hal; [|reflexivity].
    apply canPerformAction_allowed_cases in Hal as (_ & _ & _ & Hin).
    apply Hu in Hin. contradiction.
Qed.

Lemma allowedSpeed_by_tier_witness :
  allowed (canPerformAction (protocol SIX_TO_TWELVE_MONTHS 0 1) like 0 0 1 ULTRA_SLOW)
    = false.
Proof.
  apply (allowedSpeed_by_tier SIX_TO_TWELVE_MONTHS 0 1).
  intros [Heq _]. discriminate Heq.
Defined.

End WarmupDecision.

(** ** Warm-up: status, profile check and tier parsing *)

Section WarmupStatusAndProfile.

Import WarmupProtocol.

Implicit Types (this : WarmupProtocol.t).

(** The fields of the status, by tier and day. *)
Lemma getWarmupStatus_fields this :
  config (getWarmupStatus this) = getWarmupConfig this
  /\ (canProceed (getWarmupStatus this) = false
        <-> accountAge this = UNDER_3_MONTHS)
  /\ (isInWarmup (getWarmupStatus this) = true
        <-> accountAge this = UNDER_3_MONTHS
            \/ Z_leb_JsNum (currentDay this) (getTotalWarmupDays this) = true)
  /\ (restrictions (getWarmupStatus this) = []
        <-> isInWarmup (getWarmupStatus this) = false)
  /\ (status_message (getWarmupStatus this) = COMPLETE_MESSAGE
        <-> isInWarmup (getWarmupStatus this) = false).
Proof.
  unfold getWarmupStatus.
  destruct (String.eqb_spec (accountAge this) UNDER_3_MONTHS) as [Hu|Hu].
  - cbn. repeat split; try tauto; try discriminate.
  - destruct (Z_leb_JsNum (currentDay this) (getTotalWarmupDays this));
      cbn [negb isInWarmup canProceed restrictions status_message config].
    + repeat split; try tauto; try discriminate; try (by right).
    + repeat split; try tauto; try discriminate.
Qed.

(** X5: the status carries the configuration of [getWarmupConfig]; it
    refuses to proceed exactly for the under-3-months tier; it reports
    warm-up exactly for that tier or while the day is within the tier's
    length; it lists restrictions exactly while it reports warm-up, and
    gives the warm-up-complete message exactly when it does not. *)
Theorem getWarmupStatus_spec this :
  config (getWarmupStatus this) = getWarmupConfig this
  /\ (canProceed (getWarmupStatus this) = false
        <-> accountAge this = UNDER_3_MONTHS)
  /\ (isInWarmup (getWarmupStatus this) = true
        <-> accountAge this = UNDER_3_MONTHS
            \/ Z_leb_JsNum (currentDay this) (getTotalWarmupDays this) = true)
  /\ (restrictions (getWarmupStatus this) = []
        <-> isInWarmup (getWarmupStatus this) = false)
  /\ (status_message (getWarmupStatus this) = COMPLETE_MESSAGE
        <-> isInWarmup (getWarmupStatus this) = false).
Proof. apply getWarmupStatus_fields. Qed.

(** X6: once the status reports the warm-up as complete, with no
    restriction listed, [canPerformAction] still answers from the
    configuration the status carries: a request with the day's actions at
    that cap, which is at most 60, is denied. *)
Theorem warmup_complete_keeps_caps this :
  isInWarmup (getWarmupStatus this) = false ->
  restrictions (getWarmupStatus this) = []
  /\ canProceed (getWarmupStatus this) = true
  /\ maxActionsPerDay (config (getWarmupStatus this)) <= 60
  /\ forall kind a c d speed,
       maxActionsPerDay (config (getWarmupStatus this)) <= a ->
       allowed (canPerformAction this kind a c d speed) = false.
Proof.
  intros Hdone.
  destruct (getWarmupStatus_fields this) as (Hcfg & Hproc & Hin & Hres & _).
  rewrite Hcfg. split; [by apply Hres|]. split.
  - destruct (canProceed _); [reflexivity|].
    assert (isInWarmup (getWarmupStatus this) = true)
      by (apply Hin; left; by apply Hproc). congruence.
  - pose proof (proj1 (List.Forall_forall _ _) all_configs_bounds _
                  (getWarmupConfig_in_all_configs this)) as (Ha & _).
    split; [lia|]. intros kind a c d speed Hcap.
    destruct (allowed _) eqn:Hal; [|reflexivity].
    apply canPerformAction_allowed_cases in Hal as (Hlt & _). lia.
Qed.

Lemma warmup_complete_keeps_caps_witness :
  allowed (canPerformAction (protocol OVER_TWO_YEARS 0 400) like 60 0 1 SLOW) = false.
Proof.
  apply (warmup_complete_keeps_caps (protocol OVER_TWO_YEARS 0 400));
    [reflexivity|cbn; lia].
Defined.

(** X7: a profile is complete exactly when it has a photo, at least 100
    connections and at least 3 work experiences, which is exactly when no
    warm-up days are added; the days added are 7 for a missing photo, 14
    for too few connections and 7 for too few work experiences, 28 at
    most, with one missing element listed for each. *)
Theorem checkProfileCompleteness_spec (photo : bool) (conn work : Z) :
  (isComplete (checkProfileCompleteness photo conn work) = true
     <-> photo = true /\ 100 <= conn /\ 3 <= work)
  /\ (isComplete (checkProfileCompleteness photo conn work) = true
        <-> additionalWarmupDays (checkProfileCompleteness photo conn work) = 0)
  /\ additionalWarmupDays (checkProfileCompleteness photo conn work)
       = (if photo then 0 else 7)
         + (if conn <? 100 then 14 else 0)
         + (if work <? 3 then 7 else 0)
  /\ 0 <= additionalWarmupDays (checkProfileCompleteness photo conn work) <= 28
  /\ Z.of_nat (length (missingElements (checkProfileCompleteness photo conn work)))
       = (if photo then 0 else 1)
         + (if conn <? 100 then 1 else 0)
         + (if work <? 3 then 1 else 0).
Proof.
  unfold checkProfileCompleteness.
  destruct photo; destruct (Z.ltb_spec conn 100); destruct (Z.ltb_spec work 3);
    cbn; repeat split; intros; try discriminate; try lia; try tauto;
    try (destruct_and?; lia).
Qed.

Lemma lower_ascii_idemp (c : Ascii.ascii) :
  lower_ascii (lower_ascii c) = lower_ascii c.
Proof. destruct c as [[] [] [] [] [] [] [] []]; reflexivity. Qed.

Lemma toLowerCase_idemp (s : string) : toLowerCase (toLowerCase s) = toLowerCase s.
Proof.
  induction s as [|c s IH]; [reflexivity|].
  cbn [toLowerCase]. by rewrite lower_ascii_idemp, IH.
Qed.

(** X8: whatever the input, [parseAccountAge] returns one of the five known
    tiers, so a protocol built on its result never gets the configuration
    of the default branch; and the answer does not depend on the case of
    the ASCII letters of the input. *)
Theorem parseAccountAge_known (input : string) :
  known_tier (parseAccountAge input)
  /\ (forall start day,
        getWarmupConfig (protocol (parseAccountAge input) start day)
          <> fallback_config)
  /\ parseAccountAge (toLowerCase input) = parseAccountAge input.
Proof.
  split; [|split].
  - unfold parseAccountAge, known_tier, known_tiers.
    repeat match goal with
           | |- context [if ?b then _ else _] => destruct b
           end; cbn; tauto.
  - intros start day. unfold parseAccountAge.
    repeat match goal with
           | |- context [if ?b || ?c then _ else _] => destruct (b || c)
           end;
      unfold getWarmupConfig, protocol; cbn [accountAge currentDay];
      cbn [String.eqb Ascii.eqb Bool.eqb
           UNDER_3_MONTHS THREE_TO_SIX_MONTHS SIX_TO_TWELVE_MONTHS
           ONE_TO_TWO_YEARS OVER_TWO_YEARS];
      repeat match goal with
             | |- context [?a <=? ?b] => destruct (a <=? b)
             end; discriminate.
  - unfold parseAccountAge. by rewrite toLowerCase_idemp.
Qed.

End WarmupStatusAndProfile.

(** ** Cooldown: expiry and repeated warnings *)

Section CooldownLifecycle.

Import CooldownManager.

Implicit Types (store : gmap string JsVal) (reason : string).

(** What [isInCooldown] leaves of the store. *)
Lemma isInCooldown_keeps store (later : Z) status store' :
  isInCooldown later store = Some (status, store') ->
  (forall key, key <> "cooldownEnd" -> key <> "cooldownReason" ->
               store' !! key = store !! key)
  /\ getWarningCount store' = getWarningCount store
  /\ (inCooldown status = true -> store' = store)
  /\ (inCooldown status = false -> store' !! "cooldownEnd" = None
                                   \/ store' = store).
Proof.
  unfold isInCooldown.
  destruct (truthy (store !! "cooldownEnd")); cbn [negb].
  - destruct (store !! "cooldownEnd") as [v|]; [|discriminate].
    cbn [mbind option_bind]. destruct (ToNumber v) as [e|]; [|discriminate].
    cbn [mbind option_bind]. destruct (later <? e).
    + intros [= <- <-]. repeat split; try done; by right.
    + intros [= <- <-].
      assert (Hframe : forall key, key <> "cooldownEnd" -> key <> "cooldownReason" ->
                delete "cooldownEnd" (delete "cooldownReason" store) !! key
                  = store !! key).
      { intros key H1 H2. by rewrite !lookup_delete_ne. }
      split; [exact Hframe|]. split.
      * unfold getWarningCount. by rewrite Hframe.
      * split; [discriminate|]. intros _. left. apply lookup_delete_eq.
  - intros [= <- <-]. repeat split; try done; by right.
Qed.

(** X9: [isInCooldown] writes nothing but the removal of the two cooldown
    keys: every other key of the store, the warning count among them, is
    as before, and while the cooldown is running the store is untouched. *)
Theorem isInCooldown_frame store (later : Z) status store' :
  isInCooldown later store = Some (status, store') ->
  (forall key, key <> "cooldownEnd" -> key <> "cooldownReason" ->
               store' !! key = store !! key)
  /\ getWarningCount store' = getWarningCount store
  /\ (inCooldown status = true -> store' = store)
  /\ (inCooldown status = false -> store' !! "cooldownEnd" = None
                                   \/ store' = store).
Proof. apply isInCooldown_keeps. Qed.

Lemma isInCooldown_frame_witness :
  getWarningCount
    (delete "cooldownEnd"
       (delete "cooldownReason" (enable48HourCooldown 1000 "403" ∅)))
  = getWarningCount (enable48HourCooldown 1000 "403" ∅).
Proof.
  apply (isInCooldown_frame (enable48HourCooldown 1000 "403" ∅) 172801000
           not_in_cooldown).
  reflexivity.
Defined.

(** X10: after [enable48HourCooldown] at a clock value [now >= 0] the
    account is in cooldown at [later] exactly when [later] is before
    [now + 48h]; then the remaining time is [now + 48h - later] and the
    store is untouched.  From [now + 48h] on the answer is "not in cooldown"
    and the two cooldown keys are removed, while automation stays switched
    off and the warning count stays raised; asking again changes nothing. *)
Theorem isInCooldown_after_enable_spec store (now later later' n : Z) reason :
  0 <= now ->
  getWarningCount store = JNumber n ->
  exists status store',
    isInCooldown later (enable48HourCooldown now reason store) = Some (status, store')
    /\ inCooldown status = (later <? now + 172800000)
    /\ remainingTime status
         = (if later <? now + 172800000
            then Some (now + 172800000 - later) else None)
    /\ (later < now + 172800000 -> store' = enable48HourCooldown now reason store)
    /\ (now + 172800000 <= later ->
          store' !! "cooldownEnd" = None
          /\ store' !! "cooldownReason" = None
          /\ isInCooldown later' store' = Some (not_in_cooldown, store'))
    /\ store' !! "automationEnabled" = Some (JBoolean false)
    /\ getWarningCount store' = JNumber (n + 1).
Proof.
  intros Hnow Hn.
  destruct (isInCooldown later (enable48HourCooldown now reason store))
    as [[status store']|] eqn:Hres.
  2:{ exfalso. revert Hres. unfold isInCooldown.
      rewrite enable_lookup_cooldownEnd. cbn.
      destruct (Z.eqb_spec (now + 172800000) 0); [lia|]. cbn.
      by destruct (later <? now + 172800000). }
  exists status, store'.
  destruct (isInCooldown_keeps _ _ _ _ Hres) as (Hframe & Hcount & _).
  split; [reflexivity|].
  revert Hres. unfold isInCooldown.
  rewrite enable_lookup_cooldownEnd. cbn.
  destruct (Z.eqb_spec (now + 172800000) 0); [lia|]. cbn.
  destruct (Z.ltb_spec later (now + 172800000)) as [Hlt|Hge];
    intros [= <- <-]; cbn [inCooldown remainingTime].
  - repeat split; try done; try lia.
    + apply enable_lookup_automationEnabled.
    + by apply getWarningCount_enable.
  - split; [reflexivity|]. split; [reflexivity|]. split; [lia|].
    assert (Hend : delete "cooldownEnd"
                     (delete "cooldownReason" (enable48HourCooldown now reason store))
                   !! "cooldownEnd" = None) by apply lookup_delete_eq.
    split.
    + intros _. split; [exact Hend|]. split.
      * rewrite lookup_delete_ne by done. apply lookup_delete_eq.
      * unfold isInCooldown. by rewrite Hend.
    + split.
      * rewrite !lookup_delete_ne by done. apply enable_lookup_automationEnabled.
      * rewrite Hcount. by apply getWarningCount_enable.
Qed.

Lemma isInCooldown_after_enable_spec_witness :
  exists status store',
    isInCooldown 172801000 (enable48HourCooldown 1000 "403" ∅) = Some (status, store')
    /\ inCooldown status = false
    /\ store' !! "automationEnabled" = Some (JBoolean false)
    /\ getWarningCount store' = JNumber 1.
Proof.
  destruct (isInCooldown_after_enable_spec ∅ 1000 172801000 0 0 "403")
    as (status & store' & H1 & H2 & _ & _ & _ & H3 & H4);
    [lia|reflexivity|].
  exists status, store'. repeat split; assumption.
Defined.

Lemma enable_all_snoc calls now reason store :
  enable_all (calls ++ [(now, reason)]) store
    = enable48HourCooldown now reason (enable_all calls store).
Proof. unfold enable_all. by rewrite fold_left_app. Qed.

Lemma getWarningCount_enable_all store calls n :
  getWarningCount store = JNumber n ->
  getWarningCount (enable_all calls store) = JNumber (n + Z.of_nat (length calls)).
Proof.
  intros Hn. induction calls as [|[now reason] calls IH] using rev_ind.
  - cbn. by rewrite Z.add_0_r.
  - rewrite enable_all_snoc, length_app. cbn [length].
    replace (n + Z.of_nat (length calls + 1)) with (n + Z.of_nat (length calls) + 1)
      by lia.
    by apply getWarningCount_enable.
Qed.

(** X11: from a store without warnings, any sequence of calls of
    [enable48HourCooldown] leaves a warning count equal to the number of
    calls; the restrictions are permanent exactly from the second call on;
    and the restriction multiplier is 1 before any call, 3/4 after one and
    1/2 after two or more. *)
Theorem warnings_accumulate store (calls : list (Z * string)) :
  getWarningCount store = JNumber 0 ->
  getWarningCount (enable_all calls store) = JNumber (Z.of_nat (length calls))
  /\ hasPermanentRestrictions (enable_all calls store)
       = Some (2 <=? length calls)%nat
  /\ getRestrictionMultiplier (enable_all calls store)
       = match length calls with
         | O => 1%Q
         | S O => (75 # 100)%Q
         | _ => (5 # 10)%Q
         end.
Proof.
  intros H0. pose proof (getWarningCount_enable_all store calls 0 H0) as Hc.
  rewrite Z.add_0_l in Hc. split; [exact Hc|].
  unfold hasPermanentRestrictions, getRestrictionMultiplier. rewrite Hc.
  destruct (length calls) as [|[|k]]; cbn [ToNumber mbind option_bind].
  - split; reflexivity.
  - split; reflexivity.
  - split.
    + replace (2 <=? Z.of_nat (S (S k))) with true
        by (symmetry; apply Z.leb_le; lia).
      reflexivity.
    + rewrite !bool_decide_eq_false_2; [reflexivity| |]; intros [=]; lia.
Qed.

Lemma warnings_accumulate_witness :
  getRestrictionMultiplier (enable_all [(1000, "403"); (2000, "429"); (3000, "429")] ∅)
    = (5 # 10)%Q.
Proof.
  apply (warnings_accumulate ∅ [(1000, "403"); (2000, "429"); (3000, "429")]).
  reflexivity.
Defined.

End CooldownLifecycle.

(** ** Detection: network codes and the full scan *)

Section FullScan.

Import DetectionSystem.

Implicit Types (this : DetectionSystem.t) (page : Page).

(** X12: a status code gives at most one signal: a DEFCON5 warning for 429
    and for 403, a DEFCON3 error for 500 and above, and nothing for any
    other code. *)
Theorem detectNetworkAnomalies_spec (statusCode : Z) (endpoint : string) (now : Z) :
  (length (detectNetworkAnomalies statusCode endpoint now) <= 1)%nat
  /\ (detectNetworkAnomalies statusCode endpoint now = []
        <-> statusCode <> 429 /\ statusCode <> 403 /\ statusCode < 500)
  /\ Forall (fun s =>
               if 500 <=? statusCode
               then type s = error /\ severity s = DEFCON3
               else type s = warning /\ severity s = DEFCON5)
            (detectNetworkAnomalies statusCode endpoint now).
Proof.
  unfold detectNetworkAnomalies.
  destruct (Z.eqb_spec statusCode 429) as [->|H429];
    [cbn; repeat split; try lia; try discriminate; try (intros (? & _); lia);
     repeat constructor|].
  destruct (Z.eqb_spec statusCode 403) as [->|H403];
    [cbn; repeat split; try lia; try discriminate; try (intros (_ & ? & _); lia);
     repeat constructor|].
  destruct (Z.leb_spec 500 statusCode) as [H500|H500];
    cbn; repeat split; try lia; try discriminate;
    try (intros (_ & _ & ?); lia); repeat constructor.
Qed.

Lemma fold_level_spec (l : list DetectionSignal) (init : AlertLevel) :
  getAlertLevelPriority init <= getAlertLevelPriority (fold_left level_step l init)
  /\ Forall (fun s => getAlertLevelPriority (severity s)
                      <= getAlertLevelPriority (fold_left level_step l init)) l
  /\ (fold_left level_step l init = init
      \/ Exists (fun s => severity s = fold_left level_step l init) l).
Proof.
  revert init. induction l as [|s l IH]; intros init; cbn [fold_left].
  - split; [lia|]. split; [constructor|by left].
  - destruct (IH (level_step init s)) as (Hge & Hall & Hex).
    assert (Hstep : getAlertLevelPriority init
                      <= getAlertLevelPriority (level_step init s)
                    /\ getAlertLevelPriority (severity s)
                         <= getAlertLevelPriority (level_step init s)
                    /\ (level_step init s = init \/ level_step init s = severity s)).
    { unfold level_step.
      destruct (Z.ltb_spec (getAlertLevelPriority init)
                           (getAlertLevelPriority (severity s)));
        repeat split; try lia; tauto. }
    destruct Hstep as (H1 & H2 & H3).
    split; [lia|]. split; [constructor; [lia|exact Hall]|].
    destruct Hex as [Heq|Hex]; [|right; by constructor 2].
    destruct H3 as [H3|H3]; [left; congruence|].
    right. constructor 1. congruence.
Qed.

Lemma getAlertLevelPriority_inj (a b : AlertLevel) :
  getAlertLevelPriority a = getAlertLevelPriority b -> a = b.
Proof. destruct a, b; cbn; intros H; try reflexivity; discriminate H. Qed.

Lemma behavioural_severities this d ok now :
  Forall (fun s => severity s = DEFCON3 \/ severity s = DEFCON4)
         (detectBehavioralAnomalies this d ok now).1.
Proof.
  unfold detectBehavioralAnomalies. cbn [fst].
  repeat apply Forall_app_2;
    match goal with
    | |- Forall _ (if ?b then _ else _) => destruct b
    end; repeat constructor; cbn; tauto.
Qed.

Lemma pattern_severities this now :
  Forall (fun s => severity s = DEFCON2 \/ severity s = DEFCON3)
         (detectPatternRisks this now).
Proof.
  unfold detectPatternRisks.
  apply Forall_app_2; [destruct (Qle_bool _ _); repeat constructor; cbn; tauto|].
  apply Forall_app_2; [destruct (Qlt_bool _ _); repeat constructor; cbn; tauto|].
  destruct (timingStats this) as [stats|]; [|constructor].
  destruct (tooConsistent stats); repeat constructor; cbn; tauto.
Qed.

Lemma appearance_severities page now :
  Forall (fun s => severity s = DEFCON4 \/ severity s = DEFCON5)
         (detectDOMWarnings page now).
Proof.
  assert (Hok : forall l, Forall appearance_severity_ok l ->
                 Forall (fun s => severity s = DEFCON4 \/ severity s = DEFCON5) l).
  { intros l Hl. eapply Forall_impl; [exact Hl|].
    intros s [_ Hs]. destruct (String.eqb _ _); tauto. }
  unfold detectDOMWarnings.
  apply Forall_app_2; [apply Hok, phrase_signals_ok|].
  apply Forall_app_2; [destruct (detectCaptcha page); repeat constructor; cbn; tauto|].
  apply Forall_app_2;
    [destruct (detectDisabledActions page); repeat constructor; cbn; tauto|].
  destruct (_ || _); repeat constructor; cbn; tauto.
Qed.


Lemma highest_level_spec (l : list DetectionSignal) :
  Forall (fun s => 2 <= getAlertLevelPriority (severity s)) l ->
  Forall (fun s => getAlertLevelPriority (severity s)
                   <= getAlertLevelPriority (highest_level l)) l
  /\ ((l = [] /\ highest_level l = DEFCON1)
      \/ (l <> [] /\ highest_level l <> DEFCON1
          /\ Exists (fun s => severity s = highest_level l) l)).
Proof.
  intros Hsev. change (highest_level l) with (fold_left level_step l DEFCON1).
  destruct (fold_level_spec l DEFCON1) as (_ & Hall & Hex).
  split; [exact Hall|].
  destruct l as [|s l]; [left; by split|right].
  assert (Hne : fold_left level_step (s :: l) DEFCON1 <> DEFCON1).
  { intros Heq. rewrite Heq in Hall.
    apply Forall_inv in Hall. apply Forall_inv in Hsev.
    cbn [getAlertLevelPriority] in Hall. lia. }
  split; [discriminate|]. split; [exact Hne|].
  destruct Hex as [Heq|Hex]; [contradiction|exact Hex].
Qed.

(** What a scan returns, read off the code once. *)
Lemma performFullScan_parts this page d ok now :
  exists level2,
    signals (performFullScan this page d ok now).1
      = detectDOMWarnings page now ++ level2
        ++ detectPatternRisks (performFullScan this page d ok now).2 now
    /\ Forall (fun s => severity s = DEFCON3 \/ severity s = DEFCON4) level2
    /\ resultAlertLevel (performFullScan this page d ok now).1
         = highest_level (signals (performFullScan this page d ok now).1)
    /\ detected (performFullScan this page d ok now).1
         = (0 <? length (signals (performFullScan this page d ok now).1))%nat
    /\ recommendedAction (performFullScan this page d ok now).1
         = match resultAlertLevel (performFullScan this page d ok now).1 with
           | DEFCON5 => STOP
           | DEFCON4 => PAUSE
           | DEFCON3 | DEFCON2 => SLOW_DOWN
           | DEFCON1 => CONTINUE
           end.
Proof.
  unfold performFullScan.
  destruct d as [d|], ok as [ok|];
    try (exists []; cbn; repeat split; constructor).
  pose proof (behavioural_severities this d ok now) as Hb.
  destruct (detectBehavioralAnomalies this d ok now) as [level2 this'].
  exists level2. cbn. repeat split. exact Hb.
Qed.

Lemma scan_signals_severities this page d ok now :
  Forall (fun s => 2 <= getAlertLevelPriority (severity s))
         (signals (performFullScan this page d ok now).1).
Proof.
  destruct (performFullScan_parts this page d ok now) as (level2 & -> & Hb & _).
  apply Forall_app_2; [|apply Forall_app_2].
  - eapply Forall_impl; [apply appearance_severities|].
    intros s [->| ->]; cbn; lia.
  - eapply Forall_impl; [exact Hb|]. intros s [->| ->]; cbn; lia.
  - eapply Forall_impl; [apply pattern_severities|].
    intros s [->| ->]; cbn; lia.
Qed.

(** X13: the alert level of a scan is the highest severity among its
    signals: no signal is more severe, and unless the scan has no signal
    at all, in which case the level is DEFCON1 and nothing is reported as
    detected, some signal has exactly that severity. *)
Theorem performFullScan_alertLevel_is_maximum this page
    (d : option Z) (ok : option bool) (now : Z) :
  Forall (fun s => getAlertLevelPriority (severity s)
                   <= getAlertLevelPriority
                        (resultAlertLevel (performFullScan this page d ok now).1))
         (signals (performFullScan this page d ok now).1)
  /\ (detected (performFullScan this page d ok now).1 = false
        <-> signals (performFullScan this page d ok now).1 = [])
  /\ (resultAlertLevel (performFullScan this page d ok now).1 = DEFCON1
        <-> signals (performFullScan this page d ok now).1 = [])
  /\ (detected (performFullScan this page d ok now).1 = true
        <-> Exists (fun s => severity s
                             = resultAlertLevel (performFullScan this page d ok now).1)
                   (signals (performFullScan this page d ok now).1)).
Proof.
  destruct (performFullScan_parts this page d ok now)
    as (level2 & _ & _ & -> & -> & _).
  destruct (highest_level_spec _ (scan_signals_severities this page d ok now))
    as (Hall & Hcases).
  split; [exact Hall|].
  destruct Hcases as [[Hnil Hlev]|(Hne & Hlev & Hex)].
  - rewrite Hnil in *. cbn. repeat split; try done.
    intros Hex. inversion Hex.
  - destruct (signals _) as [|s l]; [contradiction|]. cbn [length Nat.ltb Nat.leb].
    repeat split; try done.
Qed.

(** The recommendation of a scan, from the severities of its tiers. *)
Lemma performFullScan_recommends this page
    (d : option Z) (ok : option bool) (now : Z) :
  (recommendedAction (performFullScan this page d ok now).1 = STOP
     <-> Exists (fun s => severity s = DEFCON5) (detectDOMWarnings page now))
  /\ (recommendedAction (performFullScan this page d ok now).1 = CONTINUE
        <-> signals (performFullScan this page d ok now).1 = []).
Proof.
  destruct (performFullScan_parts this page d ok now)
    as (level2 & Hsig & Hb & Hlev & _ & ->).
  destruct (highest_level_spec _ (scan_signals_severities this page d ok now))
    as (Hall & Hcases).
  rewrite <- Hlev in Hall, Hcases.
  set (r := (performFullScan this page d ok now).1) in *.
  split.
  - split.
    + intros Hstop.
      assert (H5 : resultAlertLevel r = DEFCON5)
        by (destruct (resultAlertLevel r); done).
      destruct Hcases as [[_ H1]|(_ & _ & Hex)]; [congruence|].
      rewrite H5, Hsig in Hex.
      apply Exists_app in Hex as [Hex|Hex]; [exact Hex|exfalso].
      apply Exists_app in Hex as [Hex|Hex];
        apply Exists_exists in Hex as (s & Hin & Hs).
      * pose proof (proj1 (Forall_forall _ _) Hb s Hin) as [?|?]; congruence.
      * pose proof (proj1 (Forall_forall _ _)
                      (pattern_severities (performFullScan this page d ok now).2 now)
                      s Hin) as [?|?]; congruence.
    + intros Hex. apply Exists_exists in Hex as (s & Hin & Hs).
      assert (Hin' : s ∈ signals r) by (rewrite Hsig; apply elem_of_app; by left).
      pose proof (proj1 (Forall_forall _ _) Hall s Hin') as Hle.
      cbv beta in Hle. rewrite Hs in Hle.
      destruct (resultAlertLevel r); cbn in Hle; try lia; done.
  - destruct Hcases as [[Hnil H1]|(Hne & H1 & _)].
    + rewrite H1. split; done.
    + split; [|done]. destruct (resultAlertLevel r); done.
Qed.

(** X14: a scan recommends STOP exactly when the appearance tier has a
    DEFCON5 signal, since neither the behavioural nor the pattern tier
    ever gives that severity; and it recommends CONTINUE exactly when no
    tier gave any signal. *)
Theorem performFullScan_recommendation this page
    (d : option Z) (ok : option bool) (now : Z) :
  (recommendedAction (performFullScan this page d ok now).1 = STOP
     <-> Exists (fun s => severity s = DEFCON5) (detectDOMWarnings page now))
  /\ (recommendedAction (performFullScan this page d ok now).1 = CONTINUE
        <-> signals (performFullScan this page d ok now).1 = []).
Proof. apply performFullScan_recommends. Qed.

End FullScan.

(** ** Responses to a detection *)

Section Responses.

Import DetectionSystem ResponseProtocol CooldownManager.

Implicit Types (store : gmap string JsVal) (signals : list DetectionSignal).

(** Decides membership of a key in a concrete list of keys. *)
Ltac key_membership :=
  cbn;
  first
    [ by (repeat (first [left; reflexivity | right]))
    | let H := fresh in
      intros H; repeat (destruct H as [H|H]; try discriminate H); contradiction ].

(** X15: whatever the level, a response never writes the warning count nor
    a cooldown reason; only the DEFCON5 response switches automation off
    and opens a cooldown, and it sends the stop message before the
    emergency modal; the DEFCON4 response pauses instead; DEFCON1 does
    nothing at all. *)
Theorem executeResponse_writes (level : AlertLevel) signals (now : Z) :
  ~ In "warningCount" (written_keys (executeResponse level signals now))
  /\ ~ In "cooldownReason" (written_keys (executeResponse level signals now))
  /\ (In "automationEnabled" (written_keys (executeResponse level signals now))
        <-> level = DEFCON5)
  /\ (In "cooldownEnd" (written_keys (executeResponse level signals now))
        <-> level = DEFCON5)
  /\ (In "automationPaused" (written_keys (executeResponse level signals now))
        <-> level = DEFCON4)
  /\ (executeResponse level signals now = [] <-> level = DEFCON1)
  /\ (In STOP_AUTOMATION (sent_messages (executeResponse level signals now))
        <-> level = DEFCON5).
Proof.
  destruct level;
    (split; [key_membership|]); (split; [key_membership|]);
    repeat split; try discriminate; try reflexivity;
    try key_membership; intros _; key_membership.
Qed.

(** X16: applied to a store, the DEFCON5 response leaves automation
    switched off, the emergency stop set and an expiry 48 hours after the
    clock value; the warning count and every key it does not write are as
    before, so the response alone never makes the restrictions permanent;
    and [isInCooldown] then reports a cooldown with the time that remains
    for every later time before the expiry. *)
Theorem handleDEFCON5_on_store store signals (now later : Z) :
  0 <= now -> later < now + 172800000 ->
  exists store',
    store_after store (executeResponse DEFCON5 signals now) = Some store'
    /\ store' !! "automationEnabled" = Some (JBoolean false)
    /\ store' !! "emergencyStop" = Some (JBoolean true)
    /\ store' !! "cooldownEnd" = Some (JNumber (now + 172800000))
    /\ (forall key, key <> "automationEnabled" -> key <> "emergencyStop" ->
                    key <> "cooldownEnd" -> store' !! key = store !! key)
    /\ getWarningCount store' = getWarningCount store
    /\ hasPermanentRestrictions store' = hasPermanentRestrictions store
    /\ exists status,
         isInCooldown later store' = Some (status, store')
         /\ inCooldown status = true
         /\ remainingTime status = Some (now + 172800000 - later).
Proof.
  intros Hnow Hlater.
  set (store' := <["automationEnabled" := JBoolean false]>
                   (<["cooldownEnd" := JNumber (now + 172800000)]>
                      (<["emergencyStop" := JBoolean true]>
                         (<["automationEnabled" := JBoolean false]> store)))).
  exists store'. split; [reflexivity|].
  assert (Hframe : forall key, key <> "automationEnabled" -> key <> "emergencyStop" ->
            key <> "cooldownEnd" -> store' !! key = store !! key).
  { intros key H1 H2 H3. subst store'. by rewrite !lookup_insert_ne. }
  assert (Hcount : getWarningCount store' = getWarningCount store).
  { unfold getWarningCount. by rewrite Hframe. }
  assert (Hend : store' !! "cooldownEnd" = Some (JNumber (now + 172800000))).
  { subst store'. rewrite lookup_insert_ne by done. apply lookup_insert_eq. }
  split; [apply lookup_insert_eq|].
  split; [subst store'; rewrite !lookup_insert_ne by done; apply lookup_insert_eq|].
  split; [exact Hend|].
  split; [exact Hframe|].
  split; [exact Hcount|].
  split; [unfold hasPermanentRestrictions; by rewrite Hcount|].
  unfold isInCooldown. rewrite Hend. cbn.
  destruct (Z.eqb_spec (now + 172800000) 0); [lia|]. cbn.
  destruct (Z.ltb_spec later (now + 172800000)); [|lia].
  eexists. split; [reflexivity|]. by cbn.
Qed.

Lemma handleDEFCON5_on_store_witness :
  exists store',
    store_after ∅ (executeResponse DEFCON5 [] 1000) = Some store'
    /\ store' !! "automationEnabled" = Some (JBoolean false)
    /\ getWarningCount store' = getWarningCount ∅.
Proof.
  destruct (handleDEFCON5_on_store ∅ [] 1000 2000) as (store' & H1 & H2 & _ & _ & _ & H3 & _);
    [lia|lia|].
  exists store'. repeat split; assumption.
Defined.

(** With no element under any warning selector the appearance tier has no
    phrase signal. *)
Lemma no_warning_elements_no_phrase page now :
  Forall (fun sel => querySelectorAll page sel = []) WARNING_SELECTORS ->
  flat_map (fun selector =>
              flat_map (element_warnings now selector)
                       (querySelectorAll page selector)) WARNING_SELECTORS = [].
Proof.
  intros Hnone. induction Hnone as [|sel rest Hsel _ IH]; [reflexivity|].
  cbn [flat_map]. by rewrite Hsel, IH.
Qed.

(** X17: the passive monitor responds at the severity of the first signal
    of the appearance tier, not at the highest.  On a page with no warning
    element and no CAPTCHA marker where most action buttons are disabled
    it runs the DEFCON4 response, which neither switches automation off
    nor opens a cooldown, even when the location is a security checkpoint,
    for which a full scan of the same page recommends STOP. *)
Theorem passive_monitor_uses_first_signal page (now : Z)
    (this : DetectionSystem.t) (d : option Z) (ok : option bool) :
  Forall (fun sel => querySelectorAll page sel = []) WARNING_SELECTORS ->
  detectCaptcha page = false ->
  detectDisabledActions page = true ->
  passiveMonitoringTick page now
    = Console console_error "WARNING DETECTED:" (detectDOMWarnings page now)
      :: handleDEFCON4 (detectDOMWarnings page now)
  /\ ~ In "automationEnabled" (written_keys (passiveMonitoringTick page now))
  /\ ~ In "cooldownEnd" (written_keys (passiveMonitoringTick page now))
  /\ (str_includes (location_href page) "checkpoint" = true ->
      recommendedAction (performFullScan this page d ok now).1 = STOP).
Proof.
  intros Hnone Hcap Hdis.
  assert (Htick : passiveMonitoringTick page now
            = Console console_error "WARNING DETECTED:" (detectDOMWarnings page now)
              :: handleDEFCON4 (detectDOMWarnings page now)).
  { unfold passiveMonitoringTick.
    assert (Hdom : exists rest, detectDOMWarnings page now
              = {| type := warning; severity := DEFCON4;
                   message := "Action buttons appear disabled";
                   timestamp := now;
                   details := [ ("type", DString "disabled-ui") ] |} :: rest).
    { unfold detectDOMWarnings.
      rewrite (no_warning_elements_no_phrase page now Hnone), Hcap, Hdis.
      cbn [app]. eauto. }
    destruct Hdom as [rest ->]. reflexivity. }
  split; [exact Htick|]. rewrite Htick.
  split; [key_membership|]. split; [key_membership|].
  intros Hcheck. apply performFullScan_recommends.
  unfold detectDOMWarnings. rewrite Hcheck. cbn [orb].
  rewrite !Exists_app. right. right. right. constructor. reflexivity.
Qed.

Lemma passive_monitor_uses_first_signal_witness :
  ~ In "automationEnabled"
       (written_keys (passiveMonitoringTick checkpoint_page_with_disabled_button 0))
  /\ recommendedAction
       (performFullScan (DetectionSystem.new default_session)
                        checkpoint_page_with_disabled_button None None 0).1 = STOP.
Proof.
  split;
    apply (passive_monitor_uses_first_signal checkpoint_page_with_disabled_button 0
             (DetectionSystem.new default_session) None None);
    try reflexivity; repeat constructor.
Defined.

End Responses.

(** ** Detection: actions at a constant interval *)

Section RegularTiming.

Import DetectionSystem.

Lemma intervals_of_cons (a b : Z) (rest : list Z) :
  intervals_of (a :: b :: rest) = (b - a) :: intervals_of (b :: rest).
Proof. reflexivity. Qed.

Lemma intervals_of_progression (t0 d : Z) (a m : nat) :
  intervals_of (map (fun i => t0 + Z.of_nat i * d) (seq a m)) = repeat d (m - 1).
Proof.
  revert a. induction m as [|m IH]; intros a; [reflexivity|].
  destruct m as [|m]; [reflexivity|].
  specialize (IH (S a)).
  change (seq a (S (S m))) with (a :: seq (S a) (S m)).
  change (seq (S a) (S m)) with (S a :: seq (S (S a)) m) in *.
  cbn [map] in *. rewrite intervals_of_cons, IH.
  cbn [Nat.sub repeat]. rewrite Nat.sub_0_r. f_equal. lia.
Qed.

Lemma most_recent_progression (t0 d : Z) (n : nat) :
  most_recent 20 (progression t0 d n)
    = map (fun i => t0 + Z.of_nat i * d) (seq (n - 20) (Nat.min n 20)).
Proof.
  unfold most_recent, progression.
  rewrite length_map, length_seq, skipn_map, skipn_seq.
  do 2 f_equal; lia.
Qed.

Lemma fold_Qplus_repeat (g : Z -> Q) (x : Z) (k : nat) (acc : Q) :
  (fold_left Qplus (map g (repeat x k)) acc
     == acc + inject_Z (Z.of_nat k) * g x)%Q.
Proof.
  revert acc. induction k as [|k IH]; intros acc; cbn [repeat map fold_left].
  - cbn. ring.
  - rewrite IH, Nat2Z.inj_succ. unfold Z.succ. rewrite inject_Z_plus. ring.
Qed.

Lemma Qsum_repeat (g : Z -> Q) (x : Z) (k : nat) :
  (Qsum (map g (repeat x k)) == inject_Z (Z.of_nat k) * g x)%Q.
Proof. unfold Qsum. rewrite fold_Qplus_repeat. ring. Qed.

(** The statistic of a buffer of [m >= 2] timestamps at a constant
    interval: the average is the interval, the variance is zero. *)
Lemma timingStats_progression ss (t0 d : Z) (n : nat) :
  (5 <= n)%nat ->
  exists stats,
    timingStats (record_all (DetectionSystem.new ss) (progression t0 d n)) = Some stats
    /\ (avgInterval stats == inject_Z d)%Q
    /\ (variance stats == 0)%Q.
Proof.
  intros Hn. unfold timingStats.
  rewrite record_all_times, most_recent_progression.
  rewrite length_map, length_seq.
  destruct (Nat.leb_spec 5 (Nat.min n 20)) as [_|Hlt]; [|lia].
  rewrite intervals_of_progression.
  set (k := (Nat.min n 20 - 1)%nat).
  assert (Hk : (0 < inject_Z (Z.of_nat k))%Q).
  { change 0%Q with (inject_Z 0). rewrite <- Zlt_Qlt. subst k. lia. }
  eexists. split; [reflexivity|]. cbn [avgInterval variance].
  rewrite repeat_length.
  assert (Havg : (Qsum (map inject_Z (repeat d k)) / inject_Z (Z.of_nat k)
                  == inject_Z d)%Q).
  { rewrite Qsum_repeat. field. lra. }
  split; [exact Havg|].
  rewrite Qsum_repeat. rewrite Havg. field. lra.
Qed.

(** X18: on a fresh detector that recorded five or more action times at a
    constant interval [d], the pattern tier gives its timing signal (the
    only one it has at DEFCON3) exactly when [d] is positive: equally
    spaced actions are always flagged, and actions that all carry the
    same timestamp are not. *)
Theorem constant_interval_flagged_iff (ss : SessionState) (t0 d : Z)
    (n : nat) (now : Z) :
  (5 <= n)%nat ->
  (Exists (fun s => severity s = DEFCON3)
          (detectPatternRisks
             (record_all (DetectionSystem.new ss) (progression t0 d n)) now)
   <-> 0 < d).
Proof.
  intros Hn. rewrite detectPatternRisks_timing_signal.
  destruct (timingStats_progression ss t0 d n Hn) as (stats & Hstats & Havg & Hvar).
  rewrite Hstats. unfold tooConsistent. split.
  - intros (stats' & [= <-] & Htc).
    apply andb_prop in Htc as [Hpos _]. apply Qlt_bool_spec in Hpos.
    rewrite Havg in Hpos. apply Z.lt_nge. intros Hle.
    rewrite Zle_Qle in Hle. change (inject_Z 0) with 0%Q in Hle. lra.
  - intros Hd. exists stats. split; [reflexivity|].
    assert (HdQ : (0 < inject_Z d)%Q)
      by (change 0%Q with (inject_Z 0); by rewrite <- Zlt_Qlt).
    assert (Hb : (0 < avgInterval stats * (15 # 100))%Q)
      by (rewrite Havg; lra).
    apply andb_true_intro. split; apply Qlt_bool_spec; [exact Hb|].
    rewrite Hvar. by apply Qmult_lt_0_compat.
Qed.

Lemma constant_interval_flagged_iff_witness :
  Exists (fun s => severity s = DEFCON3)
         (detectPatternRisks
            (record_all (DetectionSystem.new default_session)
                        (progression 1000 30000 25)) 900000).
Proof.
  apply (constant_interval_flagged_iff default_session 1000 30000 25 900000); lia.
Defined.

End RegularTiming.

(** ** Timing: the random draws *)

Section RandomDraws.

Import HumanizationEngine.

Implicit Types (src : RandomSource) (pos : nat) (st : SessionState).

Lemma randomValue_step (acc b : Z) :
  0 <= acc < 2 ^ 16 -> 0 <= b <= 255 ->
  to_int32 (Z.shiftl (to_int32 acc) 8) + b = acc * 256 + b.
Proof.
  intros Hacc Hb. rewrite (to_int32_small acc) by lia.
  rewrite Z.shiftl_mul_pow2 by lia. rewrite to_int32_small; lia.
Qed.

(** Up to three bytes the shifts stay within 32 bits and the value drawn
    is not negative. *)
Lemma randomValue_of_nonneg src pos (n : nat) :
  (n <= 3)%nat -> 0 <= randomValue_of (getRandomValues src pos n) < 2 ^ 24.
Proof.
  intros Hn. unfold randomValue_of.
  pose proof (byte_range (src pos)) as H0.
  pose proof (byte_range (src (S pos))) as H1.
  pose proof (byte_range (src (S (S pos)))) as H2.
  set (b0 := Z.of_N (Byte.to_N (src pos))) in *.
  set (b1 := Z.of_N (Byte.to_N (src (S pos)))) in *.
  set (b2 := Z.of_N (Byte.to_N (src (S (S pos))))) in *.
  destruct n as [|[|[|[|n]]]]; [| | | |lia];
    cbn [getRandomValues fold_left]; fold b0 b1 b2.
  - lia.
  - rewrite (randomValue_step 0 b0) by lia. lia.
  - rewrite (randomValue_step 0 b0) by lia.
    rewrite (randomValue_step (0 * 256 + b0) b1) by lia. lia.
  - rewrite (randomValue_step 0 b0) by lia.
    rewrite (randomValue_step (0 * 256 + b0) b1) by lia.
    rewrite (randomValue_step ((0 * 256 + b0) * 256 + b1) b2) by lia. lia.
Qed.

Lemma js_rem_upper (a b : Q) : (0 <= a)%Q -> (0 < b)%Q -> (js_rem a b < b)%Q.
Proof.
  intros Ha Hb. unfold js_rem, Qtrunc.
  assert (Hq : (0 <= a / b)%Q) by (apply Qle_shift_div_l; [exact Hb|lra]).
  apply Qle_bool_iff in Hq as Hq'. rewrite Hq'.
  pose proof (Qlt_floor (a / b)) as Hfl.
  rewrite inject_Z_plus in Hfl.
  assert (Hmul : (b * (a / b) < b * (inject_Z (Qfloor (a / b)) + inject_Z 1))%Q).
  { apply Qmult_lt_l; assumption. }
  rewrite Qmult_div_r in Hmul by lra.
  change (inject_Z 1) with 1%Q in Hmul. lra.
Qed.

(** A range from just above 1 up to 2^24 takes one to three bytes. *)
Lemma bytesNeeded_upto_three (range : Q) :
  (1 < range)%Q -> (range <= inject_Z (2 ^ 24))%Q ->
  exists n, bytesNeeded range = Some n /\ (1 <= n <= 3)%nat.
Proof.
  intros H1 H24. unfold bytesNeeded.
  rewrite Qlt_bool_false by lra.
  rewrite Qle_bool_false by lra.
  rewrite Qle_bool_false by lra.
  eexists. split; [reflexivity|].
  assert (Hc : 2 <= Qceiling range <= 2 ^ 24).
  { split.
    - assert (Hlt : (inject_Z 1 < inject_Z (Qceiling range))%Q).
      { eapply Qlt_le_trans; [exact H1|apply Qle_ceiling]. }
      rewrite <- Zlt_Qlt in Hlt. lia.
    - rewrite <- (Qceiling_Z (2 ^ 24)). by apply Qceiling_resp_le. }
  assert (Hlog : 1 <= Z.log2_up (Qceiling range) <= 24).
  { split.
    - pose proof (Z.log2_up_pos (Qceiling range) ltac:(lia)). lia.
    - apply Z.log2_up_le_pow2; lia. }
  split.
  - apply Nat2Z.inj_le. rewrite Z2Nat.id by (apply Z.div_pos; lia).
    apply Z.div_le_lower_bound; lia.
  - apply Nat2Z.inj_le. rewrite Z2Nat.id by (apply Z.div_pos; lia).
    assert ((Z.log2_up (Qceiling range) + 7) / 8 < 4)
      by (apply Z.div_lt_upper_bound; lia).
    lia.
Qed.

(** A draw over a range wider than 1 and at most 2^24 wide. *)
Lemma cryptoRandomRange_bounds src pos (min max : Q) :
  (1 < max - min)%Q -> (max - min <= inject_Z (2 ^ 24))%Q ->
  exists v n,
    cryptoRandomRange src pos min max = Some (v, (pos + n)%nat)
    /\ (1 <= n <= 3)%nat
    /\ (min <= v)%Q /\ (v < max)%Q.
Proof.
  intros H1 H24.
  destruct (bytesNeeded_upto_three _ H1 H24) as (n & Hn & Hn3).
  unfold cryptoRandomRange. rewrite Hn. cbn [mbind option_bind].
  do 2 eexists. split; [reflexivity|]. split; [exact Hn3|].
  pose proof (randomValue_of_nonneg src pos n ltac:(lia)) as [Hrv _].
  assert (HrvQ : (0 <= inject_Z (randomValue_of (getRandomValues src pos n)))%Q).
  { change 0%Q with (inject_Z 0). by rewrite <- Zle_Qle. }
  pose proof (js_rem_nonneg _ (max - min) HrvQ ltac:(lra)).
  pose proof (js_rem_upper _ (max - min) HrvQ ltac:(lra)).
  split; lra.
Qed.



(** The same for bounds that are integers. *)
Lemma cryptoRandomRange_Z src pos (lo hi : Z) :
  1 < hi - lo <= 2 ^ 24 ->
  exists v n,
    cryptoRandomRange src pos (inject_Z lo) (inject_Z hi) = Some (v, (pos + n)%nat)
    /\ (inject_Z lo <= v)%Q /\ (v < inject_Z hi)%Q.
Proof.
  intros [Hlo Hhi].
  destruct (cryptoRandomRange_bounds src pos (inject_Z lo) (inject_Z hi))
    as (v & n & Heq & _ & Hv).
  - unfold Qminus. rewrite <- inject_Z_opp, <- inject_Z_plus.
    change 1%Q with (inject_Z 1). rewrite <- Zlt_Qlt. lia.
  - unfold Qminus. rewrite <- inject_Z_opp, <- inject_Z_plus.
    rewrite <- Zle_Qle. lia.
  - eauto.
Qed.

End RandomDraws.

(** ** Timing: multipliers, pauses and reading time *)

Section TimingRanges.

Import HumanizationEngine.

Implicit Types (src : RandomSource) (pos : nat) (st : SessionState).

(** X20: the fatigue multiplier does not decrease when the session has more
    actions; it is 1 up to 10 actions and 3/2 from 41 on.  The daily-rhythm
    multiplier is between 1 and 2 for every hour, and 2 for every hour
    outside 9 to 20, values that are no hour of the day included.  Neither
    multiplier ever shortens a delay. *)
Theorem multipliers_never_speed_up (st1 st2 : SessionState) (hour : Z) :
  (actionsThisSession st1 <= actionsThisSession st2 ->
     (calculateFatigueMultiplier st1 <= calculateFatigueMultiplier st2)%Q)
  /\ (1 <= calculateFatigueMultiplier st1)%Q
  /\ (calculateFatigueMultiplier st1 <= 3 # 2)%Q
  /\ (actionsThisSession st1 <= 10 <-> calculateFatigueMultiplier st1 = 1%Q)
  /\ (41 <= actionsThisSession st1 <-> calculateFatigueMultiplier st1 = (15 # 10)%Q)
  /\ (1 <= calculateDailyRhythmMultiplier hour)%Q
  /\ (calculateDailyRhythmMultiplier hour <= 2)%Q
  /\ (calculateDailyRhythmMultiplier hour = 2%Q <-> hour < 9 \/ 21 <= hour).
Proof.
  unfold calculateFatigueMultiplier, calculateDailyRhythmMultiplier.
  split; [|split; [|split; [|split; [|split; [|split; [|split]]]]]].
  - intros Hle.
    repeat match goal with
           | |- context [?a <=? ?b] => destruct (Z.leb_spec a b)
           end; first [lia | lra].
  - repeat match goal with
           | |- context [?a <=? ?b] => destruct (a <=? b)
           end; lra.
  - repeat match goal with
           | |- context [?a <=? ?b] => destruct (a <=? b)
           end; lra.
  - repeat match goal with
           | |- context [?a <=? ?b] => destruct (Z.leb_spec a b)
           end; split; first [lia | discriminate | reflexivity].
  - repeat match goal with
           | |- context [?a <=? ?b] => destruct (Z.leb_spec a b)
           end; split; first [lia | discriminate | reflexivity].
  - repeat match goal with
           | |- context [?a && ?b] => destruct (a && b)
           end; lra.
  - repeat match goal with
           | |- context [?a && ?b] => destruct (a && b)
           end; lra.
  - repeat match goal with
           | |- context [(?a <=? ?b) && (?c <? ?d)] =>
               destruct (Z.leb_spec a b); destruct (Z.ltb_spec c d); cbn [andb]
           end; split; first [lia | discriminate | reflexivity].
Qed.

Lemma multipliers_never_speed_up_witness :
  (calculateFatigueMultiplier (session_with 15 SLOW)
     <= calculateFatigueMultiplier (session_with 35 SLOW))%Q.
Proof.
  apply (proj1 (multipliers_never_speed_up
                  (session_with 15 SLOW) (session_with 35 SLOW) 0)).
  cbn. lia.
Defined.

(** X21: for every tier and every stream of random bytes, the pause before
    a click is within the tier's range, so at least 800 ms and below
    3000 ms, and the pause after reading is within the tier's range, so at
    least 1000 ms and below 5000 ms; neither call throws. *)
Theorem micro_pauses_in_range st src pos :
  (exists v pos',
     getBeforeClickPause st src pos = Some (v, pos')
     /\ (inject_Z (beforeClick (microPauses (getTimingConfig (speedMode st)))).1 <= v)%Q
     /\ (v < inject_Z (beforeClick (microPauses (getTimingConfig (speedMode st)))).2)%Q
     /\ (inject_Z 800 <= v)%Q /\ (v < inject_Z 3000)%Q)
  /\ (exists v pos',
        getAfterReadingPause st src pos = Some (v, pos')
        /\ (inject_Z (afterReading (microPauses (getTimingConfig (speedMode st)))).1 <= v)%Q
        /\ (v < inject_Z (afterReading (microPauses (getTimingConfig (speedMode st)))).2)%Q
        /\ (inject_Z 1000 <= v)%Q /\ (v < inject_Z 5000)%Q).
Proof.
  unfold getBeforeClickPause, getAfterReadingPause.
  split.
  - destruct (cryptoRandomRange_Z src pos
                (beforeClick (microPauses (getTimingConfig (speedMode st)))).1
                (beforeClick (microPauses (getTimingConfig (speedMode st)))).2)
      as (v & n & -> & Hlo & Hhi);
      [destruct (speedMode st); cbn; lia|].
    exists v, (pos + n)%nat. split; [reflexivity|]. split; [exact Hlo|].
    split; [exact Hhi|].
    destruct (speedMode st); cbn in Hlo, Hhi; split;
      (eapply Qle_trans; [|exact Hlo]) || (eapply Qlt_le_trans; [exact Hhi|]);
      rewrite <- Zle_Qle; lia.
  - destruct (cryptoRandomRange_Z src pos
                (afterReading (microPauses (getTimingConfig (speedMode st)))).1
                (afterReading (microPauses (getTimingConfig (speedMode st)))).2)
      as (v & n & -> & Hlo & Hhi);
      [destruct (speedMode st); cbn; lia|].
    exists v, (pos + n)%nat. split; [reflexivity|]. split; [exact Hlo|].
    split; [exact Hhi|].
    destruct (speedMode st); cbn in Hlo, Hhi; split;
      (eapply Qle_trans; [|exact Hlo]) || (eapply Qlt_le_trans; [exact Hhi|]);
      rewrite <- Zle_Qle; lia.
Qed.


Lemma add_draw_bounds (cond : bool) src (lo hi : Z) (a : Q) pos :
  1 < hi - lo <= 2 ^ 24 ->
  exists v pos',
    add_draw cond src (inject_Z lo) (inject_Z hi) (a, pos) = Some (v, pos')
    /\ (a + inject_Z (if cond then lo else 0) <= v)%Q
    /\ (v <= a + inject_Z (if cond then hi else 0))%Q.
Proof.
  intros Hr. unfold add_draw. destruct cond; cbn [fst snd].
  - destruct (cryptoRandomRange_Z src pos lo hi Hr) as (x & n & -> & Hlo & Hhi).
    cbn [mbind option_bind]. do 2 eexists. split; [reflexivity|]. split; lra.
  - do 2 eexists. split; [reflexivity|].
    change (inject_Z 0) with 0%Q. split; lra.
Qed.

Lemma reading_band_range st (wordCount : Z) :
  10000 <= (reading_band st wordCount).1
  /\ (reading_band st wordCount).2 <= 100000
  /\ 1 < (reading_band st wordCount).2 - (reading_band st wordCount).1 <= 2 ^ 24.
Proof.
  unfold reading_band.
  destruct (speedMode st); destruct (wordCount <? 100); destruct (wordCount <? 300);
    cbn; lia.
Qed.

(** X22: [calculateReadingTime] never throws, and the time it returns is
    at least the lower end of the band chosen by the word count plus the
    lower ends of the extras that apply (image, video, more than 10
    comments, re-read), and below the sum of the upper ends; in every case
    it is at least 10,000 ms and below 146,000 ms. *)
Theorem calculateReadingTime_bounds st src pos (r : Q) (wordCount : Z)
    (hasImage hasVideo : bool) (commentCount : Z) :
  exists t pos',
    calculateReadingTime st src pos r wordCount hasImage hasVideo commentCount
      = Some (t, pos')
    /\ (inject_Z (reading_band st wordCount).1
        + inject_Z (if hasImage then 3000 else 0)
        + inject_Z (if hasVideo then 5000 else 0)
        + inject_Z (if 10 <? commentCount then 5000 else 0)
        + inject_Z (if Qlt_bool r (15 # 100) then 3000 else 0) <= t)%Q
    /\ (t < inject_Z (reading_band st wordCount).2
            + inject_Z (if hasImage then 8000 else 0)
            + inject_Z (if hasVideo then 15000 else 0)
            + inject_Z (if 10 <? commentCount then 15000 else 0)
            + inject_Z (if Qlt_bool r (15 # 100) then 8000 else 0))%Q
    /\ (inject_Z 10000 <= t)%Q /\ (t < inject_Z 146000)%Q.
Proof.
  unfold calculateReadingTime. fold (reading_band st wordCount).
  destruct (reading_band_range st wordCount) as (Hmin & Hmax & Hr).
  destruct (cryptoRandomRange_Z src pos _ _ Hr) as (b & n & -> & Hb1 & Hb2).
  cbn [mbind option_bind].
  destruct (add_draw_bounds hasImage src 3000 8000 b (pos + n) ltac:(lia))
    as (t1 & p1 & -> & H1a & H1b).
  cbn [mbind option_bind].
  destruct (add_draw_bounds hasVideo src 5000 15000 t1 p1 ltac:(lia))
    as (t2 & p2 & -> & H2a & H2b).
  cbn [mbind option_bind].
  destruct (add_draw_bounds (10 <? commentCount) src 5000 15000 t2 p2 ltac:(lia))
    as (t3 & p3 & -> & H3a & H3b).
  cbn [mbind option_bind].
  destruct (add_draw_bounds (Qlt_bool r (15 # 100)) src 3000 8000 t3 p3 ltac:(lia))
    as (t4 & p4 & -> & H4a & H4b).
  exists t4, p4. split; [reflexivity|].
  split; [lra|]. split; [lra|].
  assert (Hlo : (inject_Z 10000 <= inject_Z (reading_band st wordCount).1)%Q)
    by (rewrite <- Zle_Qle; lia).
  assert (Hhi : (inject_Z (reading_band st wordCount).2 <= inject_Z 100000)%Q)
    by (rewrite <- Zle_Qle; lia).
  assert (Hnonneg : forall (c : bool) (x : Z), 0 <= x ->
            (0 <= inject_Z (if c then x else 0))%Q).
  { intros c x Hx. change 0%Q with (inject_Z 0). rewrite <- Zle_Qle.
    destruct c; lia. }
  assert (Hcap : forall (c : bool) (x : Z), 0 <= x ->
            (inject_Z (if c then x else 0) <= inject_Z x)%Q).
  { intros c x Hx. rewrite <- Zle_Qle. destruct c; lia. }
  pose proof (Hnonneg hasImage 3000 ltac:(lia)).
  pose proof (Hnonneg hasVideo 5000 ltac:(lia)).
  pose proof (Hnonneg (10 <? commentCount) 5000 ltac:(lia)).
  pose proof (Hnonneg (Qlt_bool r (15 # 100)) 3000 ltac:(lia)).
  pose proof (Hcap hasImage 8000 ltac:(lia)).
  pose proof (Hcap hasVideo 15000 ltac:(lia)).
  pose proof (Hcap (10 <? commentCount) 15000 ltac:(lia)).
  pose proof (Hcap (Qlt_bool r (15 # 100)) 8000 ltac:(lia)).
  assert (H10 : (inject_Z 10000 == 10000)%Q) by reflexivity.
  assert (H100 : (inject_Z 100000 == 100000)%Q) by reflexivity.
  assert (H146 : (inject_Z 146000 == 146000)%Q) by reflexivity.
  assert (H8 : (inject_Z 8000 == 8000)%Q) by reflexivity.
  assert (H15 : (inject_Z 15000 == 15000)%Q) by reflexivity.
  split; lra.
Qed.

End TimingRanges.

(** ** Timing: breaks *)

Section Breaks.

Import HumanizationEngine.

Implicit Types (src : RandomSource) (pos : nat) (st : SessionState) (r : Q).

(** For a draw [r] of [Math.random()], 0 <= r < 1, and integer bounds,
    [randomRange] is an integer within the bounds, both included. *)
Lemma randomRange_int r (lo hi : Z) :
  (0 <= r)%Q -> (r < 1)%Q -> lo <= hi ->
  exists k, lo <= k <= hi
            /\ (randomRange r (inject_Z lo) (inject_Z hi) == inject_Z k)%Q.
Proof.
  intros Hr0 Hr1 Hle. unfold randomRange.
  set (w := (inject_Z hi - inject_Z lo + 1)%Q).
  assert (Hw : (w == inject_Z (hi - lo + 1))%Q).
  { subst w. unfold Z.sub. rewrite !inject_Z_plus, inject_Z_opp.
    change (inject_Z 1) with 1%Q. ring. }
  assert (Hw1 : (1 <= w)%Q).
  { rewrite Hw. change 1%Q with (inject_Z 1). rewrite <- Zle_Qle. lia. }
  assert (Hlow : 0 <= Qfloor (r * w)).
  { change 0 with (Qfloor 0). apply Qfloor_resp_le. nra. }
  assert (Hup : Qfloor (r * w) < hi - lo + 1).
  { rewrite Zlt_Qlt. eapply Qle_lt_trans; [apply Qfloor_le|].
    rewrite <- Hw. nra. }
  exists (Qfloor (r * w) + lo). split; [lia|].
  by rewrite inject_Z_plus.
Qed.

Lemma Qtrunc_comp (p q : Q) : (p == q)%Q -> Qtrunc p = Qtrunc q.
Proof.
  intros Heq. unfold Qtrunc.
  rewrite (Qleb_comp 0%Q 0%Q (Qeq_refl 0%Q) p q Heq).
  rewrite (Qfloor_comp p q Heq), (Qceiling_comp p q Heq). reflexivity.
Qed.

Lemma js_rem_comp (a b b' : Q) : (b == b')%Q -> (js_rem a b == js_rem a b')%Q.
Proof.
  intros Heq. unfold js_rem.
  rewrite (Qtrunc_comp (a / b) (a / b')) by (by rewrite Heq).
  by rewrite Heq.
Qed.

(** On a non-negative integer and a positive one, [%] is the integer
    remainder. *)
Lemma js_rem_int (a k : Z) :
  0 <= a -> 0 < k -> (js_rem (inject_Z a) (inject_Z k) == inject_Z (a mod k))%Q.
Proof.
  intros Ha Hk. unfold js_rem, Qtrunc.
  assert (Hq : (0 <= inject_Z a / inject_Z k)%Q).
  { apply Qle_shift_div_l.
    - change 0%Q with (inject_Z 0). rewrite <- Zlt_Qlt. lia.
    - rewrite Qmult_0_l. change 0%Q with (inject_Z 0). rewrite <- Zle_Qle. lia. }
  apply Qle_bool_iff in Hq. rewrite Hq.
  rewrite <- Zdiv_Qdiv. rewrite Z.mod_eq by lia.
  unfold Z.sub. rewrite inject_Z_plus, inject_Z_opp, inject_Z_mult. ring.
Qed.

(** What the test [actions % randomRange(lo, hi) === 0] says when it holds. *)
Lemma remainder_test r (actions lo hi : Z) :
  (0 <= r)%Q -> (r < 1)%Q -> 0 < lo <= hi -> 0 < actions ->
  Qeq_bool (js_rem (inject_Z actions) (randomRange r (inject_Z lo) (inject_Z hi))) 0
    = true ->
  exists k, lo <= k <= hi /\ actions mod k = 0.
Proof.
  intros Hr0 Hr1 Hlo Ha Htest.
  destruct (randomRange_int r lo hi Hr0 Hr1 ltac:(lia)) as (k & Hk & Heq).
  exists k. split; [exact Hk|].
  apply Qeq_bool_iff in Htest.
  rewrite (js_rem_comp _ _ _ Heq), js_rem_int in Htest by lia.
  change 0%Q with (inject_Z 0) in Htest.
  exact (proj1 (inject_Z_injective _ _) Htest).
Qed.

Lemma one_hour_test (elapsed : Z) :
  Qle_bool 1 (inject_Z elapsed / inject_Z (1000 * 60 * 60)) = true
  <-> 3600000 <= elapsed.
Proof.
  rewrite Qle_bool_iff. change (1000 * 60 * 60) with 3600000.
  assert (Hpos : (0 < inject_Z 3600000)%Q) by reflexivity.
  split.
  - intros Hle. apply (Qmult_le_r _ _ _ Hpos) in Hle.
    rewrite Qmult_1_l in Hle.
    assert (Hdiv : (inject_Z elapsed / inject_Z 3600000 * inject_Z 3600000
                    == inject_Z elapsed)%Q) by (field; discriminate).
    rewrite Hdiv in Hle. by rewrite Zle_Qle.
  - intros Hle. apply Qle_shift_div_l; [exact Hpos|].
    rewrite Qmult_1_l. by rewrite <- Zle_Qle.
Qed.

Lemma break_table st :
  20 <= sessionEnd (breaks (getTimingConfig (speedMode st))) <= 50
  /\ 1 < (mediumBreak (breaks (getTimingConfig (speedMode st)))).2 * 60 * 1000
         - (mediumBreak (breaks (getTimingConfig (speedMode st)))).1 * 60 * 1000
       <= 2 ^ 24
  /\ 1 < (mini (breaks (getTimingConfig (speedMode st)))).2 * 60 * 1000
         - (mini (breaks (getTimingConfig (speedMode st)))).1 * 60 * 1000
       <= 2 ^ 24.
Proof. destruct (speedMode st); cbn; lia. Qed.

Lemma shouldTakeBreak_cases st src pos (now : Z) (r1 r2 : Q) :
  (0 <= r1)%Q -> (r1 < 1)%Q -> (0 <= r2)%Q -> (r2 < 1)%Q ->
  exists answer pos',
    shouldTakeBreak st src pos now r1 r2 = Some (answer, pos')
    /\ break_answer_ok st now answer
    /\ (answer = None -> pos' = pos).
Proof.
  intros Hr1 Hr1' Hr2 Hr2'. unfold shouldTakeBreak, break_answer_ok.
  destruct (break_table st) as (Hend & Hmed & Hmini).
  set (table := breaks (getTimingConfig (speedMode st))) in *.
  set (actions := actionsThisSession st) in *.
  set (elapsed := now - sessionStartTime st) in *.
  pose proof (one_hour_test elapsed) as Hhour.
  destruct (Z.leb_spec (sessionEnd table) actions) as [Hfull|Hroom];
    [|destruct (Qle_bool 1 _) eqn:Hlong]; cbn [orb].
  1,2: destruct (cryptoRandomRange_Z src pos (2 * 60 * 60 * 1000)
                   (4 * 60 * 60 * 1000) ltac:(lia)) as (d & n & -> & Hlo & Hhi);
       cbn [mbind option_bind]; do 2 eexists; (split; [reflexivity|]);
       cbn [needed break_type break_duration];
       (split; [|discriminate]);
       (split; [reflexivity|]); (split; [|split; assumption]).
  { by left. }
  { right. by apply Hhour. }
  assert (Hshort : elapsed < 3600000).
  { destruct (Z.lt_ge_cases elapsed 3600000) as [?|Hge]; [assumption|].
    apply Hhour in Hge. congruence. }
  destruct (Z.ltb_spec 0 actions) as [Hpos|Hnone]; cbn [andb].
  - destruct (Qeq_bool (js_rem (inject_Z actions) (randomRange r1 25 30)) 0)
      eqn:Hmedium.
    + destruct (remainder_test r1 actions 25 30 Hr1 Hr1' ltac:(lia) Hpos Hmedium)
        as (k & Hk & Hmod).
      assert (Hact : actions = k).
      { apply Z.mod_divide in Hmod; [|lia]. destruct Hmod as [q Hq].
        assert (Hq1 : 1 <= q) by nia. assert (Hq2 : q <= 1) by nia.
        assert (q = 1) by lia. subst q. lia. }
      destruct (mediumBreak table) as [lo hi] eqn:Htab. cbn [fst snd] in Hmed.
      destruct (cryptoRandomRange_Z src pos (lo * 60 * 1000) (hi * 60 * 1000) Hmed)
        as (d & n & -> & Hlo & Hhi).
      cbn [mbind option_bind]. do 2 eexists. split; [reflexivity|].
      cbn [needed break_type break_duration fst snd].
      repeat split; try assumption; try discriminate; lia.
    + destruct (Qeq_bool (js_rem (inject_Z actions) (randomRange r2 8 12)) 0)
        eqn:Hminib.
      * destruct (remainder_test r2 actions 8 12 Hr2 Hr2' ltac:(lia) Hpos Hminib)
          as (k & Hk & Hmod).
        assert (Hact : 8 <= actions).
        { apply Z.mod_divide in Hmod; [|lia]. destruct Hmod as [q Hq].
          assert (Hq1 : 1 <= q) by nia. nia. }
        destruct (mini table) as [lo hi] eqn:Htab. cbn [fst snd] in Hmini.
        destruct (cryptoRandomRange_Z src pos (lo * 60 * 1000) (hi * 60 * 1000) Hmini)
          as (d & n & -> & Hlo & Hhi).
        cbn [mbind option_bind]. do 2 eexists. split; [reflexivity|].
        cbn [needed break_type break_duration fst snd].
        repeat split; try assumption; try discriminate; lia.
      * do 2 eexists. split; [reflexivity|]. repeat split; assumption.
  - do 2 eexists. split; [reflexivity|]. repeat split; assumption.
Qed.

(** X23: with draws of [Math.random()] in [0, 1), [shouldTakeBreak] never
    throws and gives at most one directive.  It is a session-end break, of
    2 to 4 hours, exactly when the session reached the tier's action
    threshold or lasted an hour; otherwise a medium break only with 25 to
    30 actions in the session, a mini break only with 8 or more, each with
    a duration in the tier's range of minutes; and no directive reads no
    random byte. *)
Theorem shouldTakeBreak_spec st src pos (now : Z) (r1 r2 : Q) :
  (0 <= r1)%Q -> (r1 < 1)%Q -> (0 <= r2)%Q -> (r2 < 1)%Q ->
  exists answer pos',
    shouldTakeBreak st src pos now r1 r2 = Some (answer, pos')
    /\ break_answer_ok st now answer
    /\ (answer = None -> pos' = pos).
Proof. apply shouldTakeBreak_cases. Qed.

Lemma shouldTakeBreak_spec_witness :
  exists answer pos',
    shouldTakeBreak (session_with 26 NORMAL) (fun _ => Byte.x10) 0 1000
                    (2 # 10) (5 # 10)
      = Some (answer, pos')
    /\ break_answer_ok (session_with 26 NORMAL) 1000 answer
    /\ (answer = None -> pos' = 0%nat).
Proof.
  apply (shouldTakeBreak_spec (session_with 26 NORMAL) (fun _ => Byte.x10) 0 1000
           (2 # 10) (5 # 10));
    vm_compute; first [reflexivity | discriminate].
Defined.

(** X24: in the ULTRA_SLOW tier a medium break never fires, the session
    ending at 20 actions, before the first action count at which a medium
    break is possible; and in every tier a session of fewer than 8 actions
    that is less than an hour old gets no break at all. *)
Theorem shouldTakeBreak_never st src pos (now : Z) (r1 r2 : Q) :
  (0 <= r1)%Q -> (r1 < 1)%Q -> (0 <= r2)%Q -> (r2 < 1)%Q ->
  (speedMode st = ULTRA_SLOW ->
   forall b pos',
     shouldTakeBreak st src pos now r1 r2 = Some (Some b, pos') ->
     break_type b <> medium_break)
  /\ (actionsThisSession st < 8 -> now - sessionStartTime st < 3600000 ->
      shouldTakeBreak st src pos now r1 r2 = Some (None, pos)).
Proof.
  intros Hr1 Hr1' Hr2 Hr2'.
  destruct (shouldTakeBreak_cases st src pos now r1 r2 Hr1 Hr1' Hr2 Hr2')
    as (answer & pos' & Heq & Hok & Hpos).
  destruct (break_table st) as (Hend & _).
  unfold break_answer_ok in Hok. split.
  - intros Hmode b pos'' Hb. rewrite Heq in Hb. injection Hb as -> ->.
    intros Hmed. destruct Hok as [_ Hok]. rewrite Hmed in Hok.
    rewrite Hmode in Hok. cbn in Hok. lia.
  - intros Hfew Hyoung. rewrite Heq.
    destruct answer as [b|]; [exfalso|by rewrite Hpos].
    destruct Hok as [_ Hok]. destruct (break_type b); lia.
Qed.

Lemma shouldTakeBreak_never_witness :
  shouldTakeBreak (session_with 5 SLOW) (fun _ => Byte.x10) 0 1000 (2 # 10) (5 # 10)
    = Some (None, 0%nat).
Proof.
  apply (shouldTakeBreak_never (session_with 5 SLOW) (fun _ => Byte.x10) 0 1000
           (2 # 10) (5 # 10));
    vm_compute; first [reflexivity | discriminate].
Defined.

End Breaks.

(** ** Timing: the ceiling of the action delay and the persona *)

Section DelayCeiling.

Import HumanizationEngine.

Implicit Types (src : RandomSource) (pos : nat) (st : SessionState).

Lemma base_delay_table st :
  20000 <= (baseDelay (getTimingConfig (speedMode st))).1
  /\ (baseDelay (getTimingConfig (speedMode st))).2 <= 75000
  /\ 1 < (baseDelay (getTimingConfig (speedMode st))).2
         - (baseDelay (getTimingConfig (speedMode st))).1 <= 2 ^ 24.
Proof. destruct (speedMode st); cbn; lia. Qed.

Lemma fatigue_range st :
  (1 <= calculateFatigueMultiplier st)%Q /\ (calculateFatigueMultiplier st <= 3 # 2)%Q.
Proof.
  unfold calculateFatigueMultiplier.
  repeat match goal with
         | |- context [?a <=? ?b] => destruct (a <=? b)
         end; split; lra.
Qed.

Lemma rhythm_range (hour : Z) :
  (1 <= calculateDailyRhythmMultiplier hour)%Q
  /\ (calculateDailyRhythmMultiplier hour <= 2)%Q.
Proof.
  unfold calculateDailyRhythmMultiplier.
  repeat match goal with
         | |- context [?a && ?b] => destruct (a && b)
         end; split; lra.
Qed.

(** X25: the delay that [calculateActionDelay] returns is below the upper
    end of the tier's base range, raised by the 30 percent of jitter,
    multiplied by the fatigue and the rhythm multipliers, plus the 2000 ms
    of entropy; so below 294,500 ms whatever the tier, the session and the
    hour. *)
Theorem calculateActionDelay_ceiling st src pos (hour : Z) :
  exists delay pos',
    calculateActionDelay st src pos hour = Some (delay, pos')
    /\ (delay < inject_Z (baseDelay (getTimingConfig (speedMode st))).2 * (13 # 10)
                * calculateFatigueMultiplier st
                * calculateDailyRhythmMultiplier hour + 2000)%Q
    /\ (delay < 294500)%Q.
Proof.
  unfold calculateActionDelay.
  destruct (base_delay_table st) as (Hmin & Hmax & Hrange).
  destruct (baseDelay (getTimingConfig (speedMode st))) as [lo hi].
  cbn [fst snd] in *.
  destruct (cryptoRandomRange_Z src pos lo hi Hrange) as (d0 & n0 & -> & Hd0 & Hd0').
  cbn [mbind option_bind].
  assert (Hlo : (20000 <= inject_Z lo)%Q)
    by (change 20000%Q with (inject_Z 20000); rewrite <- Zle_Qle; lia).
  assert (Hhi : (inject_Z hi <= 75000)%Q)
    by (change 75000%Q with (inject_Z 75000); rewrite <- Zle_Qle; lia).
  assert (H24 : (inject_Z (2 ^ 24) == 16777216)%Q) by reflexivity.
  destruct (cryptoRandomRange_bounds src (pos + n0)
              (- (d0 * (3 # 10)))%Q (d0 * (3 # 10))%Q)
    as (jitter & n1 & -> & _ & Hj & Hj'); [lra|lra|].
  cbn [mbind option_bind].
  destruct (cryptoRandomRange_Z src (pos + n0 + n1) (-2000) 2000 ltac:(lia))
    as (entropy & n2 & -> & He & He').
  cbn [mbind option_bind].
  do 2 eexists. split; [reflexivity|].
  destruct (fatigue_range st) as [Hf Hf'].
  destruct (rhythm_range hour) as [Hr Hr'].
  set (f := calculateFatigueMultiplier st) in *.
  set (m := calculateDailyRhythmMultiplier hour) in *.
  assert (H2000 : (inject_Z 2000 == 2000)%Q) by reflexivity.
  assert (H15 : (inject_Z 15000 == 15000)%Q) by reflexivity.
  assert (Hd1 : (0 < d0 + jitter)%Q) by lra.
  assert (Hd1' : (d0 + jitter < inject_Z hi * (13 # 10))%Q) by lra.
  assert (Hd2 : ((d0 + jitter) * f < inject_Z hi * (13 # 10) * f)%Q)
    by (apply Qmult_lt_r; lra).
  assert (Hd3 : ((d0 + jitter) * f * m < inject_Z hi * (13 # 10) * f * m)%Q)
    by (apply Qmult_lt_r; lra).
  assert (Hcap2 : (inject_Z hi * (13 # 10) * f <= 75000 * (13 # 10) * (3 # 2))%Q).
  { apply Qle_trans with (inject_Z hi * (13 # 10) * (3 # 2))%Q.
    - apply Qmult_le_l; lra.
    - apply Qmult_le_r; lra. }
  assert (Hcap3 : (inject_Z hi * (13 # 10) * f * m
                   <= 75000 * (13 # 10) * (3 # 2) * 2)%Q).
  { apply Qle_trans with (inject_Z hi * (13 # 10) * f * 2)%Q.
    - apply Qmult_le_l; [|exact Hr'].
      apply Qlt_le_trans with (20000 * (13 # 10) * 1)%Q; [reflexivity|].
      apply Qle_trans with (inject_Z hi * (13 # 10) * 1)%Q.
      + apply Qmult_le_r; [reflexivity|]. apply Qmult_le_r; [reflexivity|].
        apply Qle_trans with (inject_Z lo); [exact Hlo|].
        rewrite <- Zle_Qle. lia.
      + apply Qmult_le_l; [|exact Hf].
        apply Qlt_le_trans with (20000 * (13 # 10))%Q; [reflexivity|].
        apply Qmult_le_r; [reflexivity|].
        apply Qle_trans with (inject_Z lo); [exact Hlo|].
        rewrite <- Zle_Qle. lia.
    - apply Qmult_le_r; [reflexivity|exact Hcap2]. }
  assert (Hfloor : (15000 < inject_Z hi * (13 # 10) * f * m + 2000)%Q).
  { assert ((20000 * (13 # 10) * 1 * 1 <= inject_Z hi * (13 # 10) * f * m)%Q);
      [|lra].
    assert (Hhi20 : (20000 <= inject_Z hi)%Q).
    { apply Qle_trans with (inject_Z lo); [exact Hlo|]. rewrite <- Zle_Qle. lia. }
    apply Qle_trans with (inject_Z hi * (13 # 10) * 1 * 1)%Q; [lra|].
    apply Qle_trans with (inject_Z hi * (13 # 10) * f * 1)%Q.
    - apply Qmult_le_r; [reflexivity|]. apply Qmult_le_l; lra.
    - apply Qmult_le_l; [|exact Hr].
      apply Qlt_le_trans with (inject_Z hi * (13 # 10) * 1)%Q; [lra|].
      apply Qmult_le_l; lra. }
  assert (Hmax_lt : forall a b c : Q, (a < c)%Q -> (b < c)%Q -> (Qmax a b < c)%Q).
  { intros a b c Ha Hb. apply Q.max_lub_lt; assumption. }
  split.
  - apply Hmax_lt; lra.
  - apply Hmax_lt; [|lra].
    assert ((75000 * (13 # 10) * (3 # 2) * 2 == 292500)%Q) by reflexivity. lra.
Qed.

(** X26: each figure of the persona drawn by [generatePersonalizedMetrics]
    from draws of [Math.random()] in [0, 1) is a whole number within its
    range, both ends included (typing speed 40 to 80, cursor speed 800 to
    1500, scroll speed 600 to 1200, reaction time 200 to 400), and the typo
    rate is a whole number of hundredths from 2 to 5. *)
Theorem generatePersonalizedMetrics_ranges (r1 r2 r3 r4 r5 : Q) :
  Forall (fun r => (0 <= r)%Q /\ (r < 1)%Q) [r1; r2; r3; r4; r5] ->
  (exists k, 40 <= k <= 80
     /\ (typingSpeed (generatePersonalizedMetrics r1 r2 r3 r4 r5) == inject_Z k)%Q)
  /\ (exists k, 2 <= k <= 5
        /\ (typoRate (generatePersonalizedMetrics r1 r2 r3 r4 r5)
            == inject_Z k / 100)%Q)
  /\ (exists k, 800 <= k <= 1500
        /\ (cursorSpeed (generatePersonalizedMetrics r1 r2 r3 r4 r5) == inject_Z k)%Q)
  /\ (exists k, 600 <= k <= 1200
        /\ (scrollSpeed (generatePersonalizedMetrics r1 r2 r3 r4 r5) == inject_Z k)%Q)
  /\ (exists k, 200 <= k <= 400
        /\ (reactionTime (generatePersonalizedMetrics r1 r2 r3 r4 r5) == inject_Z k)%Q).
Proof.
  intros Hall.
  repeat match goal with
         | H : Forall _ (_ :: _) |- _ =>
             let Hr := fresh "Hr" in
             apply Forall_cons in H as [Hr H]; destruct Hr
         end.
  cbn [typingSpeed typoRate cursorSpeed scrollSpeed reactionTime
       generatePersonalizedMetrics].
  destruct (randomRange_int r1 40 80) as (k1 & ? & Hk1); try assumption; try lia.
  destruct (randomRange_int r2 2 5) as (k2 & ? & Hk2); try assumption; try lia.
  destruct (randomRange_int r3 800 1500) as (k3 & ? & Hk3); try assumption; try lia.
  destruct (randomRange_int r4 600 1200) as (k4 & ? & Hk4); try assumption; try lia.
  destruct (randomRange_int r5 200 400) as (k5 & ? & Hk5); try assumption; try lia.
  split; [exists k1; by split|].
  split; [exists k2; split; [assumption|]|].
  { change 2%Q with (inject_Z 2). change 5%Q with (inject_Z 5). by rewrite Hk2. }
  split; [exists k3; by split|].
  split; [exists k4; by split|].
  exists k5; by split.
Qed.

Lemma generatePersonalizedMetrics_ranges_witness :
  exists k, 40 <= k <= 80
    /\ (typingSpeed (generatePersonalizedMetrics (1 # 2) 0 (9 # 10) (1 # 3) (99 # 100))
        == inject_Z k)%Q.
Proof.
  apply (generatePersonalizedMetrics_ranges (1 # 2) 0 (9 # 10) (1 # 3) (99 # 100)).
  repeat constructor; vm_compute; first [reflexivity | discriminate].
Defined.

End DelayCeiling.

(** ** The decision on a post *)

Section Decision.

Import WarmupProtocol.

(** X27: [decideAction] acts only when the warm-up allows a like, and
    skips with the warm-up's reason otherwise.  With a draw of 0.85 or more
    it decides on a comment without asking the warm-up about comments, so
    also on a day when the comment cap is zero and [canPerformAction]
    denies every comment; below 0.85 a comment is decided only when the
    warm-up allows it. *)
Theorem decideAction_comment_bypass (warmup : WarmupProtocol.t)
    (total comments degree : Z) (speed : SpeedMode) (rand : Q) :
  let d := decideAction warmup total comments degree speed rand in
  let likeCheck := canPerformAction warmup like total comments degree speed in
  let commentCheck := canPerformAction warmup comment total comments degree speed in
  (allowed likeCheck = false <->
     d = {| shouldAct := false; actionType := SKIP;
            decision_reason := reason likeCheck |})
  /\ (shouldAct d = true -> allowed likeCheck = true)
  /\ (allowed likeCheck = true -> (85 # 100 <= rand)%Q ->
      shouldAct d = true /\ actionType d = COMMENT)
  /\ (actionType d = COMMENT ->
      (85 # 100 <= rand)%Q \/ allowed commentCheck = true)
  /\ (allowed likeCheck = true -> (85 # 100 <= rand)%Q ->
      maxCommentsPerDay (getWarmupConfig warmup) = 0 ->
      actionType d = COMMENT /\ allowed commentCheck = false).
Proof.
  intros d likeCheck commentCheck. subst d. unfold decideAction.
  fold likeCheck commentCheck.
  assert (Hge : forall q, (q <= rand)%Q -> forall p, (p <= q)%Q ->
                  Qlt_bool rand p = false).
  { intros q Hq p Hp. apply Qlt_bool_false. lra. }
  destruct (allowed likeCheck) eqn:Hlike; cbn [negb].
  - split; [split; [discriminate|]|].
    { repeat match goal with
             | |- context [if ?b then _ else _] => destruct b
             end; discriminate. }
    split; [reflexivity|]. split.
    { intros _ Hr. rewrite !(Hge _ Hr) by lra. by cbn. }
    split.
    { destruct (Qlt_bool rand (1 # 10)); [discriminate|].
      destruct (Qlt_bool rand (6 # 10)); [discriminate|].
      destruct (Qlt_bool rand (85 # 100)) eqn:H85.
      - destruct (allowed commentCheck); [by right|discriminate].
      - intros _. left. apply Qnot_lt_le. intros Hlt.
        apply Qlt_bool_spec in Hlt. congruence. }
    intros _ Hr Hzero. rewrite !(Hge _ Hr) by lra. split; [reflexivity|].
    subst commentCheck. by apply comment_denied_when_disabled.
  - split; [by split|].
    repeat split; intros; discriminate.
Qed.

Lemma decideAction_comment_bypass_witness :
  actionType (decideAction (protocol THREE_TO_SIX_MONTHS 0 1) 0 0 1 ULTRA_SLOW (9 # 10))
    = COMMENT
  /\ allowed (canPerformAction (protocol THREE_TO_SIX_MONTHS 0 1)
                               comment 0 0 1 ULTRA_SLOW) = false.
Proof.
  apply (decideAction_comment_bypass (protocol THREE_TO_SIX_MONTHS 0 1)
           0 0 1 ULTRA_SLOW (9 # 10));
    [reflexivity|vm_compute; discriminate|reflexivity].
Defined.

End Decision.

(** ** The action history and the stop flags *)

Section History.

Import StorageManager.

Lemma filter_length_le_Z {A} (P : A -> Prop) `{forall x, Decision (P x)}
    (l : list A) :
  0 <= Z.of_nat (length (filter P l)) <= Z.of_nat (length l).
Proof. pose proof (length_filter P l). lia. Qed.

Lemma filter_filter_weaker {A} (P Q : A -> Prop)
    `{forall x, Decision (P x)} `{forall x, Decision (Q x)} (l : list A) :
  (forall x, P x -> Q x) ->
  filter P (filter Q l) = filter P l.
Proof.
  intros Himp. induction l as [|a l IH]; [done|].
  rewrite (filter_cons Q), (filter_cons P).
  destruct (decide (Q a)) as [Hq|Hq].
  - rewrite filter_cons. destruct (decide (P a)); by rewrite IH.
  - destruct (decide (P a)) as [Hp|Hp]; [by destruct Hq; apply Himp|done].
Qed.

Lemma filter_disjoint_length {A} (P Q : A -> Prop)
    `{forall x, Decision (P x)} `{forall x, Decision (Q x)} (l : list A) :
  (forall x, P x -> Q x -> False) ->
  (length (filter P l) + length (filter Q l) <= length l)%nat.
Proof.
  intros Hdis. induction l as [|a l IH]; [done|].
  rewrite (filter_cons P), (filter_cons Q).
  destruct (decide (P a)) as [Hp|Hp], (decide (Q a)) as [Hq|Hq]; cbn; try lia.
  destruct (Hdis a Hp Hq).
Qed.

(** X28: [recordAction] throws exactly when the store has no session state.
    Otherwise it leaves the scalar keys alone and stores the old history
    with the action appended, less every entry that is 30 days old or
    older: an action whose own timestamp is that old is counted in the
    session but not stored.  The session's action count goes up by one, its
    last action time is the action's timestamp, and its count for today is
    between 0 and the length of the stored history. *)
Theorem recordAction_spec (now today : Z) (action : ActionPattern)
    (store : Storage) :
  (recordAction now today action store = None
   <-> stored_sessionState store = None)
  /\ forall store', recordAction now today action store = Some store' ->
     scalars store' = scalars store
     /\ exists s s' h',
          stored_sessionState store = Some s
          /\ stored_sessionState store' = Some s'
          /\ stored_actionHistory store' = Some h'
          /\ (forall a, a ∈ h' <->
                (a ∈ default [] (stored_actionHistory store) \/ a = action)
                /\ now - THIRTY_DAYS < action_timestamp a)
          /\ (length h' <= S (length (default [] (stored_actionHistory store))))%nat
          /\ actionsThisSession s' = actionsThisSession s + 1
          /\ lastActionTime s' = action_timestamp action
          /\ 0 <= actionsToday s' <= Z.of_nat (length h').
Proof.
  unfold recordAction.
  destruct (stored_sessionState store) as [s|] eqn:Hs; cbn [mbind option_bind].
  - split; [by split|]. intros store' [= <-]. split; [done|].
    eexists s, _, _. split; [done|]. split; [reflexivity|].
    split; [reflexivity|]. split.
    { intros a. rewrite list_elem_of_filter, elem_of_app, list_elem_of_singleton.
      tauto. }
    split.
    { etrans; [apply length_filter|]. rewrite length_app. cbn. lia. }
    split; [done|]. split; [done|]. cbn [actionsToday].
    apply filter_length_le_Z.
  - split; [by split|]. intros store' [=].
Qed.

Lemma recordAction_spec_witness :
  exists store',
    recordAction 9 0 sample_like (initialize 5 empty_store) = Some store'
    /\ scalars store' = scalars (initialize 5 empty_store).
Proof.
  eexists. split; [reflexivity|].
  apply (proj1 (proj2 (recordAction_spec 9 0 sample_like
                         (initialize 5 empty_store)) _ eq_refl)).
Defined.

(** X29: two counts over one history.  After [recordAction], run on a day
    whose local midnight is [today], the session state holds the number of
    stored entries from [today] on; [getActionsToday], read at a time
    [later] whose local midnight [today'] is less than 24 hours back,
    reports as total the number of stored entries from [today'] on.  So
    the two agree when the read is on the same local day as the call
    ([today' = today]); on another day each count is against its own
    midnight.  The comments and likes that [getActionsToday] reports never
    exceed its total. *)
Theorem actionsToday_counter_agrees (now today later today' : Z)
    (action : ActionPattern) (store store' : Storage) :
  recordAction now today action store = Some store' ->
  later - 1 * 24 * 60 * 60 * 1000 < today' ->
  (exists s' h',
     stored_sessionState store' = Some s'
     /\ stored_actionHistory store' = Some h'
     /\ actionsToday s' = countActionsToday today h'
     /\ total (getActionsToday later today' store') = countActionsToday today' h'
     /\ (today' = today ->
         actionsToday s' = total (getActionsToday later today' store')))
  /\ comments (getActionsToday later today' store')
       + likes (getActionsToday later today' store')
     <= total (getActionsToday later today' store').
Proof.
  intros Hrec Hday. unfold recordAction in Hrec.
  destruct (stored_sessionState store) as [s|]; [|discriminate Hrec].
  cbn [mbind option_bind] in Hrec. injection Hrec as <-.
  unfold getActionsToday, getActionHistory.
  cbn [stored_actionHistory stored_sessionState default total comments likes].
  match goal with
  | |- context [countActionsToday today ?l] => set (h' := l)
  end.
  assert (Htotal :
            Z.of_nat (length (filter (fun a => today' <= action_timestamp a)
                        (filter (fun a => later - 1 * 24 * 60 * 60 * 1000
                                          < action_timestamp a) h')))
            = countActionsToday today' h').
  { unfold countActionsToday. f_equal. f_equal.
    apply (filter_filter_weaker (fun a => today' <= action_timestamp a)
             (fun a => later - 1 * 24 * 60 * 60 * 1000 < action_timestamp a)).
    intros a Ha. lia. }
  split.
  - eexists _, h'. split; [reflexivity|]. split; [reflexivity|].
    cbn [actionsToday]. split; [reflexivity|]. split; [exact Htotal|].
    intros ->. symmetry. exact Htotal.
  - match goal with
    | |- context [length (filter (fun a => action_type a = COMMENT) ?l)] =>
        pose proof (filter_disjoint_length
                      (fun a => action_type a = COMMENT)
                      (fun a => action_type a = LIKE) l) as Hle
    end.
    lapply Hle; [lia|]. intros a Hc Hl. congruence.
Qed.

Lemma actionsToday_counter_agrees_witness :
  exists store',
    recordAction 9 0 sample_like (initialize 5 empty_store) = Some store'
    /\ 9 - 1 * 24 * 60 * 60 * 1000 < 0
    /\ comments (getActionsToday 9 0 store')
        + likes (getActionsToday 9 0 store')
        <= total (getActionsToday 9 0 store').
Proof.
  eexists. split; [reflexivity|]. split; [reflexivity|].
  apply (proj2 (actionsToday_counter_agrees 9 0 9 0 sample_like
                  (initialize 5 empty_store) _ eq_refl eq_refl)).
Defined.

End History.

Section StopFlags.

Import StorageManager.

(** One operation on an initialised store keeps the session state present
    and changes neither stop flag, except to set it. *)
Lemma run_op_keeps_flag (flag : string) (store : Storage) (op : StoreOp) :
  flag = "emergencyStop" \/ flag = "automationPaused" ->
  is_Some (stored_sessionState store) ->
  is_Some (stored_sessionState (run_op store op))
  /\ (scalars (run_op store op) !! flag = scalars store !! flag
      \/ scalars (run_op store op) !! flag = Some (JBoolean true)).
Proof.
  intros Hflag [s Hs].
  assert (Hne : flag <> "automationEnabled" /\ flag <> "cooldownEnd"
                /\ flag <> "cooldownReason" /\ flag <> "warningCount").
  { destruct Hflag as [-> | ->]; repeat split; discriminate. }
  destruct Hne as (Hne1 & Hne2 & Hne3 & Hne4).
  destruct op as [enabled now|now| |now|now|now today action|now reason|now];
    cbn [run_op].
  - unfold setAutomationEnabled.
    destruct enabled; cbn; (split; [done|]); left; by rewrite lookup_insert_ne.
  - cbn. split; [done|]. by left.
  - cbn. split; [by rewrite Hs|].
    destruct Hflag as [-> | ->];
      [left; by rewrite lookup_insert_ne|right; by rewrite lookup_insert_eq].
  - cbn. split; [done|]. by left.
  - unfold initialize. rewrite Hs. split; [by rewrite Hs|by left].
  - unfold recordAction. rewrite Hs. cbn. split; [done|]. by left.
  - cbn. split; [by rewrite Hs|]. left. unfold CooldownManager.enable48HourCooldown.
    by rewrite !lookup_insert_ne by done.
  - destruct (CooldownManager.isInCooldown now (scalars store))
      as [[status scalars']|] eqn:Hcool.
    + cbn. split; [by rewrite Hs|]. left.
      destruct (isInCooldown_keeps _ _ _ _ Hcool) as (Hframe & _).
      by apply Hframe.
    + split; [by rewrite Hs|by left].
Qed.

(** X30: the stop flags latch.  On an initialised store, once
    [emergencyStop] or [automationPaused] holds a truthy value, it still
    does after any sequence of the store's operations (the user's toggle,
    starting and ending a session, the daily reset, a repeated
    [initialize], recorded actions, cooldowns and their expiry), and
    [isAutomationEnabled] answers a falsy value after each such sequence:
    switching automation on again does not resume it. *)
Theorem stop_flags_latch (flag : string) (store : Storage) (ops : list StoreOp) :
  flag = "emergencyStop" \/ flag = "automationPaused" ->
  truthy (scalars store !! flag) = true ->
  is_Some (stored_sessionState store) ->
  truthy (scalars (run_ops store ops) !! flag) = true
  /\ truthy (isAutomationEnabled (run_ops store ops)) = false.
Proof.
  intros Hflag Hset Hinit.
  assert (Hinv : truthy (scalars (run_ops store ops) !! flag) = true
                 /\ is_Some (stored_sessionState (run_ops store ops))).
  { unfold run_ops. induction ops as [|op ops IH] using rev_ind; [done|].
    rewrite fold_left_app. cbn [fold_left]. destruct IH as [IHset IHinit].
    destruct (run_op_keeps_flag flag _ op Hflag IHinit) as [Hsome [Heq|Heq]].
    - split; [by rewrite Heq|done].
    - split; [by rewrite Heq|done]. }
  destruct Hinv as [Hstill _]. split; [done|].
  unfold isAutomationEnabled.
  destruct (truthy (scalars (run_ops store ops) !! "automationEnabled")) eqn:Hen;
    [|done].
  destruct Hflag as [-> | ->]; rewrite Hstill;
    [by destruct (truthy (scalars (run_ops store ops) !! "automationPaused"))|done].
Qed.

Lemma stop_flags_latch_witness :
  truthy (isAutomationEnabled
            (run_ops (set_scalar "emergencyStop" (JBoolean true)
                        (initialize 5 empty_store))
                     [OpSetAutomationEnabled true 6; OpIsInCooldown 7]))
    = false.
Proof.
  apply (stop_flags_latch "emergencyStop"
           (set_scalar "emergencyStop" (JBoolean true) (initialize 5 empty_store))
           [OpSetAutomationEnabled true 6; OpIsInCooldown 7]);
    [by left|reflexivity|by eexists].
Defined.

End StopFlags.
